(** * LoveCakes backend: catalogue queries and the cart-item-add transaction

    A shallow embedding of the stored procedures
    [functional].[spProductList], [spProductGet], [spProductRelated] and
    [spCartItemAdd] and of the request validation in the Express
    controllers that call them, followed by the properties of the
    specification that were checked against them.

    Modelling conventions.
    - NUMERIC(18,6) values are integers counting millionths
      (20.00 is 20000000); NUMERIC(3,1) ratings count tenths; INT is [Z].
      The INT computations and conversions that a caller can push out of
      range ([fitsInt]) are errors, as on the server; overflow of the
      NUMERIC types is outside the model.
    - A nullable column, variable or parameter is an [option]; a SQL
      comparison whose operand is NULL is UNKNOWN and is collapsed to
      [false], which is sound here because such comparisons only occur
      positively inside WHERE and IF conditions.
    - Tables with an enforced primary key that is looked up by key are
      [gmap]s from the key to the remaining columns; the cart tables, which
      are searched by non-key columns and where duplicates matter, are lists
      in insertion order together with the next IDENTITY value.
    - NVARCHAR comparison ([sqlEq]) ignores trailing blanks, as [=], [IN]
      and [NOT IN] do on the server, and is otherwise exact (a binary
      collation). *)

From Stdlib Require Import ZArith Bool String Ascii List Lia Sorted Permutation.
From stdpp Require Import base option list gmap strings.
Import ListNotations.

Local Open Scope string_scope.
Local Open Scope Z_scope.

(** ** Schema ([_structure.sql]) *)

Record productRow := {
  prd_idAccount : Z;
  prd_idCategory : Z;
  prd_idConfectioner : Z;
  prd_name : string;
  prd_description : string;
  prd_ingredients : string;
  prd_basePrice : Z;
  prd_promotionalPrice : option Z;
  prd_isPromotion : bool;
  prd_available : bool;
  prd_stock : Z;
  prd_preparationTime : string;
  prd_averageRating : Z;
  prd_totalReviews : Z;
  prd_totalSales : Z;
  prd_dateCreated : Z;
  prd_deleted : bool
}.

Record flavorRow := {
  flv_idAccount : Z;
  flv_name : string;
  flv_description : string;
  flv_deleted : bool
}.

Record sizeRow := {
  siz_idAccount : Z;
  siz_name : string;
  siz_description : string;
  siz_servings : Z;
  siz_priceModifier : Z;
  siz_deleted : bool
}.

Record confectionerRow := {
  cnf_idAccount : Z;
  cnf_name : string;
  cnf_deleted : bool
}.

Record productImageRow := {
  prdImg_idAccount : Z;
  prdImg_idProduct : Z;
  prdImg_imageUrl : string;
  prdImg_isPrimary : bool;
  prdImg_displayOrder : Z
}.

Record productFlavorRow := { prdFlv_available : bool }.
Record productSizeRow := { prdSiz_available : bool }.

Record cartRow := {
  crt_idCart : Z;
  crt_idAccount : Z;
  crt_sessionId : string;
  crt_dateCreated : Z;
  crt_dateModified : Z
}.

Record cartItemRow := {
  crtItm_idCartItem : Z;
  crtItm_idAccount : Z;
  crtItm_idCart : Z;
  crtItm_idProduct : Z;
  crtItm_idFlavor : Z;
  crtItm_idSize : Z;
  crtItm_quantity : Z;
  crtItm_unitPrice : Z;
  crtItm_totalPrice : Z;
  crtItm_observations : option string;
  crtItm_dateCreated : Z;
  crtItm_dateModified : Z
}.

(** The database: catalogue tables keyed by their primary key
    ([pkProduct], [pkFlavor], [pkSize], [pkConfectioner], [pkProductImage],
    [pkProductFlavor] and [pkProductSize] on (idAccount, idProduct, idFlavor)
    resp. (idAccount, idProduct, idSize)), the two cart tables, and the
    next IDENTITY(1,1) value of each cart table. *)
Record Db := {
  db_product : gmap Z productRow;
  db_flavor : gmap Z flavorRow;
  db_size : gmap Z sizeRow;
  db_confectioner : gmap Z confectionerRow;
  db_productImage : gmap Z productImageRow;
  db_productFlavor : gmap (Z * Z * Z) productFlavorRow;
  db_productSize : gmap (Z * Z * Z) productSizeRow;
  db_cart : list cartRow;
  db_cartItem : list cartItemRow;
  db_identCart : Z;
  db_identCartItem : Z
}.

(** ** Errors and the transaction monad *)

(** Error 51000 is the marker of the procedures' own THROWs; 515 is SQL
    Server's "cannot insert the value NULL into column"; 245 is a failed
    conversion of a character value to INT; 8115 is an arithmetic overflow
    converting an expression to INT; 8114 is a BIGINT argument that does
    not convert to an INT parameter. *)
Inductive sqlError :=
| Throw51000 (message : string)
| NullIntoColumn (column : string)
| ConversionFailed
| ArithmeticOverflow
| BigintToInt.

(** A statement sequence inside BEGIN TRAN: it threads the database and
    stops at the first error, keeping the database as it was when the error
    was raised. *)
Definition Tx (A : Type) : Type := Db -> Db * (sqlError + A).

Definition tx_ret {A} (a : A) : Tx A := fun db => (db, inr a).

Definition tx_bind {A B} (c : Tx A) (k : A -> Tx B) : Tx B :=
  fun db =>
    match c db with
    | (db', inl e) => (db', inl e)
    | (db', inr a) => k a db'
    end.

Definition throw {A} (e : sqlError) : Tx A := fun db => (db, inl e).
Definition readDb : Tx Db := fun db => (db, inr db).

Notation "x <- c ;; k" := (tx_bind c (fun x => k))
  (at level 90, c at next level, right associativity).
Notation "c ;;; k" := (tx_bind c (fun _ => k))
  (at level 90, right associativity).

(** IF (cond) BEGIN ;THROW 51000, msg, 1; END *)
Definition throwIf (cond : bool) (msg : string) : Tx unit :=
  if cond then throw (Throw51000 msg) else tx_ret tt.

(** IF (@x IS NULL) BEGIN ;THROW 51000, msg, 1; END, binding the value. *)
Definition notNull {A} (x : option A) (msg : string) : Tx A :=
  match x with
  | None => throw (Throw51000 msg)
  | Some a => tx_ret a
  end.

(** ROLLBACK TRAN restores every table; IDENTITY values that were handed
    out inside the transaction are not given back. *)
Definition rollback (before atError : Db) : Db :=
  {| db_product := db_product before;
     db_flavor := db_flavor before;
     db_size := db_size before;
     db_confectioner := db_confectioner before;
     db_productImage := db_productImage before;
     db_productFlavor := db_productFlavor before;
     db_productSize := db_productSize before;
     db_cart := db_cart before;
     db_cartItem := db_cartItem before;
     db_identCart := db_identCart atError;
     db_identCartItem := db_identCartItem atError |}.

(** BEGIN TRY BEGIN TRAN; body; COMMIT TRAN; END TRY
    BEGIN CATCH ROLLBACK TRAN; THROW; END CATCH *)
Definition tryTran {A} (body : Tx A) : Tx A :=
  fun db =>
    match body db with
    | (db', inr a) => (db', inr a)
    | (db', inl e) => (rollback db db', inl e)
    end.

(** ** SQL helpers *)

(** SELECT @v = ... FROM t WHERE cond: the variable keeps the value of the
    last row the scan returns, and stays NULL when no row matches. *)
Definition lastMatch {A} (cond : A -> bool) (t : list A) : option A :=
  last (List.filter cond t).

Definition isSpace (c : ascii) : bool := Ascii.eqb c " "%char.

Fixpoint rtrim (s : string) : string :=
  match s with
  | EmptyString => EmptyString
  | String c s' =>
      match rtrim s' with
      | EmptyString => if isSpace c then EmptyString else String c EmptyString
      | r => String c r
      end
  end.

(** T-SQL LEN: the number of characters, trailing blanks excluded. *)
Definition LEN (s : string) : Z := Z.of_nat (String.length (rtrim s)).

Definition COALESCE {A} (x y : option A) : option A :=
  match x with
  | Some _ => x
  | None => y
  end.

(** [=] on NVARCHAR: the shorter operand is padded with blanks before the
    comparison, so trailing blanks do not count. *)
Definition sqlEq (s1 s2 : string) : bool := String.eqb (rtrim s1) (rtrim s2).

(** x IN (...) on NVARCHAR. *)
Definition sqlIn (x : string) (l : list string) : bool := existsb (sqlEq x) l.

(** The values of INT. *)
Definition fitsInt (z : Z) : bool := (-2147483648 <=? z) && (z <=? 2147483647).

(** ** [spCartItemAdd] ([spProductRelated.sql], second batch) *)

Record CartItemAddParams := {
  arg_idAccount : option Z;
  arg_sessionId : option string;
  arg_idProduct : option Z;
  arg_idFlavor : option Z;
  arg_idSize : option Z;
  arg_quantity : option Z;
  arg_observations : option string
}.

(** The CartItemResult record set. *)
Record CartItemResult := {
  res_idCartItem : Z;
  res_idCart : Z;
  res_quantity : Z;
  res_unitPrice : Z;
  res_totalPrice : Z
}.

(** EXISTS (SELECT 1 FROM product WHERE idAccount = @idAccount AND
    idProduct = @idProduct AND deleted = 0) *)
Definition productExists (db : Db) (idAccount idProduct : Z) : bool :=
  match db_product db !! idProduct with
  | Some prd => (prd_idAccount prd =? idAccount) && negb (prd_deleted prd)
  | None => false
  end.

(** ... AND available = 1 AND stock > 0 AND deleted = 0 *)
Definition productAvailable (db : Db) (idAccount idProduct : Z) : bool :=
  match db_product db !! idProduct with
  | Some prd =>
      (prd_idAccount prd =? idAccount) && prd_available prd
      && (prd_stock prd >? 0) && negb (prd_deleted prd)
  | None => false
  end.

(** EXISTS (SELECT 1 FROM productFlavor WHERE idAccount = @idAccount AND
    idProduct = @idProduct AND idFlavor = @idFlavor AND available = 1) *)
Definition flavorAvailable (db : Db) (idAccount idProduct idFlavor : Z) : bool :=
  match db_productFlavor db !! (idAccount, idProduct, idFlavor) with
  | Some prdFlv => prdFlv_available prdFlv
  | None => false
  end.

Definition sizeAvailable (db : Db) (idAccount idProduct idSize : Z) : bool :=
  match db_productSize db !! (idAccount, idProduct, idSize) with
  | Some prdSiz => prdSiz_available prdSiz
  | None => false
  end.

(** CASE WHEN isPromotion = 1 THEN promotionalPrice ELSE basePrice END *)
Definition effectivePrice (prd : productRow) : option Z :=
  if prd_isPromotion prd then prd_promotionalPrice prd
  else Some (prd_basePrice prd).

(** SELECT @unitPrice = CASE WHEN isPromotion = 1
      THEN promotionalPrice + priceModifier ELSE basePrice + priceModifier END
    FROM product prd JOIN size siz ON (siz.idAccount = prd.idAccount)
    WHERE prd.idAccount = @idAccount AND prd.idProduct = @idProduct
      AND siz.idSize = @idSize.
    NULL when no row joins or when the promotional price is NULL. *)
Definition selectUnitPrice (db : Db) (idAccount idProduct idSize : Z) : option Z :=
  match db_product db !! idProduct, db_size db !! idSize with
  | Some prd, Some siz =>
      if (prd_idAccount prd =? idAccount)
         && (siz_idAccount siz =? prd_idAccount prd)
      then
        if prd_isPromotion prd
        then match prd_promotionalPrice prd with
             | Some promo => Some (promo + siz_priceModifier siz)
             | None => None
             end
        else Some (prd_basePrice prd + siz_priceModifier siz)
      else None
  | _, _ => None
  end.

Definition cartMatches (idAccount : Z) (sessionId : string) (crt : cartRow) : bool :=
  (crt_idAccount crt =? idAccount) && sqlEq (crt_sessionId crt) sessionId.

Definition cartItemMatches (idAccount idCart idProduct idFlavor idSize : Z)
    (crtItm : cartItemRow) : bool :=
  (crtItm_idAccount crtItm =? idAccount)
  && (crtItm_idCart crtItm =? idCart)
  && (crtItm_idProduct crtItm =? idProduct)
  && (crtItm_idFlavor crtItm =? idFlavor)
  && (crtItm_idSize crtItm =? idSize).

Definition insertedCart (now idCart idAccount : Z) (sessionId : string) : cartRow :=
  {| crt_idCart := idCart; crt_idAccount := idAccount;
     crt_sessionId := sessionId;
     crt_dateCreated := now; crt_dateModified := now |}.

Definition withCarts (db : Db) (carts : list cartRow) (ident : Z) : Db :=
  {| db_product := db_product db;
     db_flavor := db_flavor db;
     db_size := db_size db;
     db_confectioner := db_confectioner db;
     db_productImage := db_productImage db;
     db_productFlavor := db_productFlavor db;
     db_productSize := db_productSize db;
     db_cart := carts;
     db_cartItem := db_cartItem db;
     db_identCart := ident;
     db_identCartItem := db_identCartItem db |}.

(** INSERT INTO cart (idAccount, sessionId) VALUES (...);
    SET @idCart = SCOPE_IDENTITY() *)
Definition insertCart (now idAccount : Z) (sessionId : string) : Tx Z :=
  fun db =>
    let idCart := db_identCart db in
    (withCarts db (db_cart db ++ [insertedCart now idCart idAccount sessionId])
               (idCart + 1),
     inr idCart).

Definition withCartItems (db : Db) (items : list cartItemRow) (ident : Z) : Db :=
  {| db_product := db_product db;
     db_flavor := db_flavor db;
     db_size := db_size db;
     db_confectioner := db_confectioner db;
     db_productImage := db_productImage db;
     db_productFlavor := db_productFlavor db;
     db_productSize := db_productSize db;
     db_cart := db_cart db;
     db_cartItem := items;
     db_identCart := db_identCart db;
     db_identCartItem := ident |}.

(** The row written by the UPDATE of the merge path: quantity, totalPrice,
    observations and dateModified are assigned, every other column
    (unitPrice included) keeps its value. *)
Definition mergedRow (newQuantity totalPrice : Z) (observations : option string)
    (now : Z) (crtItm : cartItemRow) : cartItemRow :=
  {| crtItm_idCartItem := crtItm_idCartItem crtItm;
     crtItm_idAccount := crtItm_idAccount crtItm;
     crtItm_idCart := crtItm_idCart crtItm;
     crtItm_idProduct := crtItm_idProduct crtItm;
     crtItm_idFlavor := crtItm_idFlavor crtItm;
     crtItm_idSize := crtItm_idSize crtItm;
     crtItm_quantity := newQuantity;
     crtItm_unitPrice := crtItm_unitPrice crtItm;
     crtItm_totalPrice := totalPrice;
     crtItm_observations := COALESCE observations (crtItm_observations crtItm);
     crtItm_dateCreated := crtItm_dateCreated crtItm;
     crtItm_dateModified := now |}.

(** UPDATE cartItem SET quantity = @newQuantity, totalPrice = @totalPrice,
      observations = COALESCE(@observations, observations),
      dateModified = GETUTCDATE()
    WHERE idCartItem = @idCartItem, on one row of the table. *)
Definition updateWhere (now idCartItem newQuantity totalPrice : Z)
    (observations : option string) (crtItm : cartItemRow) : cartItemRow :=
  if crtItm_idCartItem crtItm =? idCartItem
  then mergedRow newQuantity totalPrice observations now crtItm
  else crtItm.

(** The UPDATE statement; totalPrice is a NOT NULL column, so a NULL
    @totalPrice is error 515. *)
Definition updateCartItem (now idCartItem newQuantity : Z) (totalPrice : option Z)
    (observations : option string) : Tx unit :=
  fun db =>
    match totalPrice with
    | None => (db, inl (NullIntoColumn "totalPrice"))
    | Some total =>
        (withCartItems db
           (map (updateWhere now idCartItem newQuantity total observations)
                (db_cartItem db))
           (db_identCartItem db), inr tt)
    end.

(** The row of INSERT INTO cartItem (...) VALUES (...); dateCreated and
    dateModified take their default, GETUTCDATE(). *)
Definition insertedRow (now idCartItem idAccount idCart idProduct idFlavor idSize
    quantity unitPrice totalPrice : Z) (observations : option string) : cartItemRow :=
  {| crtItm_idCartItem := idCartItem;
     crtItm_idAccount := idAccount;
     crtItm_idCart := idCart;
     crtItm_idProduct := idProduct;
     crtItm_idFlavor := idFlavor;
     crtItm_idSize := idSize;
     crtItm_quantity := quantity;
     crtItm_unitPrice := unitPrice;
     crtItm_totalPrice := totalPrice;
     crtItm_observations := observations;
     crtItm_dateCreated := now;
     crtItm_dateModified := now |}.

(** The INSERT statement and SET @idCartItem = SCOPE_IDENTITY(); unitPrice
    and totalPrice are NOT NULL columns.  The IDENTITY value is handed out
    before the row is checked, so an INSERT that fails with error 515 has
    consumed it. *)
Definition insertCartItem (now idAccount idCart idProduct idFlavor idSize quantity : Z)
    (unitPrice totalPrice : option Z) (observations : option string) : Tx Z :=
  fun db =>
    match unitPrice, totalPrice with
    | Some unit, Some total =>
        let idCartItem := db_identCartItem db in
        (withCartItems db
           (db_cartItem db
            ++ [insertedRow now idCartItem idAccount idCart idProduct idFlavor
                            idSize quantity unit total observations])
           (idCartItem + 1),
         inr idCartItem)
    | None, _ =>
        (withCartItems db (db_cartItem db) (db_identCartItem db + 1),
         inl (NullIntoColumn "unitPrice"))
    | Some _, None =>
        (withCartItems db (db_cartItem db) (db_identCartItem db + 1),
         inl (NullIntoColumn "totalPrice"))
    end.

Definition toResult (crtItm : cartItemRow) : CartItemResult :=
  {| res_idCartItem := crtItm_idCartItem crtItm;
     res_idCart := crtItm_idCart crtItm;
     res_quantity := crtItm_quantity crtItm;
     res_unitPrice := crtItm_unitPrice crtItm;
     res_totalPrice := crtItm_totalPrice crtItm |}.

(** SELECT idCartItem, idCart, quantity, unitPrice, totalPrice
    FROM cartItem WHERE idCartItem = @idCartItem *)
Definition selectResult (idCartItem : Z) : Tx (list CartItemResult) :=
  db <- readDb ;;
  tx_ret (map toResult
            (List.filter (fun crtItm => crtItm_idCartItem crtItm =? idCartItem)
                         (db_cartItem db))).

(** @unitPrice * @quantity, NULL when @unitPrice is NULL. *)
Definition timesQuantity (unitPrice : option Z) (quantity : Z) : option Z :=
  match unitPrice with
  | Some unit => Some (unit * quantity)
  | None => None
  end.

(** The two product checks and the flavor and size checks (lines 301-359). *)
Definition checkCatalogue (idAccount idProduct idFlavor idSize : Z) : Tx unit :=
  db <- readDb ;;
  throwIf (negb (productExists db idAccount idProduct)) "productDoesntExist" ;;;
  throwIf (negb (productAvailable db idAccount idProduct)) "productNotAvailable" ;;;
  throwIf (negb (flavorAvailable db idAccount idProduct idFlavor))
          "flavorNotAvailable" ;;;
  throwIf (negb (sizeAvailable db idAccount idProduct idSize)) "sizeNotAvailable".

(** SELECT @idCart = idCart FROM cart WHERE idAccount = @idAccount AND
    sessionId = @sessionId; IF (@idCart IS NULL) the cart is inserted
    (lines 361-377). *)
Definition ensureCart (now idAccount : Z) (sessionId : string) : Tx Z :=
  db <- readDb ;;
  match lastMatch (cartMatches idAccount sessionId) (db_cart db) with
  | Some crt => tx_ret (crt_idCart crt)
  | None => insertCart now idAccount sessionId
  end.

(** The lookup of the existing item and the IF (@idCartItem IS NOT NULL)
    ... ELSE ... statement (lines 398-462); [totalPrice] is the value SET
    before the lookup, @unitPrice * @quantity. *)
Definition mergeOrInsert (now idAccount idCart idProduct idFlavor idSize quantity : Z)
    (unitPrice totalPrice : option Z) (observations : option string) : Tx Z :=
  db <- readDb ;;
  match lastMatch (cartItemMatches idAccount idCart idProduct idFlavor idSize)
                  (db_cartItem db) with
  | Some existing =>
      let newQuantity := crtItm_quantity existing + quantity in
      throwIf (newQuantity >? 10) "quantityExceedsMaximum" ;;;
      let totalPrice := timesQuantity unitPrice newQuantity in
      updateCartItem now (crtItm_idCartItem existing) newQuantity totalPrice
                     observations ;;;
      tx_ret (crtItm_idCartItem existing)
  | None =>
      insertCartItem now idAccount idCart idProduct idFlavor idSize quantity
                     unitPrice totalPrice observations
  end.

(** The statements between BEGIN TRAN and END TRY; [now] is GETUTCDATE(). *)
Definition spCartItemAdd_body (now : Z) (args : CartItemAddParams)
    : Tx (list CartItemResult) :=
  idAccount <- notNull (arg_idAccount args) "idAccountRequired" ;;
  sessionId <- notNull (arg_sessionId args) "sessionIdRequired" ;;
  throwIf (LEN sessionId =? 0) "sessionIdRequired" ;;;
  idProduct <- notNull (arg_idProduct args) "idProductRequired" ;;
  idFlavor <- notNull (arg_idFlavor args) "idFlavorRequired" ;;
  idSize <- notNull (arg_idSize args) "idSizeRequired" ;;
  quantity <- notNull (arg_quantity args) "quantityMustBeGreaterThanZero" ;;
  throwIf (quantity <? 1) "quantityMustBeGreaterThanZero" ;;;
  throwIf (quantity >? 10) "quantityExceedsMaximum" ;;;
  checkCatalogue idAccount idProduct idFlavor idSize ;;;
  idCart <- ensureCart now idAccount sessionId ;;
  db <- readDb ;;
  let unitPrice := selectUnitPrice db idAccount idProduct idSize in
  let totalPrice := timesQuantity unitPrice quantity in
  idCartItem <- mergeOrInsert now idAccount idCart idProduct idFlavor idSize
                              quantity unitPrice totalPrice
                              (arg_observations args) ;;
  selectResult idCartItem.

Definition spCartItemAdd (now : Z) (args : CartItemAddParams)
    : Tx (list CartItemResult) :=
  tryTran (spCartItemAdd_body now args).

(** ** Query helpers shared by the catalogue procedures *)

Definition lexOrder (c1 c2 : comparison) : comparison :=
  match c1 with
  | Eq => c2
  | _ => c1
  end.

(** Ascending comparison of a nullable key; SQL Server sorts NULL lowest. *)
Definition compareNullable (x y : option Z) : comparison :=
  match x, y with
  | None, None => Eq
  | None, Some _ => Lt
  | Some _, None => Gt
  | Some a, Some b => a ?= b
  end.

Definition ascending (x y : option Z) : comparison := compareNullable x y.
Definition descending (x y : option Z) : comparison := compareNullable y x.

Fixpoint insertBy {A} (cmp : A -> A -> comparison) (x : A) (l : list A) : list A :=
  match l with
  | [] => [x]
  | y :: l' =>
      match cmp x y with
      | Gt => y :: insertBy cmp x l'
      | _ => x :: l
      end
  end.

(** ORDER BY: a stable sort; rows the keys do not separate keep the order
    of the scan (SQL leaves their order open). *)
Definition orderBy {A} (cmp : A -> A -> comparison) (l : list A) : list A :=
  fold_right (insertBy cmp) [] l.

(** The rows of product JOIN confectioner LEFT JOIN productImage (primary
    images only) as both listing procedures write the join. *)
Record joinedRow := {
  j_idProduct : Z;
  j_prd : productRow;
  j_cnf : confectionerRow;
  j_prdImg : option productImageRow
}.

(** product JOIN confectioner ON (cnf.idAccount = prd.idAccount AND
    cnf.idConfectioner = prd.idConfectioner) *)
Definition joinConfectioner (db : Db) : list (Z * productRow * confectionerRow) :=
  flat_map
    (fun '(idProduct, prd) =>
       match db_confectioner db !! prd_idConfectioner prd with
       | Some cnf =>
           if cnf_idAccount cnf =? prd_idAccount prd
           then [(idProduct, prd, cnf)] else []
       | None => []
       end)
    (map_to_list (db_product db)).

Definition primaryImages (db : Db) (idProduct : Z) (prd : productRow)
    : list productImageRow :=
  List.filter
    (fun prdImg =>
       (prdImg_idAccount prdImg =? prd_idAccount prd)
       && (prdImg_idProduct prdImg =? idProduct)
       && prdImg_isPrimary prdImg)
    (map snd (map_to_list (db_productImage db))).

(** ... LEFT JOIN productImage ON (... AND prdImg.isPrimary = 1) *)
Definition leftJoinImage (db : Db) (rows : list (Z * productRow * confectionerRow))
    : list joinedRow :=
  flat_map
    (fun '(idProduct, prd, cnf) =>
       match primaryImages db idProduct prd with
       | [] => [{| j_idProduct := idProduct; j_prd := prd; j_cnf := cnf;
                   j_prdImg := None |}]
       | imgs =>
           map (fun prdImg => {| j_idProduct := idProduct; j_prd := prd;
                                 j_cnf := cnf; j_prdImg := Some prdImg |})
               imgs
       end)
    rows.

(** The product and confectioner columns of a joined row; no WHERE clause
    of the procedures mentions an image column. *)
Definition coreOf (r : joinedRow) : Z * productRow * confectionerRow :=
  (j_idProduct r, j_prd r, j_cnf r).

(** CASE WHEN isPromotion = 1 THEN basePrice ELSE NULL END *)
Definition originalPrice (prd : productRow) : option Z :=
  if prd_isPromotion prd then Some (prd_basePrice prd) else None.

(** ** [spProductList] *)

(** The parameters as the service binds them.  @page, @pageSize, @sortBy
    and @availability always carry a value when the call comes through the
    handler (the schema fills in the defaults), so they are not optional
    here; the filters are NULL when the request has none. *)
Record ProductListParams := {
  lst_idAccount : option Z;
  lst_page : Z;
  lst_pageSize : Z;
  lst_sortBy : string;
  lst_categoryIds : option string;
  lst_flavorIds : option string;
  lst_sizeIds : option string;
  lst_minPrice : option Z;
  lst_maxPrice : option Z;
  lst_confectionerIds : option string;
  lst_availability : string;
  lst_searchTerm : option string
}.

Record ProductSummary := {
  sum_idProduct : Z;
  sum_name : string;
  sum_imageUrl : option string;
  sum_price : option Z;
  sum_originalPrice : option Z;
  sum_isPromotion : bool;
  sum_averageRating : Z;
  sum_totalReviews : Z;
  sum_confectionerName : string;
  sum_available : bool;
  sum_preparationTime : string
}.

Record Pagination := {
  totalItems : Z;
  totalPages : Z;
  currentPage : Z;
  pageSize : Z
}.

Definition memZ (x : Z) (l : list Z) : bool := existsb (Z.eqb x) l.

(** IF (@pageSize NOT IN (12, 24, 36)) SET @pageSize = 12 *)
Definition normalizePageSize (pageSize : Z) : Z :=
  if negb (memZ pageSize [12; 24; 36]) then 12 else pageSize.

(** IF (@page < 1) SET @page = 1 *)
Definition normalizePage (page : Z) : Z :=
  if page <? 1 then 1 else page.

(** [values.includes(x)] of the request schemas: JavaScript compares the
    strings exactly. *)
Definition memString (x : string) (l : list string) : bool :=
  existsb (String.eqb x) l.

(** IF (@availability NOT IN ('disponivel', 'indisponivel', 'todos'))
      SET @availability = 'disponivel' *)
Definition normalizeAvailability (availability : string) : string :=
  if negb (sqlIn availability ["disponivel"; "indisponivel"; "todos"])
  then "disponivel" else availability.

(** (@availability = 'disponivel' AND available = 1 AND stock > 0)
    OR (@availability = 'indisponivel' AND (available = 0 OR stock = 0))
    OR (@availability = 'todos') *)
Definition availabilityFilter (availability : string) (prd : productRow) : bool :=
  (sqlEq availability "disponivel" && prd_available prd && (prd_stock prd >? 0))
  || (sqlEq availability "indisponivel"
      && (negb (prd_available prd) || (prd_stock prd =? 0)))
  || sqlEq availability "todos".

(** @ids IS NULL OR x IN (the integers of the list) *)
Definition idFilter (ids : option (list Z)) (x : Z) : bool :=
  match ids with
  | None => true
  | Some l => memZ x l
  end.

(** @flavorIds IS NULL OR EXISTS (SELECT 1 FROM productFlavor WHERE
    idAccount = prd.idAccount AND idProduct = prd.idProduct
    AND idFlavor IN (...) AND available = 1) *)
Definition flavorFilter (db : Db) (ids : option (list Z)) (idProduct : Z)
    (prd : productRow) : bool :=
  match ids with
  | None => true
  | Some l =>
      existsb (fun idFlavor => flavorAvailable db (prd_idAccount prd) idProduct idFlavor) l
  end.

Definition sizeFilter (db : Db) (ids : option (list Z)) (idProduct : Z)
    (prd : productRow) : bool :=
  match ids with
  | None => true
  | Some l =>
      existsb (fun idSize => sizeAvailable db (prd_idAccount prd) idProduct idSize) l
  end.

(** @minPrice IS NULL OR price >= @minPrice *)
Definition minPriceFilter (minPrice : option Z) (prd : productRow) : bool :=
  match minPrice with
  | None => true
  | Some lo => match effectivePrice prd with
               | Some price => price >=? lo
               | None => false
               end
  end.

Definition maxPriceFilter (maxPrice : option Z) (prd : productRow) : bool :=
  match maxPrice with
  | None => true
  | Some hi => match effectivePrice prd with
               | Some price => price <=? hi
               | None => false
               end
  end.

(** The id-list filters after STRING_SPLIT and CAST. *)
Record idLists := {
  ids_category : option (list Z);
  ids_flavor : option (list Z);
  ids_size : option (list Z);
  ids_confectioner : option (list Z)
}.

Section ProductList.

(** SQL Server built-ins whose result depends on the collation and on the
    conversion rules of the server:
    [splitIds s] is SELECT CAST(value AS INT) FROM STRING_SPLIT(s, ','),
    [None] when a piece does not convert (error 245);
    [like text term] is text LIKE '%' + term + '%'. *)
Variable splitIds : string -> option (list Z).
Variable like : string -> string -> bool.

(** @searchTerm IS NULL OR name LIKE ... OR description LIKE ...
    OR ingredients LIKE ... *)
Definition searchFilter (searchTerm : option string) (prd : productRow) : bool :=
  match searchTerm with
  | None => true
  | Some term =>
      like (prd_name prd) term || like (prd_description prd) term
      || like (prd_ingredients prd) term
  end.

(** The WHERE clause of the page query (lines 153-220). *)
Definition pageWhere (db : Db) (idAccount : Z) (availability : string)
    (ids : idLists) (p : ProductListParams)
    (row : Z * productRow * confectionerRow) : bool :=
  let '(idProduct, prd, cnf) := row in
  (prd_idAccount prd =? idAccount)
  && negb (prd_deleted prd)
  && negb (cnf_deleted cnf)
  && availabilityFilter availability prd
  && idFilter (ids_category ids) (prd_idCategory prd)
  && flavorFilter db (ids_flavor ids) idProduct prd
  && sizeFilter db (ids_size ids) idProduct prd
  && minPriceFilter (lst_minPrice p) prd
  && maxPriceFilter (lst_maxPrice p) prd
  && idFilter (ids_confectioner ids) (prd_idConfectioner prd)
  && searchFilter (lst_searchTerm p) prd.

(** The WHERE clause of the count query (lines 255-316). *)
Definition countWhere (db : Db) (idAccount : Z) (availability : string)
    (ids : idLists) (p : ProductListParams)
    (row : Z * productRow * confectionerRow) : bool :=
  let '(idProduct, prd, cnf) := row in
  (prd_idAccount prd =? idAccount)
  && negb (prd_deleted prd)
  && negb (cnf_deleted cnf)
  && availabilityFilter availability prd
  && idFilter (ids_category ids) (prd_idCategory prd)
  && flavorFilter db (ids_flavor ids) idProduct prd
  && sizeFilter db (ids_size ids) idProduct prd
  && minPriceFilter (lst_minPrice p) prd
  && maxPriceFilter (lst_maxPrice p) prd
  && idFilter (ids_confectioner ids) (prd_idConfectioner prd)
  && searchFilter (lst_searchTerm p) prd.

(** CASE WHEN @sortBy = key THEN column END: NULL on every row unless
    the key is the active one. *)
Definition whenSort (sortBy key : string) (v : option Z) : option Z :=
  if sqlEq sortBy key then v else None.

(** The ORDER BY list of the page query (lines 221-237). *)
Definition listOrder (sortBy : string) (r1 r2 : joinedRow) : comparison :=
  let price r := effectivePrice (j_prd r) in
  lexOrder (ascending (whenSort sortBy "preco_menor" (price r1))
                      (whenSort sortBy "preco_menor" (price r2)))
 (lexOrder (descending (whenSort sortBy "preco_maior" (price r1))
                       (whenSort sortBy "preco_maior" (price r2)))
 (lexOrder (descending (whenSort sortBy "mais_vendidos" (Some (prd_totalSales (j_prd r1))))
                       (whenSort sortBy "mais_vendidos" (Some (prd_totalSales (j_prd r2)))))
 (lexOrder (descending (whenSort sortBy "melhor_avaliados" (Some (prd_averageRating (j_prd r1))))
                       (whenSort sortBy "melhor_avaliados" (Some (prd_averageRating (j_prd r2)))))
 (lexOrder (descending (whenSort sortBy "mais_recentes" (Some (prd_dateCreated (j_prd r1))))
                       (whenSort sortBy "mais_recentes" (Some (prd_dateCreated (j_prd r2)))))
           (j_idProduct r1 ?= j_idProduct r2))))).

Definition toSummary (r : joinedRow) : ProductSummary :=
  {| sum_idProduct := j_idProduct r;
     sum_name := prd_name (j_prd r);
     sum_imageUrl := option_map prdImg_imageUrl (j_prdImg r);
     sum_price := effectivePrice (j_prd r);
     sum_originalPrice := originalPrice (j_prd r);
     sum_isPromotion := prd_isPromotion (j_prd r);
     sum_averageRating := prd_averageRating (j_prd r);
     sum_totalReviews := prd_totalReviews (j_prd r);
     sum_confectionerName := cnf_name (j_cnf r);
     sum_available := prd_available (j_prd r);
     sum_preparationTime := prd_preparationTime (j_prd r) |}.

(** CEILING(CAST(n AS FLOAT) / d) for a positive INT d; the quotient of
    two INTs is far enough from the next integer for the FLOAT
    computation to agree with the exact one. *)
Definition CEILING_div (n d : Z) : Z := - ((- n) / d).

Definition splitOpt (s : option string) : option (option (list Z)) :=
  match s with
  | None => Some None
  | Some text => match splitIds text with
                 | Some l => Some (Some l)
                 | None => None
                 end
  end.

(** The four id-list parameters; a piece that is not an integer fails
    the statement that splits it. *)
Definition splitAll (p : ProductListParams) : option idLists :=
  match splitOpt (lst_categoryIds p), splitOpt (lst_flavorIds p),
        splitOpt (lst_sizeIds p), splitOpt (lst_confectionerIds p) with
  | Some c, Some f, Some s, Some k =>
      Some {| ids_category := c; ids_flavor := f; ids_size := s;
              ids_confectioner := k |}
  | _, _, _, _ => None
  end.

(** OFFSET @offset ROWS FETCH NEXT @pageSize ROWS ONLY *)
Definition offsetFetch {A} (offset pageSize : Z) (rows : list A) : list A :=
  take (Z.to_nat pageSize) (drop (Z.to_nat offset) rows).

Definition spProductList (db : Db) (p : ProductListParams)
    : sqlError + (list ProductSummary * Pagination) :=
  match lst_idAccount p with
  | None => inl (Throw51000 "idAccountRequired")
  | Some idAccount =>
      let page := normalizePage (lst_page p) in
      let pageSize := normalizePageSize (lst_pageSize p) in
      let availability := normalizeAvailability (lst_availability p) in
      (* DECLARE @offset INT = (@page - 1) * @pageSize, line 116 *)
      let offset := (page - 1) * pageSize in
      if negb (fitsInt offset) then inl ArithmeticOverflow else
      match splitAll p with
      | None => inl ConversionFailed
      | Some ids =>
          let products :=
            map toSummary
              (offsetFetch offset pageSize
                 (orderBy (listOrder (lst_sortBy p))
                    (List.filter
                       (fun r => pageWhere db idAccount availability ids p (coreOf r))
                       (leftJoinImage db (joinConfectioner db))))) in
          let count :=
            Z.of_nat (length (List.filter (countWhere db idAccount availability ids p)
                                          (joinConfectioner db))) in
          inr (products,
               {| totalItems := count;
                  totalPages := CEILING_div count pageSize;
                  currentPage := page;
                  pageSize := pageSize |})
      end
  end.

End ProductList.

(** ** [spProductGet] ([routes/v1/index.ts], second document)

    Only the AvailableFlavors and AvailableSizes record sets are modelled;
    the other four (details, images, reviews, confectioner) read tables no
    property below depends on. *)

Record AvailableFlavor := {
  af_idFlavor : Z;
  af_name : string;
  af_description : string
}.

Record AvailableSize := {
  as_idSize : Z;
  as_name : string;
  as_description : string;
  as_servings : Z;
  as_priceModifier : Z
}.

Record ProductGetResult := {
  get_flavors : list AvailableFlavor;
  get_sizes : list AvailableSize
}.

(** FROM flavor flv JOIN productFlavor prdFlv ON (prdFlv.idAccount =
    flv.idAccount AND prdFlv.idFlavor = flv.idFlavor)
    WHERE flv.idAccount = @idAccount AND prdFlv.idProduct = @idProduct
      AND prdFlv.available = 1 AND flv.deleted = 0 *)
Definition flavorListed (db : Db) (idAccount idProduct : Z)
    (row : Z * flavorRow) : bool :=
  let '(idFlavor, flv) := row in
  (flv_idAccount flv =? idAccount)
  && flavorAvailable db (flv_idAccount flv) idProduct idFlavor
  && negb (flv_deleted flv).

Definition sizeListed (db : Db) (idAccount idProduct : Z)
    (row : Z * sizeRow) : bool :=
  let '(idSize, siz) := row in
  (siz_idAccount siz =? idAccount)
  && sizeAvailable db (siz_idAccount siz) idProduct idSize
  && negb (siz_deleted siz).

Definition toAvailableFlavor (row : Z * flavorRow) : AvailableFlavor :=
  {| af_idFlavor := fst row;
     af_name := flv_name (snd row);
     af_description := flv_description (snd row) |}.

Definition toAvailableSize (row : Z * sizeRow) : AvailableSize :=
  {| as_idSize := fst row;
     as_name := siz_name (snd row);
     as_description := siz_description (snd row);
     as_servings := siz_servings (snd row);
     as_priceModifier := siz_priceModifier (snd row) |}.

Definition spProductGet (db : Db) (idAccount idProduct : option Z)
    : sqlError + ProductGetResult :=
  match idAccount with
  | None => inl (Throw51000 "idAccountRequired")
  | Some idAccount =>
      match idProduct with
      | None => inl (Throw51000 "idProductRequired")
      | Some idProduct =>
          if negb (productExists db idAccount idProduct)
          then inl (Throw51000 "productDoesntExist")
          else
            inr {| get_flavors :=
                     map toAvailableFlavor
                       (orderBy (fun r1 r2 => String.compare (flv_name (snd r1))
                                                             (flv_name (snd r2)))
                          (List.filter (flavorListed db idAccount idProduct)
                                       (map_to_list (db_flavor db))));
                   get_sizes :=
                     map toAvailableSize
                       (orderBy (fun r1 r2 => siz_servings (snd r1) ?= siz_servings (snd r2))
                          (List.filter (sizeListed db idAccount idProduct)
                                       (map_to_list (db_size db)))) |}
      end
  end.

(** ** [spProductRelated]

    @limit and @criteria carry a value on every call of the handler. *)

Record RelatedProduct := {
  rel_idProduct : Z;
  rel_name : string;
  rel_imageUrl : option string;
  rel_price : option Z;
  rel_originalPrice : option Z;
  rel_isPromotion : bool;
  rel_averageRating : Z;
  rel_totalReviews : Z;
  rel_confectionerName : string
}.

Definition toRelated (r : joinedRow) : RelatedProduct :=
  {| rel_idProduct := j_idProduct r;
     rel_name := prd_name (j_prd r);
     rel_imageUrl := option_map prdImg_imageUrl (j_prdImg r);
     rel_price := effectivePrice (j_prd r);
     rel_originalPrice := originalPrice (j_prd r);
     rel_isPromotion := prd_isPromotion (j_prd r);
     rel_averageRating := prd_averageRating (j_prd r);
     rel_totalReviews := prd_totalReviews (j_prd r);
     rel_confectionerName := cnf_name (j_cnf r) |}.

(** column = @variable, UNKNOWN when the variable is NULL. *)
Definition eqVar (column : Z) (variable : option Z) : bool :=
  match variable with
  | Some v => column =? v
  | None => false
  end.

(** The conditions the three SELECTs share: another product of the
    account that is available, in stock and not deleted, of a confectioner
    that is not deleted. *)
Definition relatedWhere (idAccount idProduct : Z)
    (row : Z * productRow * confectionerRow) : bool :=
  let '(id, prd, cnf) := row in
  (prd_idAccount prd =? idAccount)
  && negb (id =? idProduct)
  && prd_available prd
  && (prd_stock prd >? 0)
  && negb (prd_deleted prd)
  && negb (cnf_deleted cnf).

(** ORDER BY averageRating DESC, totalSales DESC *)
Definition byRatingThenSales (r1 r2 : joinedRow) : comparison :=
  lexOrder (prd_averageRating (j_prd r2) ?= prd_averageRating (j_prd r1))
           (prd_totalSales (j_prd r2) ?= prd_totalSales (j_prd r1)).

(** ORDER BY totalSales DESC, averageRating DESC *)
Definition bySalesThenRating (r1 r2 : joinedRow) : comparison :=
  lexOrder (prd_totalSales (j_prd r2) ?= prd_totalSales (j_prd r1))
           (prd_averageRating (j_prd r2) ?= prd_averageRating (j_prd r1)).

(** SELECT TOP (@limit) ... FROM product JOIN confectioner LEFT JOIN
    productImage WHERE cond ORDER BY order *)
Definition selectTop (db : Db) (limit : Z)
    (cond : Z * productRow * confectionerRow -> bool)
    (order : joinedRow -> joinedRow -> comparison) : list RelatedProduct :=
  map toRelated
    (take (Z.to_nat limit)
       (orderBy order
          (List.filter (fun r => cond (coreOf r))
                       (leftJoinImage db (joinConfectioner db))))).

(** IF (@criteria NOT IN ('categoria', 'sabor', 'confeiteiro', 'popularidade'))
      SET @criteria = 'categoria' *)
Definition normalizeCriteria (criteria : string) : string :=
  if negb (sqlIn criteria ["categoria"; "sabor"; "confeiteiro"; "popularidade"])
  then "categoria" else criteria.

(** IF (@limit < 1) SET @limit = 4 *)
Definition normalizeLimit (limit : Z) : Z :=
  if limit <? 1 then 4 else limit.

(** The result is the list of record sets the procedure produced: one per
    SELECT statement that ran. *)
Definition spProductRelated (db : Db) (idAccount idProduct : option Z)
    (limit : Z) (criteria : string) : sqlError + list (list RelatedProduct) :=
  match idAccount with
  | None => inl (Throw51000 "idAccountRequired")
  | Some idAccount =>
      match idProduct with
      | None => inl (Throw51000 "idProductRequired")
      | Some idProduct =>
          let limit := normalizeLimit limit in
          let criteria := normalizeCriteria criteria in
          if negb (productExists db idAccount idProduct)
          then inl (Throw51000 "productDoesntExist")
          else
            let reference :=
              match db_product db !! idProduct with
              | Some prd => if prd_idAccount prd =? idAccount then Some prd else None
              | None => None
              end in
            let idCategory := option_map prd_idCategory reference in
            let idConfectioner := option_map prd_idConfectioner reference in
            if sqlEq criteria "categoria" then
              inr [selectTop db limit
                     (fun row => relatedWhere idAccount idProduct row
                                 && eqVar (prd_idCategory (snd (fst row))) idCategory)
                     byRatingThenSales]
            else if sqlEq criteria "confeiteiro" then
              inr [selectTop db limit
                     (fun row => relatedWhere idAccount idProduct row
                                 && eqVar (prd_idConfectioner (snd (fst row))) idConfectioner)
                     byRatingThenSales]
            else if sqlEq criteria "popularidade" then
              inr [selectTop db limit (relatedWhere idAccount idProduct)
                     bySalesThenRating]
            else inr []
      end
  end.

(** ** Request validation and handlers ([api/v1/external/product/controller.ts])

    A request field is what [{...req.params, ...req.query, ...req.body}]
    holds under its name.  For a field read through [z.coerce.number()] the
    model starts from the value of [Number(raw)]. *)

Inductive jsValue :=
| JsUndefined
| JsNull
| JsString (s : string)
| JsOther.

(** [Number(raw)]: an integer, another finite number (kept to the millionth,
    the precision of the NUMERIC(18,6) parameter it is bound to), or NaN. *)
Inductive jsNumber :=
| JsInt (z : Z)
| JsFraction (millionths : Z)
| JsNaN.

Inductive Response (A : Type) :=
| Json200 (data : A)
| Json400 (message : string)
| NextZodError
| NextStatusGeneralError.

Arguments Json200 {A} data.
Arguments Json400 {A} message.
Arguments NextZodError {A}.
Arguments NextStatusGeneralError {A}.

(** z.coerce.number().int().positive() *)
Definition zFK (raw : jsNumber) : option Z :=
  match raw with
  | JsInt z => if z >? 0 then Some z else None
  | _ => None
  end.

(** z.coerce.number().int().positive().optional().default(d) *)
Definition zPositiveIntDefault (d : Z) (raw : option jsNumber) : option Z :=
  match raw with
  | None => Some d
  | Some n => zFK n
  end.

(** z.coerce.number().int().refine((val) => [12, 24, 36].includes(val))
      .optional().default(12) *)
Definition zPageSize (raw : option jsNumber) : option Z :=
  match raw with
  | None => Some 12
  | Some (JsInt z) => if memZ z [12; 24; 36] then Some z else None
  | Some _ => None
  end.

(** z.enum(values).optional().default(d) *)
Definition zEnumDefault (values : list string) (d : string) (raw : jsValue)
    : option string :=
  match raw with
  | JsUndefined => Some d
  | JsString s => if memString s values then Some s else None
  | _ => None
  end.

(** zNullableString(maxLength): z.string().max(maxLength).nullable() *)
Definition zNullableString (maxLength : nat) (raw : jsValue) : option (option string) :=
  match raw with
  | JsNull => Some None
  | JsString s => if (String.length s <=? maxLength)%nat then Some (Some s) else None
  | _ => None
  end.

(** z.string().max(maxLength).optional() *)
Definition zOptionalString (maxLength : nat) (raw : jsValue) : option (option string) :=
  match raw with
  | JsUndefined => Some None
  | JsString s => if (String.length s <=? maxLength)%nat then Some (Some s) else None
  | _ => None
  end.

(** z.coerce.number().nonnegative().optional() *)
Definition zOptionalPrice (raw : option jsNumber) : option (option Z) :=
  match raw with
  | None => Some None
  | Some (JsInt z) => if z >=? 0 then Some (Some (z * 1000000)) else None
  | Some (JsFraction m) => if m >=? 0 then Some (Some m) else None
  | Some JsNaN => None
  end.

Record ListRequest := {
  req_page : option jsNumber;
  req_pageSize : option jsNumber;
  req_sortBy : jsValue;
  req_categoryIds : jsValue;
  req_flavorIds : jsValue;
  req_sizeIds : jsValue;
  req_minPrice : option jsNumber;
  req_maxPrice : option jsNumber;
  req_confectionerIds : jsValue;
  req_availability : jsValue;
  req_searchTerm : jsValue
}.

Definition sortByValues : list string :=
  ["relevancia"; "preco_menor"; "preco_maior"; "mais_vendidos";
   "melhor_avaliados"; "mais_recentes"].

Definition availabilityValues : list string :=
  ["disponivel"; "indisponivel"; "todos"].

Definition criteriaValues : list string :=
  ["categoria"; "sabor"; "confeiteiro"; "popularidade"].

(** [operation.read(req, querySchema)] of [listHandler]: the schema parse,
    then the fixed credential [idAccount: 1] is attached. *)
Definition listQuerySchema (req : ListRequest) : option ProductListParams :=
  match zPositiveIntDefault 1 (req_page req),
        zPageSize (req_pageSize req),
        zEnumDefault sortByValues "relevancia" (req_sortBy req),
        zNullableString 500 (req_categoryIds req),
        zNullableString 500 (req_flavorIds req),
        zNullableString 500 (req_sizeIds req) with
  | Some page, Some pageSize, Some sortBy, Some categoryIds, Some flavorIds,
    Some sizeIds =>
      match zOptionalPrice (req_minPrice req),
            zOptionalPrice (req_maxPrice req),
            zNullableString 500 (req_confectionerIds req),
            zEnumDefault availabilityValues "disponivel" (req_availability req),
            zOptionalString 100 (req_searchTerm req) with
      | Some minPrice, Some maxPrice, Some confectionerIds, Some availability,
        Some searchTerm =>
          Some {| lst_idAccount := Some 1;
                  lst_page := page;
                  lst_pageSize := pageSize;
                  lst_sortBy := sortBy;
                  lst_categoryIds := categoryIds;
                  lst_flavorIds := flavorIds;
                  lst_sizeIds := sizeIds;
                  lst_minPrice := minPrice;
                  lst_maxPrice := maxPrice;
                  lst_confectionerIds := confectionerIds;
                  lst_availability := availability;
                  lst_searchTerm := searchTerm |}
      | _, _, _, _, _ => None
      end
  | _, _, _, _, _, _ => None
  end.

(** The catch block shared by the handlers: error 51000 becomes a 400 with
    its message, anything else goes to [next(StatusGeneralError)]. *)
Definition respond {A} (result : sqlError + A) : Response A :=
  match result with
  | inr data => Json200 data
  | inl (Throw51000 message) => Json400 message
  | inl _ => NextStatusGeneralError
  end.

(** [request.input(key, value)] of [dbRequest]: a number that is an
    integer outside the 32-bit range is sent as BIGINT, and the call of a
    routine whose parameter is INT then fails with error 8114 before the
    routine runs; NULL binds to any type. *)
Definition bindsAsInt (value : option Z) : bool :=
  match value with
  | Some z => fitsInt z
  | None => true
  end.

Section Controllers.

Variable splitIds : string -> option (list Z).
Variable like : string -> string -> bool.

(** [productList] ([services/product/productRules.ts]): the two record sets
    of the routine, the second reduced to its single row. *)
Definition productList (db : Db) (params : ProductListParams)
    : sqlError + (list ProductSummary * Pagination) :=
  if bindsAsInt (lst_idAccount params) && fitsInt (lst_page params)
     && fitsInt (lst_pageSize params)
  then spProductList splitIds like db params
  else inl BigintToInt.

Definition listHandler (db : Db) (req : ListRequest)
    : Response (list ProductSummary * Pagination) :=
  match listQuerySchema req with
  | None => NextZodError
  | Some validated => respond (productList db validated)
  end.

End Controllers.

Record RelatedRequest := {
  req_id : jsNumber;
  req_limit : option jsNumber;
  req_criteria : jsValue
}.

Definition relatedParamsSchema (req : RelatedRequest) : option (Z * Z * string) :=
  match zFK (req_id req),
        zPositiveIntDefault 4 (req_limit req),
        zEnumDefault criteriaValues "categoria" (req_criteria req) with
  | Some id, Some limit, Some criteria => Some (id, limit, criteria)
  | _, _, _ => None
  end.

(** [productRelated] returns [result[0]], the first record set, which is
    [undefined] ([None]) when the procedure produced none. *)
Definition productRelated (db : Db) (idAccount idProduct limit : Z)
    (criteria : string) : sqlError + option (list RelatedProduct) :=
  if fitsInt idAccount && fitsInt idProduct && fitsInt limit
  then
    match spProductRelated db (Some idAccount) (Some idProduct) limit criteria with
    | inl e => inl e
    | inr recordsets => inr (head recordsets)
    end
  else inl BigintToInt.

Definition relatedHandler (db : Db) (req : RelatedRequest)
    : Response (option (list RelatedProduct)) :=
  match relatedParamsSchema req with
  | None => NextZodError
  | Some (id, limit, criteria) => respond (productRelated db 1 id limit criteria)
  end.

(** ** Vocabulary of the properties *)

(** The offset of the requested page, (@page - 1) * @pageSize after the
    routine has normalised the two; it has to be a value of INT. *)
Definition pageOffset (p : ProductListParams) : Z :=
  (normalizePage (lst_page p) - 1) * normalizePageSize (lst_pageSize p).

(** The joined rows that the WHERE clause of the page query lets through,
    in the order of the scan. *)
Definition matchingRows (like : string -> string -> bool) (db : Db)
    (idAccount : Z) (ids : idLists) (p : ProductListParams) : list joinedRow :=
  List.filter
    (fun r => pageWhere like db idAccount
                (normalizeAvailability (lst_availability p)) ids p (coreOf r))
    (leftJoinImage db (joinConfectioner db)).

(** The cart items a session holds for one (product, flavor, size) choice:
    rows of the tuple whose cart is a cart of (idAccount, sessionId). *)
Definition inSessionCart (db : Db) (idAccount : Z) (sessionId : string)
    (crtItm : cartItemRow) : bool :=
  existsb (fun crt => cartMatches idAccount sessionId crt
                      && (crt_idCart crt =? crtItm_idCart crtItm))
          (db_cart db).

Definition isTupleRow (db : Db) (idAccount : Z) (sessionId : string)
    (idProduct idFlavor idSize : Z) (crtItm : cartItemRow) : bool :=
  inSessionCart db idAccount sessionId crtItm
  && (crtItm_idAccount crtItm =? idAccount)
  && (crtItm_idProduct crtItm =? idProduct)
  && (crtItm_idFlavor crtItm =? idFlavor)
  && (crtItm_idSize crtItm =? idSize).

Definition tupleRows (db : Db) (idAccount : Z) (sessionId : string)
    (idProduct idFlavor idSize : Z) : list cartItemRow :=
  List.filter (isTupleRow db idAccount sessionId idProduct idFlavor idSize)
              (db_cartItem db).

(** totalPrice = unitPrice x quantity on a stored row. *)
Definition derivedTotal (crtItm : cartItemRow) : Prop :=
  crtItm_totalPrice crtItm = crtItm_unitPrice crtItm * crtItm_quantity crtItm.

(** [fkCartItem_Cart]: every cart item refers to a cart row. *)
Definition fkCartItem_Cart (db : Db) : Prop :=
  forall crtItm, In crtItm (db_cartItem db) ->
    exists crt, In crt (db_cart db) /\ crt_idCart crt = crtItm_idCart crtItm.

(** IDENTITY columns: the values in use lie below the next one. *)
Definition cartIdentityFresh (db : Db) : Prop :=
  forall crt, In crt (db_cart db) -> crt_idCart crt < db_identCart db.

Definition cartItemIdentityFresh (db : Db) : Prop :=
  forall crtItm, In crtItm (db_cartItem db) ->
    crtItm_idCartItem crtItm < db_identCartItem db.

(** "Cart: one per (tenant, session) pair". *)
Definition oneCartPerSession (db : Db) : Prop :=
  forall idAccount sessionId,
    (length (List.filter (cartMatches idAccount sessionId) (db_cart db)) <= 1)%nat.

(** "CartItem: unique per (cart, product, flavor, size) combination". *)
Definition oneItemPerTuple (db : Db) : Prop :=
  forall idAccount idCart idProduct idFlavor idSize,
    (length (List.filter (cartItemMatches idAccount idCart idProduct idFlavor idSize)
                         (db_cartItem db)) <= 1)%nat.

Record cartInvariant (db : Db) : Prop := {
  inv_fk : fkCartItem_Cart db;
  inv_cartIdentity : cartIdentityFresh db;
  inv_cartItemIdentity : cartItemIdentityFresh db;
  inv_oneCart : oneCartPerSession db;
  inv_oneItem : oneItemPerTuple db
}.

(** The parameters of a well-formed call: every required one present, a
    session id that is not blank. *)
Definition addArgs (idAccount : Z) (sessionId : string)
    (idProduct idFlavor idSize quantity : Z) (observations : option string)
    : CartItemAddParams :=
  {| arg_idAccount := Some idAccount;
     arg_sessionId := Some sessionId;
     arg_idProduct := Some idProduct;
     arg_idFlavor := Some idFlavor;
     arg_idSize := Some idSize;
     arg_quantity := Some quantity;
     arg_observations := observations |}.

(** Steps 2 to 5 of the add: the product exists and is available and in
    stock, the flavor and the size are enabled for it. *)
Definition availabilityChecks (db : Db) (idAccount idProduct idFlavor idSize : Z)
    : bool :=
  productExists db idAccount idProduct
  && productAvailable db idAccount idProduct
  && flavorAvailable db idAccount idProduct idFlavor
  && sizeAvailable db idAccount idProduct idSize.

(** A catalogue edit between two requests: the product table is replaced,
    the carts are left alone. *)
Definition withProducts (db : Db) (products : gmap Z productRow) : Db :=
  {| db_product := products;
     db_flavor := db_flavor db;
     db_size := db_size db;
     db_confectioner := db_confectioner db;
     db_productImage := db_productImage db;
     db_productFlavor := db_productFlavor db;
     db_productSize := db_productSize db;
     db_cart := db_cart db;
     db_cartItem := db_cartItem db;
     db_identCart := db_identCart db;
     db_identCartItem := db_identCartItem db |}.

Definition deleteFlavor (flv : flavorRow) : flavorRow :=
  {| flv_idAccount := flv_idAccount flv;
     flv_name := flv_name flv;
     flv_description := flv_description flv;
     flv_deleted := true |}.

Definition deleteSize (siz : sizeRow) : sizeRow :=
  {| siz_idAccount := siz_idAccount siz;
     siz_name := siz_name siz;
     siz_description := siz_description siz;
     siz_servings := siz_servings siz;
     siz_priceModifier := siz_priceModifier siz;
     siz_deleted := true |}.

(** Soft-deletes every flavor and every size entity; the association
    tables are untouched. *)
Definition softDeleteFlavorsAndSizes (db : Db) : Db :=
  {| db_product := db_product db;
     db_flavor := deleteFlavor <$> db_flavor db;
     db_size := deleteSize <$> db_size db;
     db_confectioner := db_confectioner db;
     db_productImage := db_productImage db;
     db_productFlavor := db_productFlavor db;
     db_productSize := db_productSize db;
     db_cart := db_cart db;
     db_cartItem := db_cartItem db;
     db_identCart := db_identCart db;
     db_identCartItem := db_identCartItem db |}.

(** *** A small shop used for the concrete runs *)

Definition cake (basePrice stock : Z) : productRow :=
  {| prd_idAccount := 1; prd_idCategory := 1; prd_idConfectioner := 1;
     prd_name := "Bolo de cenoura"; prd_description := "Bolo caseiro";
     prd_ingredients := "cenoura"; prd_basePrice := basePrice;
     prd_promotionalPrice := None; prd_isPromotion := false;
     prd_available := true; prd_stock := stock;
     prd_preparationTime := "2 dias"; prd_averageRating := 45;
     prd_totalReviews := 2; prd_totalSales := 10;
     prd_dateCreated := 0; prd_deleted := false |}.

Definition chocolate : flavorRow :=
  {| flv_idAccount := 1; flv_name := "Chocolate"; flv_description := "";
     flv_deleted := false |}.

Definition medium : sizeRow :=
  {| siz_idAccount := 1; siz_name := "Medio"; siz_description := "";
     siz_servings := 10; siz_priceModifier := 5000000; siz_deleted := false |}.

Definition maria : confectionerRow :=
  {| cnf_idAccount := 1; cnf_name := "Maria"; cnf_deleted := false |}.

(** One product (base price 20.00, not on promotion, [stock] units), one
    flavor, one size with modifier +5.00, both enabled for the product,
    and no cart yet. *)
Definition shop (stock : Z) : Db :=
  {| db_product := {[ 1 := cake 20000000 stock ]};
     db_flavor := {[ 1 := chocolate ]};
     db_size := {[ 1 := medium ]};
     db_confectioner := {[ 1 := maria ]};
     db_productImage := ∅;
     db_productFlavor := {[ (1, 1, 1) := {| prdFlv_available := true |} ]};
     db_productSize := {[ (1, 1, 1) := {| prdSiz_available := true |} ]};
     db_cart := [];
     db_cartItem := [];
     db_identCart := 1;
     db_identCartItem := 1 |}.

Definition shopArgs (quantity : Z) (observations : option string)
    : CartItemAddParams :=
  addArgs 1 "sess-1" 1 1 1 quantity observations.

(** The state after one add of [quantity] units at time 100. *)
Definition shopAfterAdd (quantity : Z) (observations : option string) : Db :=
  fst (spCartItemAdd 100 (shopArgs quantity observations) (shop 5)).

Definition noSplit : string -> option (list Z) := fun _ => Some [].
Definition noLike : string -> string -> bool := fun _ _ => false.

Definition listParams (pageSize : Z) (availability : string) : ProductListParams :=
  {| lst_idAccount := Some 1;
     lst_page := 1;
     lst_pageSize := pageSize;
     lst_sortBy := "relevancia";
     lst_categoryIds := None;
     lst_flavorIds := None;
     lst_sizeIds := None;
     lst_minPrice := None;
     lst_maxPrice := None;
     lst_confectionerIds := None;
     lst_availability := availability;
     lst_searchTerm := None |}.

Definition listRequest (pageSize : option jsNumber) : ListRequest :=
  {| req_page := None;
     req_pageSize := pageSize;
     req_sortBy := JsUndefined;
     req_categoryIds := JsNull;
     req_flavorIds := JsNull;
     req_sizeIds := JsNull;
     req_minPrice := None;
     req_maxPrice := None;
     req_confectionerIds := JsNull;
     req_availability := JsUndefined;
     req_searchTerm := JsUndefined |}.

(** ** The cart handler ([api/v1/external/cart/controller.ts],
    [services/cart/cartRules.ts]) *)

Record AddItemRequest := {
  body_sessionId : jsValue;
  body_idProduct : jsNumber;
  body_idFlavor : jsNumber;
  body_idSize : jsNumber;
  body_quantity : jsNumber;
  body_observations : jsValue
}.

(** z.string().min(1).max(255) *)
Definition zSessionId (raw : jsValue) : option string :=
  match raw with
  | JsString s =>
      if (1 <=? String.length s)%nat && (String.length s <=? 255)%nat
      then Some s else None
  | _ => None
  end.

(** z.coerce.number().int().min(1).max(10) *)
Definition zQuantity (raw : jsNumber) : option Z :=
  match raw with
  | JsInt z => if (1 <=? z) && (z <=? 10) then Some z else None
  | _ => None
  end.

(** [operation.create(req, bodySchema)] of [addItemHandler]: the schema
    parse and the fixed credential [idAccount: 1]; an absent observation
    is bound as NULL. *)
Definition bodySchema (req : AddItemRequest) : option CartItemAddParams :=
  match zSessionId (body_sessionId req), zFK (body_idProduct req),
        zFK (body_idFlavor req), zFK (body_idSize req),
        zQuantity (body_quantity req),
        zOptionalString 200 (body_observations req) with
  | Some sessionId, Some idProduct, Some idFlavor, Some idSize, Some quantity,
    Some observations =>
      Some {| arg_idAccount := Some 1;
              arg_sessionId := Some sessionId;
              arg_idProduct := Some idProduct;
              arg_idFlavor := Some idFlavor;
              arg_idSize := Some idSize;
              arg_quantity := Some quantity;
              arg_observations := observations |}
  | _, _, _, _, _, _ => None
  end.

(** The INT parameters of [spCartItemAdd] as [dbRequest] binds them. *)
Definition paramsBindAsInt (params : CartItemAddParams) : bool :=
  bindsAsInt (arg_idAccount params) && bindsAsInt (arg_idProduct params)
  && bindsAsInt (arg_idFlavor params) && bindsAsInt (arg_idSize params)
  && bindsAsInt (arg_quantity params).

(** [cartItemAdd]: dbRequest with ExpectedReturn.Single hands back
    [result.recordset[0]], the first row of the record set. *)
Definition cartItemAdd (now : Z) (params : CartItemAddParams)
    : Tx (option CartItemResult) :=
  fun db =>
    if paramsBindAsInt params
    then
      match spCartItemAdd now params db with
      | (db', inr recordset) => (db', inr (head recordset))
      | (db', inl e) => (db', inl e)
      end
    else (db, inl BigintToInt).

(** The handler: the database it leaves and the response it gives. *)
Definition addItemHandler (now : Z) (db : Db) (req : AddItemRequest)
    : Db * Response (option CartItemResult) :=
  match bodySchema req with
  | None => (db, NextZodError)
  | Some validated =>
      match cartItemAdd now validated db with
      | (db', result) => (db', respond result)
      end
  end.

(** ** More vocabulary *)

(** A sequence of calls of the procedure, each with its clock reading. *)
Definition runAdds (calls : list (Z * CartItemAddParams)) (db : Db) : Db :=
  fold_left (fun state call => fst (spCartItemAdd (fst call) (snd call) state))
            calls db.

(** [pkCartItem]: no two cart items share an idCartItem. *)
Definition pkCartItem (db : Db) : Prop :=
  NoDup (map crtItm_idCartItem (db_cartItem db)).

(** Every table but the two cart tables. *)
Definition sameCatalogue (db db' : Db) : Prop :=
  db_product db' = db_product db
  /\ db_flavor db' = db_flavor db
  /\ db_size db' = db_size db
  /\ db_confectioner db' = db_confectioner db
  /\ db_productImage db' = db_productImage db
  /\ db_productFlavor db' = db_productFlavor db
  /\ db_productSize db' = db_productSize db.

Definition quantityInRange (crtItm : cartItemRow) : Prop :=
  1 <= crtItm_quantity crtItm <= 10.

(** "Exactly one should be flagged primary (not enforced)": at most one
    primary image per product. *)
Definition onePrimaryImage (db : Db) : Prop :=
  forall idProduct prd, (length (primaryImages db idProduct prd) <= 1)%nat.

Fixpoint allBlank (s : string) : bool :=
  match s with
  | EmptyString => true
  | String c s' => isSpace c && allBlank s'
  end.


(** The columns no statement of the procedure assigns after the INSERT. *)
Definition sameKeyColumns (before after : cartItemRow) : Prop :=
  crtItm_idCartItem after = crtItm_idCartItem before
  /\ crtItm_idAccount after = crtItm_idAccount before
  /\ crtItm_idCart after = crtItm_idCart before
  /\ crtItm_idProduct after = crtItm_idProduct before
  /\ crtItm_idFlavor after = crtItm_idFlavor before
  /\ crtItm_idSize after = crtItm_idSize before
  /\ crtItm_unitPrice after = crtItm_unitPrice before
  /\ crtItm_dateCreated after = crtItm_dateCreated before.

(** The shop with a second cake of the same category and confectioner
    (base price 30.00, 3 in stock). *)
Definition bakery : Db :=
  withProducts (shop 5) (<[ 2 := cake 30000000 3 ]> {[ 1 := cake 20000000 5 ]}).

(** The shop with its cake flagged as a promotion that has no promotional
    price. *)
Definition unpricedShop : Db :=
  withProducts (shop 5)
    {[ 1 := {| prd_idAccount := 1; prd_idCategory := 1; prd_idConfectioner := 1;
               prd_name := "Bolo de cenoura"; prd_description := "Bolo caseiro";
               prd_ingredients := "cenoura"; prd_basePrice := 20000000;
               prd_promotionalPrice := None; prd_isPromotion := true;
               prd_available := true; prd_stock := 5;
               prd_preparationTime := "2 dias"; prd_averageRating := 45;
               prd_totalReviews := 2; prd_totalSales := 10;
               prd_dateCreated := 0; prd_deleted := false |} ]}.

(** A listing request for every product from [minPrice] on, sorted by
    [sortBy]. *)
Definition pricedFrom (minPrice : Z) (sortBy : string) : ProductListParams :=
  {| lst_idAccount := Some 1;
     lst_page := 1;
     lst_pageSize := 12;
     lst_sortBy := sortBy;
     lst_categoryIds := None;
     lst_flavorIds := None;
     lst_sizeIds := None;
     lst_minPrice := Some minPrice;
     lst_maxPrice := None;
     lst_confectionerIds := None;
     lst_availability := "todos";
     lst_searchTerm := None |}.


(** The shop after an add of 8 units, the cake then being sold out. *)
Definition soldOutShop : Db :=
  withProducts (shopAfterAdd 8 None) {[ 1 := cake 20000000 0 ]}.

(** An add-to-cart request body whose session id is three blanks. *)
Definition blankSessionRequest : AddItemRequest :=
  {| body_sessionId := JsString "   ";
     body_idProduct := JsInt 1;
     body_idFlavor := JsInt 1;
     body_idSize := JsInt 1;
     body_quantity := JsInt 2;
     body_observations := JsUndefined |}.

(** * Properties *)

(** ** Lists and look-ups *)

Lemma sqlEq_refl s : sqlEq s s = true.
Proof. unfold sqlEq. apply String.eqb_refl. Qed.




Lemma filter_nil_iff {A} (f : A -> bool) (l : list A) :
  List.filter f l = [] <-> (forall x, In x l -> f x = false).
Proof.
  induction l as [|y l IH]; simpl.
  - split; [intros _ x []|reflexivity].
  - destruct (f y) eqn:E.
    + split; [discriminate|]. intros H. rewrite (H y) in E by auto. discriminate.
    + rewrite IH. split.
      * intros H x [<-|Hx]; auto.
      * intros H x Hx. apply H. auto.
Qed.

Lemma lastMatch_Some {A} (cond : A -> bool) (t : list A) (r : A) :
  lastMatch cond t = Some r -> In r t /\ cond r = true.
Proof.
  unfold lastMatch. intros H. apply last_Some_elem_of in H.
  apply list_elem_of_In, filter_In in H. exact H.
Qed.

Lemma lastMatch_None {A} (cond : A -> bool) (t : list A) :
  lastMatch cond t = None -> forall r, In r t -> cond r = false.
Proof.
  unfold lastMatch. intros H. apply last_None in H.
  apply filter_nil_iff. exact H.
Qed.


Lemma lastMatch_singleton {A} (cond : A -> bool) (t : list A) (r : A) :
  List.filter cond t = [r] -> lastMatch cond t = Some r.
Proof. unfold lastMatch. intros ->. reflexivity. Qed.

(** ** The transaction, path by path *)

Lemma rollback_same db : rollback db db = db.
Proof. destruct db; reflexivity. Qed.

Lemma availabilityChecks_true db a p f z :
  availabilityChecks db a p f z = true ->
  productExists db a p = true /\ productAvailable db a p = true
  /\ flavorAvailable db a p f = true /\ sizeAvailable db a p z = true.
Proof.
  unfold availabilityChecks. intros H.
  repeat (apply andb_prop in H as [H ?]). auto.
Qed.

Lemma checkCatalogue_ok db a p f z :
  availabilityChecks db a p f z = true ->
  checkCatalogue a p f z db = (db, inr tt).
Proof.
  intros H. apply availabilityChecks_true in H as (H1 & H2 & H3 & H4).
  unfold checkCatalogue, tx_bind, readDb, throwIf.
  rewrite H1, H2, H3, H4. reflexivity.
Qed.

Section Checked.
Variables (now idAccount : Z) (sessionId : string).
Variables (idProduct idFlavor idSize quantity : Z).
Variable observations : option string.
Variable db : Db.
Hypothesis Hsession : LEN sessionId <> 0.
Hypothesis Hquantity : 1 <= quantity <= 10.
Hypothesis Hchecks :
  availabilityChecks db idAccount idProduct idFlavor idSize = true.

Let args :=
  addArgs idAccount sessionId idProduct idFlavor idSize quantity observations.

(** Once the parameters and the catalogue checks pass, what remains is
    the cart look-up, the price and the merge-or-insert. *)
Lemma spCartItemAdd_checked :
  spCartItemAdd now args db
  = tryTran
      (idCart <- ensureCart now idAccount sessionId ;;
       db' <- readDb ;;
       idCartItem <-
         mergeOrInsert now idAccount idCart idProduct idFlavor idSize quantity
           (selectUnitPrice db' idAccount idProduct idSize)
           (timesQuantity (selectUnitPrice db' idAccount idProduct idSize) quantity)
           observations ;;
       selectResult idCartItem) db.
Proof.
  unfold spCartItemAdd, tryTran, spCartItemAdd_body, args, addArgs; simpl.
  unfold tx_bind at 1 2 3 4 5 6 7 8 9 10. simpl.
  destruct (Z.eqb_spec (LEN sessionId) 0) as [E|_]; [contradiction|].
  destruct (Z.ltb_spec quantity 1) as [E|_]; [lia|].
  destruct (Z.gtb_spec quantity 10) as [E|_]; [lia|].
  simpl. rewrite checkCatalogue_ok by assumption.
  reflexivity.
Qed.

(** Merge path, over the limit: the THROW and the rollback of a
    transaction that has written nothing. *)
Lemma spCartItemAdd_exceeds crt existing :
  lastMatch (cartMatches idAccount sessionId) (db_cart db) = Some crt ->
  lastMatch (cartItemMatches idAccount (crt_idCart crt) idProduct idFlavor idSize)
            (db_cartItem db) = Some existing ->
  10 < crtItm_quantity existing + quantity ->
  spCartItemAdd now args db = (db, inl (Throw51000 "quantityExceedsMaximum")).
Proof.
  intros Hc Hi Hq. rewrite spCartItemAdd_checked.
  unfold tryTran, tx_bind, ensureCart, readDb, mergeOrInsert, tx_bind, readDb.
  rewrite Hc. simpl. rewrite Hi.
  destruct (Z.gtb_spec (crtItm_quantity existing + quantity) 10) as [_|E]; [|lia].
  simpl. rewrite rollback_same. reflexivity.
Qed.

(** Merge path within the limit. *)
Lemma spCartItemAdd_merge crt existing unitPrice :
  lastMatch (cartMatches idAccount sessionId) (db_cart db) = Some crt ->
  lastMatch (cartItemMatches idAccount (crt_idCart crt) idProduct idFlavor idSize)
            (db_cartItem db) = Some existing ->
  crtItm_quantity existing + quantity <= 10 ->
  selectUnitPrice db idAccount idProduct idSize = Some unitPrice ->
  let items :=
    map (updateWhere now (crtItm_idCartItem existing)
           (crtItm_quantity existing + quantity)
           (unitPrice * (crtItm_quantity existing + quantity)) observations)
        (db_cartItem db) in
  spCartItemAdd now args db
  = (withCartItems db items (db_identCartItem db),
     inr (map toResult
            (List.filter (fun r => crtItm_idCartItem r =? crtItm_idCartItem existing)
                         items))).
Proof.
  intros Hc Hi Hq Hu items. rewrite spCartItemAdd_checked.
  unfold tryTran, tx_bind, ensureCart, readDb, mergeOrInsert, tx_bind, readDb.
  rewrite Hc. simpl. rewrite Hi, Hu.
  destruct (Z.gtb_spec (crtItm_quantity existing + quantity) 10) as [E|_]; [lia|].
  reflexivity.
Qed.



End Checked.

(** ** Rows of a tuple and the look-ups of the procedure *)

Lemma updateWhere_inSessionCart db a s now id q t obs r :
  inSessionCart db a s (updateWhere now id q t obs r) = inSessionCart db a s r.
Proof. unfold updateWhere. destruct (crtItm_idCartItem r =? id); reflexivity. Qed.

Lemma updateWhere_isTupleRow db a s p f z now id q t obs r :
  isTupleRow db a s p f z (updateWhere now id q t obs r) = isTupleRow db a s p f z r.
Proof. unfold isTupleRow, updateWhere. destruct (crtItm_idCartItem r =? id); reflexivity. Qed.

Lemma updateWhere_cartItemMatches a c p f z now id q t obs r :
  cartItemMatches a c p f z (updateWhere now id q t obs r) = cartItemMatches a c p f z r.
Proof. unfold cartItemMatches, updateWhere. destruct (crtItm_idCartItem r =? id); reflexivity. Qed.

Lemma updateWhere_id now id q t obs r :
  crtItm_idCartItem (updateWhere now id q t obs r) = crtItm_idCartItem r.
Proof. unfold updateWhere. destruct (crtItm_idCartItem r =? id); reflexivity. Qed.

Lemma inSessionCart_true db a s r :
  inSessionCart db a s r = true <->
  exists crt, In crt (db_cart db) /\ cartMatches a s crt = true
              /\ crt_idCart crt = crtItm_idCart r.
Proof.
  unfold inSessionCart. rewrite existsb_exists. split.
  - intros (crt & Hin & H). apply andb_prop in H as [H1 H2].
    exists crt. repeat split; auto. lia.
  - intros (crt & Hin & H1 & H2). exists crt. split; auto.
    rewrite H1. simpl. lia.
Qed.

(** With one cart per session, the rows of a tuple are the rows the
    procedure's own look-up ranges over. *)
Lemma tupleRows_lookup db a s p f z crt :
  oneCartPerSession db ->
  lastMatch (cartMatches a s) (db_cart db) = Some crt ->
  List.filter (cartItemMatches a (crt_idCart crt) p f z) (db_cartItem db)
  = tupleRows db a s p f z.
Proof.
  intros Hone Hc. unfold tupleRows. apply filter_ext_in. intros r _.
  assert (Hin : forall c, In c (db_cart db) -> cartMatches a s c = true -> c = crt).
  { intros c Hc1 Hc2. specialize (Hone a s).
    apply lastMatch_Some in Hc as [Hc3 Hc4].
    assert (H1 : In c (List.filter (cartMatches a s) (db_cart db)))
      by (apply filter_In; auto).
    assert (H2 : In crt (List.filter (cartMatches a s) (db_cart db)))
      by (apply filter_In; auto).
    destruct (List.filter (cartMatches a s) (db_cart db)) as [|x [|y l]];
      simpl in *; [contradiction| |lia].
    destruct H1 as [<-|[]], H2 as [<-|[]]. reflexivity. }
  unfold cartItemMatches, isTupleRow.
  destruct (inSessionCart db a s r) eqn:E.
  - apply inSessionCart_true in E as (c & Hc1 & Hc2 & Hc3).
    apply Hin in Hc2; auto. subst c. rewrite <- Hc3, Z.eqb_refl.
    rewrite andb_true_r. reflexivity.
  - destruct (crtItm_idCart r =? crt_idCart crt) eqn:E2;
      [|rewrite andb_false_r; reflexivity].
    exfalso. apply Z.eqb_eq in E2.
    apply lastMatch_Some in Hc as [Hc3 Hc4].
    assert (inSessionCart db a s r = true) by (apply inSessionCart_true; eauto).
    congruence.
Qed.

Lemma tupleRows_cart db a s p f z r :
  In r (tupleRows db a s p f z) ->
  exists crt, lastMatch (cartMatches a s) (db_cart db) = Some crt.
Proof.
  unfold tupleRows. intros H. apply filter_In in H as [_ H].
  unfold isTupleRow in H. repeat (apply andb_prop in H as [H _]).
  apply inSessionCart_true in H as (c & Hc1 & Hc2 & _).
  destruct (lastMatch (cartMatches a s) (db_cart db)) as [crt|] eqn:E; eauto.
  rewrite (lastMatch_None _ _ E c Hc1) in Hc2. discriminate.
Qed.

Lemma tupleRows_single_lookup db a s p f z existing :
  oneCartPerSession db ->
  tupleRows db a s p f z = [existing] ->
  exists crt,
    lastMatch (cartMatches a s) (db_cart db) = Some crt
    /\ lastMatch (cartItemMatches a (crt_idCart crt) p f z) (db_cartItem db)
       = Some existing.
Proof.
  intros Hone Hrows.
  destruct (tupleRows_cart db a s p f z existing) as [crt Hc];
    [rewrite Hrows; left; reflexivity|].
  exists crt. split; [exact Hc|].
  apply lastMatch_singleton. rewrite (tupleRows_lookup _ _ _ _ _ _ _ Hone Hc).
  exact Hrows.
Qed.

Lemma tupleRows_withCartItems db items ident a s p f z :
  tupleRows (withCartItems db items ident) a s p f z
  = List.filter (isTupleRow db a s p f z) items.
Proof. reflexivity. Qed.

Lemma tupleRows_after_update db a s p f z now id q t obs :
  List.filter (isTupleRow db a s p f z)
              (map (updateWhere now id q t obs) (db_cartItem db))
  = map (updateWhere now id q t obs) (tupleRows db a s p f z).
Proof.
  rewrite filter_map_swap. unfold tupleRows. f_equal.
  apply filter_ext. intros r. apply updateWhere_isTupleRow.
Qed.

(** ** Claims about the cart-item-add transaction *)

(** A failed catalogue check throws before anything is written. *)
Lemma spCartItemAdd_check_fails now db a s p f z q obs :
  LEN s <> 0 -> 1 <= q <= 10 ->
  availabilityChecks db a p f z = false ->
  exists message,
    spCartItemAdd now (addArgs a s p f z q obs) db = (db, inl (Throw51000 message)).
Proof.
  intros Hs Hq Hchecks.
  unfold spCartItemAdd, tryTran, spCartItemAdd_body, checkCatalogue, tx_bind,
    readDb, notNull, throwIf, tx_ret, throw. simpl.
  destruct (Z.eqb_spec (LEN s) 0) as [E|_]; [contradiction|].
  destruct (Z.ltb_spec q 1) as [E|_]; [lia|].
  destruct (Z.gtb_spec q 10) as [E|_]; [lia|].
  unfold availabilityChecks in Hchecks.
  destruct (productExists db a p); simpl;
    [|rewrite rollback_same; eauto].
  destruct (productAvailable db a p); simpl;
    [|rewrite rollback_same; eauto].
  destruct (flavorAvailable db a p f); simpl;
    [|rewrite rollback_same; eauto].
  destruct (sizeAvailable db a p z); simpl;
    [discriminate|rewrite rollback_same; eauto].
Qed.

(** C3, as the procedure has it.  In a state whose cart item for the
    (session, product, flavor, size) tuple has quantity 8, an add of
    quantity 5 for that tuple fails and hands back the state it started
    from: every table and both identity counters are unchanged, so the row
    still has quantity 8 and no cart or cart item was created or modified.
    The error is 'quantityExceedsMaximum' when the availability checks,
    which come first, pass. *)
Theorem add_over_limit_leaves_state_unchanged :
  forall now db idAccount sessionId idProduct idFlavor idSize observations existing,
    LEN sessionId <> 0 ->
    oneCartPerSession db ->
    tupleRows db idAccount sessionId idProduct idFlavor idSize = [existing] ->
    crtItm_quantity existing = 8 ->
    let args := addArgs idAccount sessionId idProduct idFlavor idSize 5 observations in
    (exists error, spCartItemAdd now args db = (db, inl error))
    /\ (availabilityChecks db idAccount idProduct idFlavor idSize = true ->
        spCartItemAdd now args db
        = (db, inl (Throw51000 "quantityExceedsMaximum"))).
Proof.
  intros now db a s p f z obs existing Hs Hone Hrows Hq args.
  destruct (tupleRows_single_lookup _ _ _ _ _ _ _ Hone Hrows) as (crt & Hc & Hi).
  assert (Hthrow : availabilityChecks db a p f z = true ->
                   spCartItemAdd now args db
                   = (db, inl (Throw51000 "quantityExceedsMaximum"))).
  { intros Hchecks.
    apply (spCartItemAdd_exceeds now a s p f z 5 obs db Hs ltac:(lia) Hchecks
             crt existing); auto.
    lia. }
  split; [|exact Hthrow].
  destruct (availabilityChecks db a p f z) eqn:Hchecks.
  - eexists. apply Hthrow. reflexivity.
  - destruct (spCartItemAdd_check_fails now db a s p f z 5 obs Hs ltac:(lia) Hchecks)
      as [message H].
    eexists. exact H.
Qed.

(** C3 as stated fails on the name of the error: with the row of 8 in the
    cart and the cake sold out since, the add of 5 is refused with
    'productNotAvailable', the check that comes first; the state is
    unchanged all the same. *)
Lemma add_over_limit_of_a_sold_out_product_is_another_error :
  (exists existing,
     tupleRows soldOutShop 1 "sess-1" 1 1 1 = [existing]
     /\ crtItm_quantity existing = 8)
  /\ spCartItemAdd 200 (shopArgs 5 None) soldOutShop
     = (soldOutShop, inl (Throw51000 "productNotAvailable"))
  /\ snd (spCartItemAdd 200 (shopArgs 5 None) soldOutShop)
     <> inl (Throw51000 "quantityExceedsMaximum").
Proof.
  split; [|split].
  - eexists. split; [vm_compute; reflexivity|]. reflexivity.
  - vm_compute. reflexivity.
  - vm_compute. discriminate.
Qed.

(** C9. When an add merges into the existing cart item of its tuple, the
    row keeps its observations if none was supplied (NULL) and takes the
    new text if one was. *)
Theorem merge_keeps_or_replaces_observations :
  forall now db idAccount sessionId idProduct idFlavor idSize quantity observations
         existing unitPrice,
    LEN sessionId <> 0 ->
    1 <= quantity <= 10 ->
    availabilityChecks db idAccount idProduct idFlavor idSize = true ->
    selectUnitPrice db idAccount idProduct idSize = Some unitPrice ->
    oneCartPerSession db ->
    tupleRows db idAccount sessionId idProduct idFlavor idSize = [existing] ->
    crtItm_quantity existing + quantity <= 10 ->
    exists db' results merged,
      spCartItemAdd now
        (addArgs idAccount sessionId idProduct idFlavor idSize quantity observations) db
      = (db', inr results)
      /\ tupleRows db' idAccount sessionId idProduct idFlavor idSize = [merged]
      /\ crtItm_idCartItem merged = crtItm_idCartItem existing
      /\ (observations = None ->
          crtItm_observations merged = crtItm_observations existing)
      /\ (forall text, observations = Some text ->
          crtItm_observations merged = Some text).
Proof.
  intros now db a s p f z q obs existing u Hs Hq Hchecks Hu Hone Hrows Hsum.
  destruct (tupleRows_single_lookup _ _ _ _ _ _ _ Hone Hrows) as (crt & Hc & Hi).
  rewrite (spCartItemAdd_merge now a s p f z q obs db Hs Hq Hchecks crt existing u Hc Hi Hsum Hu).
  eexists _, _, _. split; [reflexivity|].
  rewrite tupleRows_withCartItems, tupleRows_after_update, Hrows. simpl.
  unfold updateWhere. rewrite Z.eqb_refl. split; [reflexivity|].
  simpl. split; [reflexivity|]. split.
  - intros ->. reflexivity.
  - intros text ->. reflexivity.
Qed.

Lemma cartItemMatches_insertedRow now id a c p f z q u t obs :
  cartItemMatches a c p f z (insertedRow now id a c p f z q u t obs) = true.
Proof. unfold cartItemMatches, insertedRow. simpl. rewrite !Z.eqb_refl. reflexivity. Qed.

Lemma cartMatches_insertedCart now id a s :
  cartMatches a s (insertedCart now id a s) = true.
Proof.
  unfold cartMatches, insertedCart. simpl.
  rewrite Z.eqb_refl, sqlEq_refl. reflexivity.
Qed.










(** C1, at the input where the code parts from it.  Three units are added
    at 20.00 + 5.00; the base price is then raised to 30.00; four more
    units are merged.  The UPDATE writes totalPrice from the new unit price
    and leaves the stored unitPrice alone: the row ends with quantity 7,
    unitPrice 25.00 and totalPrice 245.00, and 25.00 x 7 is 175.00. *)
Theorem merge_after_price_change_breaks_derived_total :
  let db1 := shopAfterAdd 3 None in
  let db2 := withProducts db1 {[ 1 := cake 30000000 5 ]} in
  Forall derivedTotal (db_cartItem db1)
  /\ exists db3 results row,
       spCartItemAdd 200 (shopArgs 4 None) db2 = (db3, inr results)
       /\ db_cartItem db3 = [row]
       /\ crtItm_quantity row = 7
       /\ crtItm_unitPrice row = 25000000
       /\ crtItm_totalPrice row = 245000000
       /\ ~ derivedTotal row.
Proof.
  cbv zeta. split.
  - vm_compute. repeat constructor.
  - eexists _, _, _. split; [vm_compute; reflexivity|].
    split; [vm_compute; reflexivity|].
    unfold derivedTotal. simpl. repeat split; lia.
Qed.

(** What does hold on the merge path: the total written is the fresh unit
    price times the new quantity, so the derived total survives exactly
    when the stored unit price is still the current one. *)
Lemma mergedRow_derivedTotal now q u obs r :
  crtItm_unitPrice r = u -> derivedTotal (mergedRow q (u * q) obs now r).
Proof. intros H. unfold derivedTotal. simpl. rewrite H. reflexivity. Qed.

Lemma insertedRow_derivedTotal now id a c p f z q u obs :
  derivedTotal (insertedRow now id a c p f z q u (u * q) obs).
Proof. reflexivity. Qed.

(** ** Soft-deleted flavors and sizes *)

Lemma selectUnitPrice_softDelete db a p z :
  selectUnitPrice (softDeleteFlavorsAndSizes db) a p z = selectUnitPrice db a p z.
Proof.
  unfold selectUnitPrice, softDeleteFlavorsAndSizes. simpl.
  rewrite lookup_fmap. destruct (db_product db !! p); [|reflexivity].
  destruct (db_size db !! z); reflexivity.
Qed.

(** The add commutes with soft-deleting every flavor and size entity: same
    outcome, same writes.  Two databases that differ only in those flags
    therefore get the same answer. *)
Local Ltac step := cbv beta iota; cbn [negb]; cbv beta iota.

Lemma spCartItemAdd_softDelete now args db :
  spCartItemAdd now args (softDeleteFlavorsAndSizes db)
  = (softDeleteFlavorsAndSizes (fst (spCartItemAdd now args db)),
     snd (spCartItemAdd now args db)).
Proof.
  destruct args as [[a|] [s|] [p|] [f|] [z|] [q|] obs];
    try reflexivity;
    unfold spCartItemAdd, tryTran, spCartItemAdd_body, checkCatalogue, ensureCart,
      mergeOrInsert, tx_bind, readDb, notNull, throwIf, tx_ret, throw;
    step;
    cbn [arg_idAccount arg_sessionId arg_idProduct arg_idFlavor arg_idSize
         arg_quantity arg_observations];
    step;
    (destruct (LEN s =? 0); [reflexivity|]);
    step; try reflexivity.
  destruct (q <? 1); [reflexivity|]. step.
  destruct (q >? 10); [reflexivity|]. step.
  change (productExists (softDeleteFlavorsAndSizes db) a p) with (productExists db a p).
  change (productAvailable (softDeleteFlavorsAndSizes db) a p) with (productAvailable db a p).
  change (flavorAvailable (softDeleteFlavorsAndSizes db) a p f) with (flavorAvailable db a p f).
  change (sizeAvailable (softDeleteFlavorsAndSizes db) a p z) with (sizeAvailable db a p z).
  destruct (productExists db a p); [|reflexivity]. step.
  destruct (productAvailable db a p); [|reflexivity]. step.
  destruct (flavorAvailable db a p f); [|reflexivity]. step.
  destruct (sizeAvailable db a p z); [|reflexivity]. step.
  change (db_cart (softDeleteFlavorsAndSizes db)) with (db_cart db).
  destruct (lastMatch (cartMatches a s) (db_cart db)) as [crt|]; step.
  - change (db_cartItem (softDeleteFlavorsAndSizes db)) with (db_cartItem db).
    rewrite selectUnitPrice_softDelete.
    destruct (lastMatch _ (db_cartItem db)) as [existing|]; step.
    + destruct (crtItm_quantity existing + q >? 10); [reflexivity|]. step.
      destruct (selectUnitPrice db a p z); reflexivity.
    + destruct (selectUnitPrice db a p z); reflexivity.
  - unfold insertCart. cbv zeta; step.
    change (selectUnitPrice (withCarts (softDeleteFlavorsAndSizes db) ?c ?i) a p z)
      with (selectUnitPrice (softDeleteFlavorsAndSizes db) a p z).
    change (selectUnitPrice (withCarts db ?c ?i) a p z)
      with (selectUnitPrice db a p z).
    rewrite selectUnitPrice_softDelete.
    change (db_cartItem (withCarts (softDeleteFlavorsAndSizes db) ?c ?i))
      with (db_cartItem db).
    change (db_cartItem (withCarts db ?c ?i)) with (db_cartItem db).
    change (db_identCart (softDeleteFlavorsAndSizes db)) with (db_identCart db).
    destruct (lastMatch _ (db_cartItem db)) as [existing|]; step.
    + destruct (crtItm_quantity existing + q >? 10); [reflexivity|]. step.
      destruct (selectUnitPrice db a p z); reflexivity.
    + destruct (selectUnitPrice db a p z); reflexivity.
Qed.

Lemma flavorAvailable_false db a p f :
  flavorAvailable db a p f = false <->
  db_productFlavor db !! (a, p, f) = None
  \/ exists prdFlv, db_productFlavor db !! (a, p, f) = Some prdFlv
                    /\ prdFlv_available prdFlv = false.
Proof.
  unfold flavorAvailable. destruct (db_productFlavor db !! (a, p, f)) as [row|].
  - split.
    + intros H. right. exists row. auto.
    + intros [H|(row' & H1 & H2)]; congruence.
  - split; auto.
Qed.

Lemma sizeAvailable_false db a p z :
  sizeAvailable db a p z = false <->
  db_productSize db !! (a, p, z) = None
  \/ exists prdSiz, db_productSize db !! (a, p, z) = Some prdSiz
                    /\ prdSiz_available prdSiz = false.
Proof.
  unfold sizeAvailable. destruct (db_productSize db !! (a, p, z)) as [row|].
  - split.
    + intros H. right. exists row. auto.
    + intros [H|(row' & H1 & H2)]; congruence.
  - split; auto.
Qed.

(** The outcome of the add up to and including the four catalogue checks. *)
Lemma spCartItemAdd_flavor_check now db a s p f z q obs :
  LEN s <> 0 -> 1 <= q <= 10 ->
  productExists db a p = true -> productAvailable db a p = true ->
  flavorAvailable db a p f = false ->
  spCartItemAdd now (addArgs a s p f z q obs) db
  = (db, inl (Throw51000 "flavorNotAvailable")).
Proof.
  intros Hs Hq H1 H2 H3.
  unfold spCartItemAdd, tryTran, spCartItemAdd_body, checkCatalogue, tx_bind,
    readDb, notNull, throwIf, tx_ret, throw. simpl.
  destruct (Z.eqb_spec (LEN s) 0) as [E|_]; [contradiction|].
  destruct (Z.ltb_spec q 1) as [E|_]; [lia|].
  destruct (Z.gtb_spec q 10) as [E|_]; [lia|].
  rewrite H1, H2, H3. simpl. rewrite rollback_same. reflexivity.
Qed.

Lemma spCartItemAdd_size_check now db a s p f z q obs :
  LEN s <> 0 -> 1 <= q <= 10 ->
  productExists db a p = true -> productAvailable db a p = true ->
  flavorAvailable db a p f = true -> sizeAvailable db a p z = false ->
  spCartItemAdd now (addArgs a s p f z q obs) db
  = (db, inl (Throw51000 "sizeNotAvailable")).
Proof.
  intros Hs Hq H1 H2 H3 H4.
  unfold spCartItemAdd, tryTran, spCartItemAdd_body, checkCatalogue, tx_bind,
    readDb, notNull, throwIf, tx_ret, throw. simpl.
  destruct (Z.eqb_spec (LEN s) 0) as [E|_]; [contradiction|].
  destruct (Z.ltb_spec q 1) as [E|_]; [lia|].
  destruct (Z.gtb_spec q 10) as [E|_]; [lia|].
  rewrite H1, H2, H3, H4. simpl. rewrite rollback_same. reflexivity.
Qed.

(** Past the checks only three things can happen. *)
Lemma spCartItemAdd_after_checks now db a s p f z q obs :
  LEN s <> 0 -> 1 <= q <= 10 ->
  availabilityChecks db a p f z = true ->
  let outcome := snd (spCartItemAdd now (addArgs a s p f z q obs) db) in
  outcome = inl (Throw51000 "quantityExceedsMaximum")
  \/ (exists column, outcome = inl (NullIntoColumn column))
  \/ (exists results, outcome = inr results).
Proof.
  intros Hs Hq Hchecks. cbv zeta. rewrite spCartItemAdd_checked by assumption.
  unfold tryTran, tx_bind, ensureCart, readDb, mergeOrInsert, tx_bind, readDb,
    insertCart, updateCartItem, insertCartItem, selectResult, throwIf, tx_ret, throw.
  destruct (lastMatch (cartMatches a s) (db_cart db)) as [crt|]; cbv beta iota zeta.
  - destruct (lastMatch _ (db_cartItem db)) as [existing|]; cbv beta iota.
    + destruct (crtItm_quantity existing + q >? 10); [left; reflexivity|].
      cbv beta iota.
      destruct (selectUnitPrice db a p z); simpl; eauto.
    + destruct (selectUnitPrice db a p z); simpl; eauto.
  - match goal with |- context [lastMatch ?c ?l] => destruct (lastMatch c l) as [existing|] end;
      cbv beta iota.
    + destruct (crtItm_quantity existing + q >? 10); [left; reflexivity|].
      cbv beta iota.
      match goal with |- context [selectUnitPrice ?d a p z] =>
        destruct (selectUnitPrice d a p z) end; simpl; eauto.
    + match goal with |- context [selectUnitPrice ?d a p z] =>
        destruct (selectUnitPrice d a p z) end; simpl; eauto.
Qed.

Lemma In_map_to_list_fmap `{Countable K} {A B} (g : A -> B) (m : gmap K A) k y :
  In (k, y) (map_to_list (g <$> m)) -> exists x, y = g x.
Proof.
  intros Hin. apply list_elem_of_In, elem_of_map_to_list in Hin.
  rewrite lookup_fmap in Hin. destruct (m !! k) as [x|]; simpl in Hin; [|discriminate].
  exists x. congruence.
Qed.

(** The product detail lists no flavor and no size once the entities are
    soft-deleted, whatever the association tables say. *)
Lemma spProductGet_softDelete db a p :
  productExists db a p = true ->
  spProductGet (softDeleteFlavorsAndSizes db) (Some a) (Some p)
  = inr {| get_flavors := []; get_sizes := [] |}.
Proof.
  intros Hex. unfold spProductGet.
  change (productExists (softDeleteFlavorsAndSizes db) a p) with (productExists db a p).
  rewrite Hex. simpl.
  replace (List.filter (flavorListed (softDeleteFlavorsAndSizes db) a p)
             (map_to_list (deleteFlavor <$> db_flavor db))) with (@nil (Z * flavorRow)).
  2:{ symmetry. apply filter_nil_iff. intros [k y] Hin.
      apply In_map_to_list_fmap in Hin as [x ->].
      unfold flavorListed. simpl. apply andb_false_r. }
  replace (List.filter (sizeListed (softDeleteFlavorsAndSizes db) a p)
             (map_to_list (deleteSize <$> db_size db))) with (@nil (Z * sizeRow)).
  2:{ symmetry. apply filter_nil_iff. intros [k y] Hin.
      apply In_map_to_list_fmap in Hin as [x ->].
      unfold sizeListed. simpl. apply andb_false_r. }
  reflexivity.
Qed.

(** C10, as the procedure has it.  With valid parameters and the product
    checks passing, the add raises 'flavorNotAvailable' exactly when the (product, flavor)
    association row is absent or not available, and, the flavor being
    available, 'sizeNotAvailable' exactly when the (product, size) row is
    absent or not available.  The soft-deletion flags of the flavor and
    size entities are never read: soft-deleting every flavor and size
    changes neither the outcome nor the writes.  So in the shop whose
    flavor and size are soft-deleted but still enabled for the product the
    add succeeds, while the product detail lists neither. *)
Theorem add_ignores_soft_deleted_flavor_and_size :
  forall now db idAccount sessionId idProduct idFlavor idSize quantity observations,
    LEN sessionId <> 0 ->
    1 <= quantity <= 10 ->
    productExists db idAccount idProduct = true ->
    productAvailable db idAccount idProduct = true ->
    let args := addArgs idAccount sessionId idProduct idFlavor idSize quantity
                        observations in
    (snd (spCartItemAdd now args db) = inl (Throw51000 "flavorNotAvailable")
     <-> (db_productFlavor db !! (idAccount, idProduct, idFlavor) = None
          \/ exists prdFlv,
               db_productFlavor db !! (idAccount, idProduct, idFlavor) = Some prdFlv
               /\ prdFlv_available prdFlv = false))
    /\ (flavorAvailable db idAccount idProduct idFlavor = true ->
        (snd (spCartItemAdd now args db) = inl (Throw51000 "sizeNotAvailable")
         <-> (db_productSize db !! (idAccount, idProduct, idSize) = None
              \/ exists prdSiz,
                   db_productSize db !! (idAccount, idProduct, idSize) = Some prdSiz
                   /\ prdSiz_available prdSiz = false)))
    /\ spCartItemAdd now args (softDeleteFlavorsAndSizes db)
       = (softDeleteFlavorsAndSizes (fst (spCartItemAdd now args db)),
          snd (spCartItemAdd now args db))
    /\ spProductGet (softDeleteFlavorsAndSizes db) (Some idAccount) (Some idProduct)
       = inr {| get_flavors := []; get_sizes := [] |}
    /\ (let db' := softDeleteFlavorsAndSizes (shop 5) in
        flavorAvailable db' 1 1 1 = true
        /\ sizeAvailable db' 1 1 1 = true
        /\ option_map flv_deleted (db_flavor db' !! 1) = Some true
        /\ option_map siz_deleted (db_size db' !! 1) = Some true
        /\ snd (spCartItemAdd 100 (shopArgs 2 None) db')
           = inr [{| res_idCartItem := 1; res_idCart := 1; res_quantity := 2;
                     res_unitPrice := 25000000; res_totalPrice := 50000000 |}]
        /\ spProductGet db' (Some 1) (Some 1)
           = inr {| get_flavors := []; get_sizes := [] |}).
Proof.
  intros now db a s p f z q obs Hs Hq Hex Hav args.
  split; [|split; [|split; [|split]]].
  - rewrite <- flavorAvailable_false.
    destruct (flavorAvailable db a p f) eqn:Hf.
    + split; [|discriminate]. intros H. exfalso.
      destruct (sizeAvailable db a p z) eqn:Hz.
      * assert (Hchecks : availabilityChecks db a p f z = true)
          by (unfold availabilityChecks; rewrite Hex, Hav, Hf, Hz; reflexivity).
        destruct (spCartItemAdd_after_checks now db a s p f z q obs Hs Hq Hchecks)
          as [E|[[c E]|[r E]]]; unfold args in H; rewrite E in H; discriminate.
      * unfold args in H.
        rewrite (spCartItemAdd_size_check now db a s p f z q obs) in H by assumption.
        discriminate.
    + split; [reflexivity|]. intros _. unfold args.
      rewrite (spCartItemAdd_flavor_check now db a s p f z q obs) by assumption.
      reflexivity.
  - intros Hf. rewrite <- sizeAvailable_false.
    destruct (sizeAvailable db a p z) eqn:Hz.
    + split; [|discriminate]. intros H. exfalso.
      assert (Hchecks : availabilityChecks db a p f z = true)
        by (unfold availabilityChecks; rewrite Hex, Hav, Hf, Hz; reflexivity).
      destruct (spCartItemAdd_after_checks now db a s p f z q obs Hs Hq Hchecks)
        as [E|[[c E]|[r E]]]; unfold args in H; rewrite E in H; discriminate.
    + split; [reflexivity|]. intros _. unfold args.
      rewrite (spCartItemAdd_size_check now db a s p f z q obs) by assumption.
      reflexivity.
  - apply spCartItemAdd_softDelete.
  - apply spProductGet_softDelete. exact Hex.
  - cbv zeta. repeat split; vm_compute; reflexivity.
Qed.

(** C10 as stated fails in the 'if' direction, because other checks come
    first: flavor 2 has no association with the cake, yet an add of
    quantity 0 is refused with 'quantityMustBeGreaterThanZero'; and size 2
    has none either, yet an add of flavor 2 and size 2 is refused with
    'flavorNotAvailable', not 'sizeNotAvailable'. *)
Lemma missing_association_raises_another_error :
  db_productFlavor (shop 5) !! (1, 1, 2) = None
  /\ snd (spCartItemAdd 100 (addArgs 1 "sess-1" 1 2 1 0 None) (shop 5))
     = inl (Throw51000 "quantityMustBeGreaterThanZero")
  /\ db_productSize (shop 5) !! (1, 1, 2) = None
  /\ snd (spCartItemAdd 100 (addArgs 1 "sess-1" 1 2 2 2 None) (shop 5))
     = inl (Throw51000 "flavorNotAvailable").
Proof.
  repeat split; vm_compute; reflexivity.
Qed.

(** ** Related products *)

(** C8. For an existing reference product, criteria 'sabor' passes the
    routine's own normalisation untouched, matches none of the three IF
    branches and so produces no record set at all; 'categoria' on the same
    input produces one.  The request schema accepts 'sabor', and the
    handler answers 200 with no rows whenever the product id and the limit
    are values of INT; a larger one is bound as BIGINT and the call ends in
    the general error. *)
Theorem related_by_flavor_selects_nothing :
  forall db idAccount idProduct limit,
    productExists db idAccount idProduct = true ->
    spProductRelated db (Some idAccount) (Some idProduct) limit "sabor" = inr []
    /\ (exists rows,
          spProductRelated db (Some idAccount) (Some idProduct) limit "categoria"
          = inr [rows])
    /\ zEnumDefault criteriaValues "categoria" (JsString "sabor") = Some "sabor"
    /\ (forall rawId rawLimit,
          idAccount = 1 ->
          zFK rawId = Some idProduct ->
          zPositiveIntDefault 4 rawLimit = Some limit ->
          let req := {| req_id := rawId; req_limit := rawLimit;
                        req_criteria := JsString "sabor" |} in
          relatedParamsSchema req = Some (idProduct, limit, "sabor")
          /\ relatedHandler db req
             = if fitsInt idProduct && fitsInt limit
               then Json200 None else NextStatusGeneralError).
Proof.
  intros db a p limit Hex.
  assert (Hsabor : spProductRelated db (Some a) (Some p) limit "sabor" = inr []).
  { unfold spProductRelated. rewrite Hex. reflexivity. }
  split; [exact Hsabor|]. split; [|split; [reflexivity|]].
  - unfold spProductRelated. rewrite Hex. simpl. eauto.
  - intros rawId rawLimit -> Hid Hlim req.
    assert (Hschema : relatedParamsSchema req = Some (p, limit, "sabor")).
    { unfold relatedParamsSchema, req. simpl. rewrite Hid, Hlim. reflexivity. }
    split; [exact Hschema|].
    unfold relatedHandler, productRelated. rewrite Hschema, Hsabor.
    change (fitsInt 1) with true. cbn [andb].
    destruct (fitsInt p && fitsInt limit); reflexivity.
Qed.

(** ** Product listing *)

Lemma normalizePageSize_cases n :
  normalizePageSize n = 12 \/ normalizePageSize n = 24 \/ normalizePageSize n = 36.
Proof.
  unfold normalizePageSize, memZ. simpl.
  destruct (Z.eqb_spec n 12); [subst; auto|].
  destruct (Z.eqb_spec n 24); [subst; auto|].
  destruct (Z.eqb_spec n 36); [subst; auto|].
  simpl. auto.
Qed.

Lemma normalizePageSize_valid n :
  memZ n [12; 24; 36] = true -> normalizePageSize n = n.
Proof. unfold normalizePageSize. intros ->. reflexivity. Qed.

Lemma normalizePageSize_invalid n :
  n <> 12 -> n <> 24 -> n <> 36 -> normalizePageSize n = 12.
Proof.
  intros H1 H2 H3. unfold normalizePageSize, memZ. simpl.
  destruct (Z.eqb_spec n 12); [contradiction|].
  destruct (Z.eqb_spec n 24); [contradiction|].
  destruct (Z.eqb_spec n 36); [contradiction|]. reflexivity.
Qed.

(** CEILING_div n d is the least k with n <= k * d. *)
Lemma CEILING_div_spec n d :
  0 < d -> (CEILING_div n d - 1) * d < n <= CEILING_div n d * d.
Proof.
  intros Hd. unfold CEILING_div.
  pose proof (Z.div_mod (- n) d ltac:(lia)) as E.
  pose proof (Z.mod_pos_bound (- n) d Hd) as B.
  nia.
Qed.

Lemma length_offsetFetch {A} offset n (rows : list A) :
  0 <= n -> Z.of_nat (length (offsetFetch offset n rows)) <= n.
Proof.
  intros Hn. unfold offsetFetch. rewrite length_take. lia.
Qed.

(** *** ORDER BY and the joins *)

Lemma Sorted_orderBy {A} (cmp : A -> A -> comparison) (l : list A) :
  (forall x y, cmp x y = Gt -> cmp y x <> Gt) ->
  Sorted (fun x y => cmp x y <> Gt) (orderBy cmp l).
Proof.
  intros Hanti. induction l as [|x l IH]; simpl; [constructor|].
  revert IH. generalize (orderBy cmp l). clear l.
  induction l as [|y l IHl]; intros Hs; simpl.
  - repeat constructor.
  - inversion Hs as [|? ? Hs' Hhd]; subst.
    destruct (cmp x y) eqn:E.
    + constructor; [exact Hs|]. constructor. congruence.
    + constructor; [exact Hs|]. constructor. congruence.
    + constructor; [apply IHl, Hs'|].
      destruct l as [|w l]; simpl.
      * constructor. apply Hanti, E.
      * inversion Hhd; subst. destruct (cmp x w); constructor; auto.
Qed.



Lemma Sorted_map_of {A B} (R : B -> B -> Prop) (g : A -> B) (l : list A) :
  Sorted (fun x y => R (g x) (g y)) l -> Sorted R (map g l).
Proof.
  induction 1 as [|x l Hs IH Hhd]; simpl; constructor; auto.
  destruct Hhd; simpl; constructor; auto.
Qed.

Lemma Sorted_weaken {A} (R R' : A -> A -> Prop) (l : list A) :
  (forall x y, R x y -> R' x y) -> Sorted R l -> Sorted R' l.
Proof.
  intros H. induction 1 as [|x l Hs IH Hhd]; constructor; auto.
  destruct Hhd; constructor; auto.
Qed.

Lemma compareNullable_antisym x y :
  compareNullable y x = CompOpp (compareNullable x y).
Proof. destruct x, y; simpl; try reflexivity. apply Z.compare_antisym. Qed.

Lemma lexOrder_CompOpp c1 c2 :
  lexOrder (CompOpp c1) (CompOpp c2) = CompOpp (lexOrder c1 c2).
Proof. destruct c1; reflexivity. Qed.

Lemma listOrder_antisym sortBy r1 r2 :
  listOrder sortBy r2 r1 = CompOpp (listOrder sortBy r1 r2).
Proof.
  unfold listOrder, ascending, descending.
  rewrite <- !lexOrder_CompOpp, <- !compareNullable_antisym, <- Z.compare_antisym.
  reflexivity.
Qed.



Lemma Permutation_insertBy {A} (cmp : A -> A -> comparison) x (l : list A) :
  Permutation (insertBy cmp x l) (x :: l).
Proof.
  induction l as [|y l IH]; simpl; [reflexivity|].
  destruct (cmp x y); try reflexivity.
  rewrite IH. apply perm_swap.
Qed.

Lemma Permutation_orderBy {A} (cmp : A -> A -> comparison) (l : list A) :
  Permutation (orderBy cmp l) l.
Proof.
  induction l as [|x l IH]; simpl; [reflexivity|].
  rewrite Permutation_insertBy. constructor. exact IH.
Qed.

Lemma length_insertBy {A} (cmp : A -> A -> comparison) x (l : list A) :
  length (insertBy cmp x l) = S (length l).
Proof.
  induction l as [|y l IH]; simpl; [reflexivity|].
  destruct (cmp x y); simpl; auto.
Qed.

Lemma length_orderBy {A} (cmp : A -> A -> comparison) (l : list A) :
  length (orderBy cmp l) = length l.
Proof.
  induction l as [|x l IH]; simpl; [reflexivity|].
  rewrite length_insertBy. auto.
Qed.

Lemma map_coreOf_leftJoinImage db rows :
  onePrimaryImage db -> map coreOf (leftJoinImage db rows) = rows.
Proof.
  intros Hone. unfold leftJoinImage.
  induction rows as [|[[id prd] cnf] rows IH]; [reflexivity|].
  cbn [flat_map]. rewrite map_app, IH. specialize (Hone id prd).
  destruct (primaryImages db id prd) as [|img [|img' imgs]]; simpl in *;
    try reflexivity. lia.
Qed.

Lemma length_filter_leftJoinImage db rows (cond : Z * productRow * confectionerRow -> bool) :
  onePrimaryImage db ->
  length (List.filter (fun r => cond (coreOf r)) (leftJoinImage db rows))
  = length (List.filter cond rows).
Proof.
  intros Hone.
  rewrite <- (length_map coreOf (List.filter _ (leftJoinImage db rows))).
  rewrite <- filter_map_swap, map_coreOf_leftJoinImage by assumption.
  reflexivity.
Qed.

Lemma onePrimaryImage_without_images db :
  db_productImage db = ∅ -> onePrimaryImage db.
Proof.
  intros E idProduct prd. unfold primaryImages.
  rewrite E, map_to_list_empty. simpl. lia.
Qed.

Lemma memZ_In x l : memZ x l = true <-> In x l.
Proof.
  unfold memZ. rewrite existsb_exists. split.
  - intros (y & Hy & E). apply Z.eqb_eq in E. subst. exact Hy.
  - intros H. exists x. split; [exact H|apply Z.eqb_refl].
Qed.

Lemma In_joinConfectioner_account db id prd cnf :
  In (id, prd, cnf) (joinConfectioner db) ->
  cnf_idAccount cnf = prd_idAccount prd.
Proof.
  unfold joinConfectioner. intros H.
  apply in_flat_map in H as ([id' prd'] & _ & H).
  destruct (db_confectioner db !! prd_idConfectioner prd') as [cnf'|];
    [|contradiction].
  destruct (Z.eqb_spec (cnf_idAccount cnf') (prd_idAccount prd')); [|contradiction].
  destruct H as [H|[]]. inversion H; subst. assumption.
Qed.

Lemma In_insertBy {A} (cmp : A -> A -> comparison) x y (l : list A) :
  In x (insertBy cmp y l) -> x = y \/ In x l.
Proof.
  induction l as [|z l IH]; simpl.
  - intros [<-|[]]. auto.
  - destruct (cmp y z); simpl; intros H.
    + destruct H as [<-|H]; auto.
    + destruct H as [<-|H]; auto.
    + destruct H as [<-|H]; auto. apply IH in H. tauto.
Qed.

Lemma In_orderBy {A} (cmp : A -> A -> comparison) x (l : list A) :
  In x (orderBy cmp l) -> In x l.
Proof.
  induction l as [|y l IH]; simpl; [tauto|].
  intros H. apply In_insertBy in H as [->|H]; auto.
Qed.

Lemma In_offsetFetch {A} offset n x (rows : list A) :
  In x (offsetFetch offset n rows) -> In x rows.
Proof.
  unfold offsetFetch. intros H. apply list_elem_of_In in H.
  apply list_elem_of_In.
  apply (subseteq_drop (Z.to_nat offset) rows), (subseteq_take (Z.to_nat n)), H.
Qed.

Lemma In_leftJoinImage db rows r :
  In r (leftJoinImage db rows) -> In (coreOf r) rows.
Proof.
  unfold leftJoinImage. intros H. apply in_flat_map in H as ([[id prd] cnf] & Hin & H).
  destruct (primaryImages db id prd) as [|img imgs].
  - destruct H as [<-|[]]. exact Hin.
  - apply in_map_iff in H as (i & <- & _). exact Hin.
Qed.

Lemma In_joinConfectioner db id prd cnf :
  In (id, prd, cnf) (joinConfectioner db) ->
  db_product db !! id = Some prd
  /\ db_confectioner db !! prd_idConfectioner prd = Some cnf.
Proof.
  unfold joinConfectioner. intros H.
  apply in_flat_map in H as ([id' prd'] & Hin & H).
  apply list_elem_of_In, elem_of_map_to_list in Hin.
  destruct (db_confectioner db !! prd_idConfectioner prd') as [cnf'|] eqn:E;
    [|contradiction].
  destruct (cnf_idAccount cnf' =? prd_idAccount prd'); [|contradiction].
  destruct H as [H|[]]. inversion H; subst. auto.
Qed.

Lemma normalizePageSize_positive n : 0 < normalizePageSize n.
Proof.
  destruct (normalizePageSize_cases n) as [E|[E|E]]; rewrite E; lia.
Qed.

Lemma normalizePage_positive n : 1 <= normalizePage n.
Proof. unfold normalizePage. destruct (Z.ltb_spec n 1); lia. Qed.

Lemma pageOffset_nonneg p : 0 <= pageOffset p.
Proof.
  unfold pageOffset.
  pose proof (normalizePageSize_positive (lst_pageSize p)).
  pose proof (normalizePage_positive (lst_page p)). nia.
Qed.

Lemma fitsInt_pageOffset p :
  fitsInt (pageOffset p) = true <-> pageOffset p <= 2147483647.
Proof.
  unfold fitsInt. pose proof (pageOffset_nonneg p). rewrite andb_true_iff. lia.
Qed.

Section Listing.
Variable splitIds : string -> option (list Z).
Variable like : string -> string -> bool.

(** The two WHERE clauses are the same predicate. *)
Lemma countWhere_pageWhere db idAccount availability ids p row :
  countWhere like db idAccount availability ids p row
  = pageWhere like db idAccount availability ids p row.
Proof. reflexivity. Qed.

(** The routine returns exactly when the account is given, the offset is
    a value of INT and the id lists convert, and this is what it returns. *)
Lemma spProductList_inr db p products pagination :
  spProductList splitIds like db p = inr (products, pagination)
  <-> exists idAccount ids,
        lst_idAccount p = Some idAccount
        /\ pageOffset p <= 2147483647
        /\ splitAll splitIds p = Some ids
        /\ products
           = map toSummary
               (offsetFetch (pageOffset p) (normalizePageSize (lst_pageSize p))
                  (orderBy (listOrder (lst_sortBy p)) (matchingRows like db idAccount ids p)))
        /\ pagination
           = (let count :=
                Z.of_nat
                  (length
                     (List.filter
                        (countWhere like db idAccount
                           (normalizeAvailability (lst_availability p)) ids p)
                        (joinConfectioner db))) in
              {| totalItems := count;
                 totalPages := CEILING_div count (normalizePageSize (lst_pageSize p));
                 currentPage := normalizePage (lst_page p);
                 pageSize := normalizePageSize (lst_pageSize p) |}).
Proof.
  unfold spProductList, matchingRows.
  change ((normalizePage (lst_page p) - 1) * normalizePageSize (lst_pageSize p))
    with (pageOffset p).
  split.
  - intros H. destruct (lst_idAccount p) as [a|]; [|discriminate].
    destruct (fitsInt (pageOffset p)) eqn:Hfit; [|discriminate]. cbn [negb] in H.
    destruct (splitAll splitIds p) as [ids|]; [|discriminate].
    inversion H. exists a, ids. apply fitsInt_pageOffset in Hfit.
    repeat split; try reflexivity. exact Hfit.
  - intros (a & ids & -> & Hfit & -> & -> & ->).
    apply fitsInt_pageOffset in Hfit. rewrite Hfit. reflexivity.
Qed.

(** The routine runs whenever the account is given, the offset is a value
    of INT and the id lists convert, and this is what it returns. *)
Lemma spProductList_runs db p idAccount ids :
  lst_idAccount p = Some idAccount ->
  splitAll splitIds p = Some ids ->
  pageOffset p <= 2147483647 ->
  exists products pagination,
    spProductList splitIds like db p = inr (products, pagination)
    /\ pageSize pagination = normalizePageSize (lst_pageSize p)
    /\ currentPage pagination = normalizePage (lst_page p)
    /\ totalItems pagination
       = Z.of_nat
           (length
              (List.filter
                 (countWhere like db idAccount
                             (normalizeAvailability (lst_availability p)) ids p)
                 (joinConfectioner db)))
    /\ totalPages pagination
       = CEILING_div (totalItems pagination) (pageSize pagination)
    /\ Z.of_nat (length products) <= pageSize pagination
    /\ products
       = map toSummary
           (offsetFetch (pageOffset p) (normalizePageSize (lst_pageSize p))
              (orderBy (listOrder (lst_sortBy p)) (matchingRows like db idAccount ids p))).
Proof.
  intros Ha Hids Hoff.
  eexists _, _. split.
  - apply spProductList_inr. exists idAccount, ids.
    repeat (split; [eassumption || reflexivity|]). reflexivity.
  - cbn [pageSize totalItems totalPages currentPage].
    repeat (split; [reflexivity|]). split; [|reflexivity].
    rewrite length_map. apply length_offsetFetch.
    pose proof (normalizePageSize_positive (lst_pageSize p)). lia.
Qed.

(** The size of a page when no product has two primary images. *)
Lemma spProductList_page_length db p idAccount ids :
  onePrimaryImage db ->
  Z.of_nat
    (length
       (map toSummary
          (offsetFetch (pageOffset p) (normalizePageSize (lst_pageSize p))
             (orderBy (listOrder (lst_sortBy p)) (matchingRows like db idAccount ids p)))))
  = Z.max 0
      (Z.min (normalizePageSize (lst_pageSize p))
         (Z.of_nat
            (length
               (List.filter
                  (countWhere like db idAccount
                     (normalizeAvailability (lst_availability p)) ids p)
                  (joinConfectioner db)))
          - pageOffset p)).
Proof.
  intros Hone. unfold matchingRows, offsetFetch.
  rewrite length_map, length_take, length_drop, length_orderBy.
  rewrite (length_filter_leftJoinImage db (joinConfectioner db)
             (pageWhere like db idAccount
                (normalizeAvailability (lst_availability p)) ids p) Hone).
  change (List.filter (pageWhere like db idAccount
                         (normalizeAvailability (lst_availability p)) ids p))
    with (List.filter (countWhere like db idAccount
                         (normalizeAvailability (lst_availability p)) ids p)).
  pose proof (pageOffset_nonneg p).
  pose proof (normalizePageSize_positive (lst_pageSize p)). lia.
Qed.

(** C6. The pagination metadata the routine returns.  The page size is
    the normalised one (the requested one when that is 12, 24 or 36);
    totalItems is the number of product-confectioner rows that satisfy the
    WHERE clause of the page query; totalPages is the least integer with
    totalItems <= totalPages x pageSize, that is ceil(totalItems /
    pageSize); the page holds at most pageSize summaries.  The page is tied
    to the counted predicate: it is the window of pageSize rows after the
    offset in a listing that is a permutation of the joined rows satisfying
    that WHERE clause, sorted by the ORDER BY list; every summary on it
    belongs to a row that is counted; and when no product has two primary
    images it holds min(pageSize, totalItems - offset) summaries, none if
    that is negative.  The routine does return a page and its metadata
    whenever the account is given, the id lists convert and the offset
    (page - 1) x pageSize is a value of INT. *)
Theorem pagination_metadata :
  forall db p,
    (forall products pagination,
       spProductList splitIds like db p = inr (products, pagination) ->
       exists idAccount ids,
         lst_idAccount p = Some idAccount
         /\ splitAll splitIds p = Some ids
         /\ pageSize pagination = normalizePageSize (lst_pageSize p)
         /\ (memZ (lst_pageSize p) [12; 24; 36] = true ->
             pageSize pagination = lst_pageSize p)
         /\ currentPage pagination = normalizePage (lst_page p)
         /\ totalItems pagination
            = Z.of_nat
                (length
                   (List.filter
                      (pageWhere like db idAccount
                                 (normalizeAvailability (lst_availability p)) ids p)
                      (joinConfectioner db)))
         /\ (totalPages pagination - 1) * pageSize pagination
            < totalItems pagination
            <= totalPages pagination * pageSize pagination
         /\ Z.of_nat (length products) <= pageSize pagination
         /\ (exists listing,
               Permutation listing
                 (List.filter
                    (fun r => pageWhere like db idAccount
                                (normalizeAvailability (lst_availability p)) ids p
                                (coreOf r))
                    (leftJoinImage db (joinConfectioner db)))
               /\ Sorted (fun r1 r2 => listOrder (lst_sortBy p) r1 r2 <> Gt) listing
               /\ products
                  = map toSummary
                      (take (Z.to_nat (pageSize pagination))
                         (drop (Z.to_nat ((currentPage pagination - 1)
                                          * pageSize pagination))
                               listing)))
         /\ (forall summary,
               In summary products ->
               exists prd cnf,
                 In (sum_idProduct summary, prd, cnf) (joinConfectioner db)
                 /\ pageWhere like db idAccount
                      (normalizeAvailability (lst_availability p)) ids p
                      (sum_idProduct summary, prd, cnf) = true)
         /\ (onePrimaryImage db ->
             Z.of_nat (length products)
             = Z.max 0
                 (Z.min (pageSize pagination)
                    (totalItems pagination
                     - (currentPage pagination - 1) * pageSize pagination))))
    /\ (forall idAccount ids,
          lst_idAccount p = Some idAccount ->
          splitAll splitIds p = Some ids ->
          pageOffset p <= 2147483647 ->
          exists products pagination,
            spProductList splitIds like db p = inr (products, pagination)).
Proof.
  intros db p. split.
  - intros products pagination Hrun.
    destruct (proj1 (spProductList_inr db p products pagination) Hrun)
      as (a & ids & Ha & Hoff & Hids & _).
    destruct (spProductList_runs db p a ids Ha Hids Hoff)
      as (products' & pagination' & Hrun' & Hsize & Hpage & Hitems & Hpages & Hlen
          & Hproducts).
    rewrite Hrun in Hrun'. injection Hrun' as Eproducts Epagination.
    rewrite <- Eproducts, <- Epagination in *. clear products' pagination' Eproducts
      Epagination.
    exists a, ids.
    assert (Hpos : 0 < pageSize pagination)
      by (rewrite Hsize; apply normalizePageSize_positive).
    split; [exact Ha|]. split; [exact Hids|]. split; [exact Hsize|].
    split; [intros Hvalid; rewrite Hsize; apply normalizePageSize_valid, Hvalid|].
    split; [exact Hpage|].
    split; [rewrite Hitems; f_equal; f_equal; apply filter_ext;
            intros row; apply countWhere_pageWhere|].
    split; [rewrite Hpages; apply CEILING_div_spec, Hpos|].
    split; [exact Hlen|].
    split; [|split].
    + exists (orderBy (listOrder (lst_sortBy p)) (matchingRows like db a ids p)).
      split; [apply Permutation_orderBy|]. split.
      * apply Sorted_orderBy. intros x y E. rewrite listOrder_antisym, E.
        discriminate.
      * rewrite Hsize, Hpage. exact Hproducts.
    + intros summary Hin. rewrite Hproducts in Hin.
      apply in_map_iff in Hin as (r & <- & Hin).
      apply In_offsetFetch, In_orderBy, filter_In in Hin as [Hin Hwhere].
      apply In_leftJoinImage in Hin. destruct r as [id prd cnf img].
      unfold coreOf in *. simpl in *. exists prd, cnf. auto.
    + intros Hone. rewrite Hproducts, Hsize, Hpage, Hitems.
      apply spProductList_page_length, Hone.
  - intros a ids Ha Hids Hoff.
    destruct (spProductList_runs db p a ids Ha Hids Hoff)
      as (products & pagination & Hrun & _).
    exists products, pagination. exact Hrun.
Qed.

End Listing.

(** *** The availability filter *)

Lemma availabilityFilter_disponivel prd :
  availabilityFilter "disponivel" prd = true
  <-> prd_available prd = true /\ 0 < prd_stock prd.
Proof.
  unfold availabilityFilter. simpl. rewrite !orb_false_r.
  rewrite andb_true_iff. split; intros [H1 H2]; split; auto; lia.
Qed.

Lemma availabilityFilter_indisponivel prd :
  availabilityFilter "indisponivel" prd = true
  <-> prd_available prd = false \/ prd_stock prd = 0.
Proof.
  unfold availabilityFilter. simpl. rewrite orb_false_r.
  rewrite orb_true_iff, negb_true_iff. split; intros [H|H]; auto.
  - right. lia.
  - right. lia.
Qed.

(** On stock counts that are not negative, 'indisponivel' is the negation
    of 'disponivel'. *)
Lemma availabilityFilter_complement prd :
  0 <= prd_stock prd ->
  availabilityFilter "indisponivel" prd = negb (availabilityFilter "disponivel" prd).
Proof.
  intros H. unfold availabilityFilter. simpl. rewrite !orb_false_r.
  destruct (prd_available prd); simpl; [|reflexivity].
  destruct (Z.gtb_spec (prd_stock prd) 0), (Z.eqb_spec (prd_stock prd) 0);
    simpl; try reflexivity; lia.
Qed.

Section ListingRows.
Variable splitIds : string -> option (list Z).
Variable like : string -> string -> bool.

(** Every summary on a page comes from a product row that satisfies the
    WHERE clause. *)
Lemma page_rows_satisfy_where db p idAccount ids products pagination summary :
  lst_idAccount p = Some idAccount ->
  splitAll splitIds p = Some ids ->
  spProductList splitIds like db p = inr (products, pagination) ->
  In summary products ->
  exists prd cnf,
    db_product db !! sum_idProduct summary = Some prd
    /\ sum_available summary = prd_available prd
    /\ sum_price summary = effectivePrice prd
    /\ pageWhere like db idAccount (normalizeAvailability (lst_availability p))
                 ids p (sum_idProduct summary, prd, cnf) = true.
Proof.
  intros Ha Hids Hrun Hin.
  apply spProductList_inr in Hrun as (a' & ids' & Ha' & _ & Hids' & Hproducts & _).
  rewrite Ha in Ha'. rewrite Hids in Hids'. inversion Ha'. inversion Hids'. subst a' ids'.
  rewrite Hproducts in Hin.
  apply in_map_iff in Hin as (r & <- & Hin).
  apply In_offsetFetch, In_orderBy, filter_In in Hin as [Hin Hwhere].
  apply In_leftJoinImage in Hin. destruct r as [id prd cnf img].
  unfold coreOf in *. simpl in *.
  apply In_joinConfectioner in Hin as [Hprd _].
  exists prd, cnf. auto.
Qed.

(** Under 'disponivel' the page only holds products whose flag is set and
    whose stock is positive. *)
Lemma disponivel_page_is_available_and_in_stock
    db p idAccount ids products pagination summary :
  lst_idAccount p = Some idAccount ->
  splitAll splitIds p = Some ids ->
  lst_availability p = "disponivel" ->
  spProductList splitIds like db p = inr (products, pagination) ->
  In summary products ->
  exists prd,
    db_product db !! sum_idProduct summary = Some prd
    /\ prd_available prd = true /\ 0 < prd_stock prd.
Proof.
  intros Ha Hids Hav Hrun Hin.
  destruct (page_rows_satisfy_where db p idAccount ids products pagination summary
              Ha Hids Hrun Hin) as (prd & cnf & Hprd & _ & _ & Hwhere).
  exists prd. split; [exact Hprd|].
  rewrite Hav in Hwhere. unfold pageWhere in Hwhere.
  repeat (apply andb_prop in Hwhere as [Hwhere ?]).
  apply availabilityFilter_disponivel. assumption.
Qed.

End ListingRows.

(** C5, at the input where the code parts from it.  A product of the
    account that is flagged available but carries stock -1 does not satisfy
    "available and stock > 0", so the 'indisponivel' listing should return
    it; the routine tests stock = 0 and returns nothing, counting zero
    items, although the 'todos' listing shows the product. *)
Theorem negative_stock_is_in_neither_listing :
  let db := shop (-1) in
  (exists prd, db_product db !! 1 = Some prd
               /\ prd_available prd = true /\ prd_stock prd = -1
               /\ prd_available prd && (prd_stock prd >? 0) = false
               /\ availabilityFilter "indisponivel" prd = false
               /\ availabilityFilter "disponivel" prd = false)
  /\ spProductList noSplit noLike db (listParams 12 "indisponivel")
     = inr ([], {| totalItems := 0; totalPages := 0; currentPage := 1;
                   pageSize := 12 |})
  /\ spProductList noSplit noLike db (listParams 12 "disponivel")
     = inr ([], {| totalItems := 0; totalPages := 0; currentPage := 1;
                   pageSize := 12 |})
  /\ exists summary,
       spProductList noSplit noLike db (listParams 12 "todos")
       = inr ([summary], {| totalItems := 1; totalPages := 1; currentPage := 1;
                            pageSize := 12 |})
       /\ sum_idProduct summary = 1.
Proof.
  cbv zeta. split; [|split; [|split]].
  - eexists. split; [vm_compute; reflexivity|]. repeat split.
  - vm_compute. reflexivity.
  - vm_compute. reflexivity.
  - eexists. split; [vm_compute; reflexivity|]. reflexivity.
Qed.

Lemma zPageSize_invalid n :
  n <> JsInt 12 -> n <> JsInt 24 -> n <> JsInt 36 -> zPageSize (Some n) = None.
Proof.
  intros H1 H2 H3. destruct n as [z| |]; try reflexivity.
  unfold zPageSize, memZ. simpl.
  destruct (Z.eqb_spec z 12); [subst; contradiction|].
  destruct (Z.eqb_spec z 24); [subst; contradiction|].
  destruct (Z.eqb_spec z 36); [subst; contradiction|]. reflexivity.
Qed.

Lemma listQuerySchema_pageSize req p :
  listQuerySchema req = Some p ->
  zPageSize (req_pageSize req) = Some (lst_pageSize p).
Proof.
  unfold listQuerySchema. intros H.
  repeat match type of H with
         | context [match ?x with _ => _ end] => destruct x; try discriminate
         end.
  inversion H. reflexivity.
Qed.

Section Pipeline.
Variable splitIds : string -> option (list Z).
Variable like : string -> string -> bool.

(** C4, as the code has it.  A request that carries a pageSize other
    than 12, 24 or 36 is rejected by the schema of the handler and never
    reaches the routine.  The fallback to 12 is what the routine does
    when it is called with such a value directly (and the offset of the
    page is a value of INT), and 12 is the default the schema fills in
    when the request carries no pageSize. *)
Theorem invalid_pageSize_is_rejected_before_the_routine :
  forall db req n,
    req_pageSize req = Some n ->
    n <> JsInt 12 -> n <> JsInt 24 -> n <> JsInt 36 ->
    listHandler splitIds like db req = NextZodError
    /\ (forall p idAccount ids,
          lst_idAccount p = Some idAccount ->
          splitAll splitIds p = Some ids ->
          lst_pageSize p <> 12 -> lst_pageSize p <> 24 -> lst_pageSize p <> 36 ->
          pageOffset p <= 2147483647 ->
          exists products pagination,
            spProductList splitIds like db p = inr (products, pagination)
            /\ pageSize pagination = 12
            /\ Z.of_nat (length products) <= 12)
    /\ (forall req' p,
          req_pageSize req' = None ->
          listQuerySchema req' = Some p ->
          lst_pageSize p = 12).
Proof.
  intros db req n Hn H12 H24 H36. split; [|split].
  - unfold listHandler.
    destruct (listQuerySchema req) as [p|] eqn:E; [|reflexivity].
    apply listQuerySchema_pageSize in E.
    rewrite Hn, (zPageSize_invalid n H12 H24 H36) in E. discriminate.
  - intros p a ids Ha Hids Hp12 Hp24 Hp36 Hoff.
    destruct (spProductList_runs splitIds like db p a ids Ha Hids Hoff)
      as (products & pagination & Hrun & Hsize & _ & _ & _ & Hlen & _).
    rewrite (normalizePageSize_invalid _ Hp12 Hp24 Hp36) in Hsize.
    exists products, pagination. rewrite Hsize in Hlen. auto.
  - intros req' p Hnone Hschema.
    apply listQuerySchema_pageSize in Hschema. rewrite Hnone in Hschema.
    simpl in Hschema. congruence.
Qed.

End Pipeline.

(** C4 as stated fails: the request with pageSize = 13 and every other
    field in order gets the validation error, not a page of 12; the same
    request without a pageSize gets its page. *)
Lemma pageSize_13_is_rejected_not_defaulted :
  listHandler noSplit noLike (shop 5) (listRequest (Some (JsInt 13))) = NextZodError
  /\ (forall page,
        listHandler noSplit noLike (shop 5) (listRequest (Some (JsInt 13)))
        <> Json200 page)
  /\ exists products pagination,
       listHandler noSplit noLike (shop 5) (listRequest None)
       = Json200 (products, pagination)
       /\ pageSize pagination = 12.
Proof.
  split; [reflexivity|]. split; [discriminate|].
  eexists _, _. split; [vm_compute; reflexivity|]. reflexivity.
Qed.

(** ** The cart invariant is kept by every call *)

(** The states a call can end in: the one it started from (an error before
    any write), the same tables with identity values spent (an error after
    the cart was inserted or on the INSERT of the item), or the writes of
    the merge or of the insert, with or without a new cart. *)
Lemma spCartItemAdd_final_state now args db :
  let db' := fst (spCartItemAdd now args db) in
  db' = db
  \/ (exists atError,
        db' = rollback db atError
        /\ db_identCart db <= db_identCart atError
        /\ db_identCartItem db <= db_identCartItem atError)
  \/ exists a s p f z q u,
       let carts := (db_cart db ++ [insertedCart now (db_identCart db) a s])%list in
       (exists crt existing,
          lastMatch (cartMatches a s) (db_cart db) = Some crt
          /\ lastMatch (cartItemMatches a (crt_idCart crt) p f z) (db_cartItem db)
             = Some existing
          /\ db' = withCartItems db
                     (map (updateWhere now (crtItm_idCartItem existing)
                             (crtItm_quantity existing + q)
                             (u * (crtItm_quantity existing + q))
                             (arg_observations args)) (db_cartItem db))
                     (db_identCartItem db))
       \/ (exists crt,
             lastMatch (cartMatches a s) (db_cart db) = Some crt
             /\ lastMatch (cartItemMatches a (crt_idCart crt) p f z) (db_cartItem db)
                = None
             /\ db' = withCartItems db
                        (db_cartItem db
                         ++ [insertedRow now (db_identCartItem db) a (crt_idCart crt)
                               p f z q u (u * q) (arg_observations args)])
                        (db_identCartItem db + 1))
       \/ (exists existing,
             lastMatch (cartItemMatches a (db_identCart db) p f z) (db_cartItem db)
             = Some existing)
       \/ (lastMatch (cartMatches a s) (db_cart db) = None
           /\ lastMatch (cartItemMatches a (db_identCart db) p f z) (db_cartItem db)
              = None
           /\ db' = withCartItems (withCarts db carts (db_identCart db + 1))
                      (db_cartItem db
                       ++ [insertedRow now (db_identCartItem db) a (db_identCart db)
                             p f z q u (u * q) (arg_observations args)])
                      (db_identCartItem db + 1)).
Proof.
  cbv zeta.
  destruct args as [[a|] [s|] [p|] [f|] [z|] [q|] obs];
    try (left; apply rollback_same);
    unfold spCartItemAdd, tryTran, spCartItemAdd_body, checkCatalogue, ensureCart,
      mergeOrInsert, tx_bind, readDb, notNull, throwIf, tx_ret, throw;
    step;
    cbn [arg_idAccount arg_sessionId arg_idProduct arg_idFlavor arg_idSize
         arg_quantity arg_observations];
    step;
    (destruct (LEN s =? 0); [left; apply rollback_same|]);
    step; try (left; apply rollback_same).
  destruct (q <? 1); [left; apply rollback_same|]. step.
  destruct (q >? 10); [left; apply rollback_same|]. step.
  destruct (productExists db a p); [|left; apply rollback_same]. step.
  destruct (productAvailable db a p); [|left; apply rollback_same]. step.
  destruct (flavorAvailable db a p f); [|left; apply rollback_same]. step.
  destruct (sizeAvailable db a p z); [|left; apply rollback_same]. step.
  destruct (lastMatch (cartMatches a s) (db_cart db)) as [crt|] eqn:Hc; step.
  - destruct (lastMatch _ (db_cartItem db)) as [existing|] eqn:Hi; step.
    + destruct (crtItm_quantity existing + q >? 10); [left; apply rollback_same|]. step.
      destruct (selectUnitPrice db a p z) as [u|]; [|left; apply rollback_same].
      right. right. exists a, s, p, f, z, q, u. left. exists crt, existing. auto.
    + destruct (selectUnitPrice db a p z) as [u|].
      * right. right. exists a, s, p, f, z, q, u. right. left. exists crt. auto.
      * right. left. eexists. split; [reflexivity|]. simpl. lia.
  - unfold insertCart. cbv zeta. step.
    change (db_cartItem (withCarts db ?c ?i)) with (db_cartItem db).
    change (selectUnitPrice (withCarts db ?c ?i) a p z) with (selectUnitPrice db a p z).
    destruct (lastMatch _ (db_cartItem db)) as [existing|] eqn:Hi; step.
    + right. right. exists a, s, p, f, z, q, 0. right. right. left. eauto.
    + destruct (selectUnitPrice db a p z) as [u|].
      * right. right. exists a, s, p, f, z, q, u. right. right. right. auto.
      * right. left. eexists. split; [reflexivity|]. simpl. lia.
Qed.

Lemma updateWhere_idCart now id q t obs r :
  crtItm_idCart (updateWhere now id q t obs r) = crtItm_idCart r.
Proof. unfold updateWhere. destruct (crtItm_idCartItem r =? id); reflexivity. Qed.

Lemma cartItemMatches_eq a c p f z a' c' p' f' z' r :
  cartItemMatches a c p f z r = true ->
  cartItemMatches a' c' p' f' z' r = true ->
  cartItemMatches a' c' p' f' z' = cartItemMatches a c p f z.
Proof.
  unfold cartItemMatches. intros H H'.
  repeat (apply andb_prop in H as [H ?]). repeat (apply andb_prop in H' as [H' ?]).
  replace a' with a by lia. replace c' with c by lia. replace p' with p by lia.
  replace f' with f by lia. replace z' with z by lia. reflexivity.
Qed.

Lemma cartMatches_eq a s a' s' crt :
  cartMatches a s crt = true -> cartMatches a' s' crt = true ->
  cartMatches a' s' = cartMatches a s.
Proof.
  unfold cartMatches, sqlEq. intros H H'.
  apply andb_prop in H as [H1 H2]. apply andb_prop in H' as [H1' H2'].
  apply String.eqb_eq in H2, H2'. replace a' with a by lia.
  replace (rtrim s') with (rtrim s) by congruence. reflexivity.
Qed.

Lemma lastMatch_None_filter {A} (cond : A -> bool) (t : list A) :
  lastMatch cond t = None -> List.filter cond t = [].
Proof. unfold lastMatch. apply last_None. Qed.

(** Appending a row keeps "at most one row per key" when the key of the
    new row had no row before. *)
Lemma filter_snoc_le_1 {A} (cond cond0 : A -> bool) (t : list A) (r : A) :
  (length (List.filter cond t) <= 1)%nat ->
  List.filter cond0 t = [] ->
  (cond r = true -> cond = cond0) ->
  (length (List.filter cond (t ++ [r])) <= 1)%nat.
Proof.
  intros Hle Hnil Heq. rewrite List.filter_app, length_app. simpl.
  destruct (cond r) eqn:E; simpl; [|lia].
  rewrite (Heq eq_refl), Hnil. simpl. lia.
Qed.

(** Every call of the procedure, whatever its parameters and its outcome,
    keeps the foreign key, the freshness of both identity columns, one
    cart per session and one cart item per (cart, product, flavor, size). *)
Theorem spCartItemAdd_keeps_cartInvariant now args db :
  cartInvariant db -> cartInvariant (fst (spCartItemAdd now args db)).
Proof.
  intros [Hfk Hci Hcii Hone Honei].
  destruct (spCartItemAdd_final_state now args db)
    as [->|[(atError & -> & Hic & Hii)|(a & s & p & f & z & q & u & H)]].
  - constructor; assumption.
  - constructor; try assumption.
    + intros crt Hin. specialize (Hci crt Hin). simpl. lia.
    + intros r Hin. specialize (Hcii r Hin). simpl. lia.
  - cbv zeta in H.
    destruct H as [(crt & existing & Hc & Hi & ->)
                  |[(crt & Hc & Hi & ->)|[(existing & Hi)|(Hc & Hi & ->)]]].
    + (* merge *)
      constructor; try assumption.
      * intros r Hin. simpl in Hin. apply in_map_iff in Hin as (r0 & <- & Hin).
        rewrite updateWhere_idCart. apply Hfk, Hin.
      * intros r Hin. simpl in Hin. apply in_map_iff in Hin as (r0 & <- & Hin).
        rewrite updateWhere_id. apply Hcii, Hin.
      * intros a' c' p' f' z'. simpl. rewrite filter_map_swap, length_map.
        rewrite (filter_ext _ _ (fun r => updateWhere_cartItemMatches a' c' p' f' z'
                                              _ _ _ _ _ r)).
        apply Honei.
    + (* insert, the cart exists *)
      apply lastMatch_Some in Hc as [Hcin Hcm].
      constructor; try assumption.
      * intros r Hin. simpl in Hin. apply in_app_or in Hin as [Hin|[<-|[]]].
        -- apply Hfk, Hin.
        -- exists crt. auto.
      * intros r Hin. simpl in *. apply in_app_or in Hin as [Hin|[<-|[]]].
        -- specialize (Hcii r Hin). lia.
        -- simpl. lia.
      * intros a' c' p' f' z'. simpl.
        apply (filter_snoc_le_1 _ (cartItemMatches a (crt_idCart crt) p f z)).
        -- apply Honei.
        -- apply lastMatch_None_filter, Hi.
        -- intros H. apply (cartItemMatches_eq _ _ _ _ _ _ _ _ _ _ _
                               (cartItemMatches_insertedRow _ _ _ _ _ _ _ _ _ _ _) H).
    + (* a row of a cart that does not exist yet: excluded by the key *)
      exfalso. apply lastMatch_Some in Hi as [Hin Hm].
      destruct (Hfk existing Hin) as (crt & Hcin & Hid).
      specialize (Hci crt Hcin).
      unfold cartItemMatches in Hm. repeat (apply andb_prop in Hm as [Hm ?]). lia.
    + (* insert into the new cart *)
      constructor.
      * intros r Hin. simpl in Hin. apply in_app_or in Hin as [Hin|[<-|[]]].
        -- destruct (Hfk r Hin) as (crt & Hcin & Hid). exists crt. split; auto.
           simpl. apply in_or_app. auto.
        -- eexists. split; [simpl; apply in_or_app; right; left; reflexivity|].
           reflexivity.
      * intros crt Hin. simpl in *. apply in_app_or in Hin as [Hin|[<-|[]]].
        -- specialize (Hci crt Hin). lia.
        -- simpl. lia.
      * intros r Hin. simpl in *. apply in_app_or in Hin as [Hin|[<-|[]]].
        -- specialize (Hcii r Hin). lia.
        -- simpl. lia.
      * intros a' s'. simpl.
        apply (filter_snoc_le_1 _ (cartMatches a s)).
        -- apply Hone.
        -- apply lastMatch_None_filter, Hc.
        -- intros H. apply (cartMatches_eq _ _ _ _ _
                               (cartMatches_insertedCart _ _ _ _) H).
      * intros a' c' p' f' z'. simpl.
        apply (filter_snoc_le_1 _ (cartItemMatches a (db_identCart db) p f z)).
        -- apply Honei.
        -- apply lastMatch_None_filter, Hi.
        -- intros H. apply (cartItemMatches_eq _ _ _ _ _ _ _ _ _ _ _
                               (cartItemMatches_insertedRow _ _ _ _ _ _ _ _ _ _ _) H).
Qed.

(** The empty cart tables satisfy the invariant, so every state reached
    from them by calls of the procedure does. *)
Lemma cartInvariant_shop stock : cartInvariant (shop stock).
Proof.
  constructor.
  - intros r [].
  - intros r [].
  - intros r [].
  - intros a s. simpl. lia.
  - intros a c p f z. simpl. lia.
Qed.

(** ** The properties at work in the shop *)

Lemma LEN_session : LEN "sess-1" <> 0.
Proof. intros H. vm_compute in H. discriminate H. Qed.

Lemma shopAfterAdd_invariant quantity observations :
  cartInvariant (shopAfterAdd quantity observations).
Proof. apply spCartItemAdd_keeps_cartInvariant, cartInvariant_shop. Qed.


(** C3 in the shop: 8 units in the cart, 5 more asked for. *)
Lemma add_5_to_8_in_the_shop :
  (exists existing,
     tupleRows (shopAfterAdd 8 None) 1 "sess-1" 1 1 1 = [existing]
     /\ crtItm_quantity existing = 8)
  /\ spCartItemAdd 200 (shopArgs 5 None) (shopAfterAdd 8 None)
     = (shopAfterAdd 8 None, inl (Throw51000 "quantityExceedsMaximum")).
Proof.
  split.
  - eexists. split; [vm_compute; reflexivity|]. reflexivity.
  - apply (add_over_limit_leaves_state_unchanged 200 (shopAfterAdd 8 None) 1 "sess-1"
             1 1 1 None
             (insertedRow 100 1 1 1 1 1 1 8 25000000 200000000 None)).
    + exact LEN_session.
    + apply shopAfterAdd_invariant.
    + vm_compute. reflexivity.
    + reflexivity.
    + vm_compute. reflexivity.
Defined.


(** C9 in the shop: a note on the first add, none on the second. *)
Lemma merge_without_note_in_the_shop :
  let db := shopAfterAdd 3 (Some "sem cobertura") in
  exists db' results merged,
    spCartItemAdd 200 (shopArgs 4 None) db = (db', inr results)
    /\ tupleRows db' 1 "sess-1" 1 1 1 = [merged]
    /\ crtItm_idCartItem merged = 1
    /\ crtItm_observations merged = Some "sem cobertura".
Proof.
  cbv zeta.
  destruct (merge_keeps_or_replaces_observations 200
              (shopAfterAdd 3 (Some "sem cobertura")) 1 "sess-1" 1 1 1 4 None
              (insertedRow 100 1 1 1 1 1 1 3 25000000 75000000 (Some "sem cobertura"))
              25000000 LEN_session ltac:(lia)
              ltac:(vm_compute; reflexivity) ltac:(vm_compute; reflexivity)
              (inv_oneCart _ (shopAfterAdd_invariant 3 (Some "sem cobertura")))
              ltac:(vm_compute; reflexivity) ltac:(simpl; lia))
    as (db' & results & merged & Hrun & Hrows & Hid & Hkeep & _).
  exists db', results, merged.
  split; [exact Hrun|]. split; [exact Hrows|]. split; [exact Hid|].
  apply Hkeep. reflexivity.
Defined.

(** C10 in the shop: the flavor association is there and enabled. *)
Lemma flavor_error_in_the_shop :
  productExists (shop 5) 1 1 = true
  /\ productAvailable (shop 5) 1 1 = true
  /\ snd (spCartItemAdd 100 (shopArgs 2 None) (shop 5))
     <> inl (Throw51000 "flavorNotAvailable")
  /\ snd (spCartItemAdd 100 (addArgs 1 "sess-1" 1 2 1 2 None) (shop 5))
     = inl (Throw51000 "flavorNotAvailable").
Proof.
  split; [reflexivity|]. split; [reflexivity|]. split.
  - intros H.
    apply (proj1 (add_ignores_soft_deleted_flavor_and_size 100 (shop 5) 1 "sess-1"
                    1 1 1 2 None LEN_session ltac:(lia) eq_refl eq_refl)) in H.
    destruct H as [H|(row & H & Hrow)].
    + vm_compute in H. discriminate H.
    + vm_compute in H. inversion H. subst row. discriminate Hrow.
  - apply (proj1 (add_ignores_soft_deleted_flavor_and_size 100 (shop 5) 1 "sess-1"
                    1 2 1 2 None LEN_session ltac:(lia) eq_refl eq_refl)).
    left. vm_compute. reflexivity.
Defined.

(** C8 in the shop. *)
Lemma related_by_flavor_in_the_shop :
  productExists (shop 5) 1 1 = true
  /\ spProductRelated (shop 5) (Some 1) (Some 1) 4 "sabor" = inr []
  /\ relatedHandler (shop 5)
       {| req_id := JsInt 1; req_limit := None; req_criteria := JsString "sabor" |}
     = Json200 None.
Proof.
  split; [reflexivity|].
  destruct (related_by_flavor_selects_nothing (shop 5) 1 1 4 eq_refl)
    as (Hrun & _ & _ & Hhandler).
  split; [exact Hrun|].
  apply (Hhandler (JsInt 1) None eq_refl eq_refl eq_refl).
Defined.

(** C6 in the shop: one product, pages of 24. *)
Lemma pagination_in_the_shop :
  lst_idAccount (listParams 24 "todos") = Some 1
  /\ pageOffset (listParams 24 "todos") = 0
  /\ onePrimaryImage (shop 5)
  /\ exists products pagination,
       spProductList noSplit noLike (shop 5) (listParams 24 "todos")
       = inr (products, pagination)
       /\ pageSize pagination = 24
       /\ (totalPages pagination - 1) * pageSize pagination
          < totalItems pagination
          <= totalPages pagination * pageSize pagination
       /\ Z.of_nat (length products) <= pageSize pagination
       /\ Z.of_nat (length products)
          = Z.max 0
              (Z.min (pageSize pagination)
                 (totalItems pagination
                  - (currentPage pagination - 1) * pageSize pagination)).
Proof.
  split; [reflexivity|]. split; [reflexivity|].
  split; [apply onePrimaryImage_without_images; reflexivity|].
  destruct (proj2 (pagination_metadata noSplit noLike (shop 5)
                     (listParams 24 "todos"))
              1 {| ids_category := None; ids_flavor := None; ids_size := None;
                   ids_confectioner := None |} eq_refl eq_refl
              ltac:(vm_compute; discriminate))
    as (products & pagination & Hrun).
  destruct (proj1 (pagination_metadata noSplit noLike (shop 5)
                     (listParams 24 "todos")) products pagination Hrun)
    as (a & ids & _ & _ & _ & Hsize & _ & _ & Hceil & Hlen & _ & _ & Hexact).
  exists products, pagination.
  split; [exact Hrun|]. split; [apply Hsize; reflexivity|].
  split; [exact Hceil|]. split; [exact Hlen|].
  apply Hexact, onePrimaryImage_without_images. reflexivity.
Defined.

(** C4 in the shop: pageSize = 13. *)
Lemma pageSize_13_in_the_shop :
  req_pageSize (listRequest (Some (JsInt 13))) = Some (JsInt 13)
  /\ listHandler noSplit noLike (shop 5) (listRequest (Some (JsInt 13)))
     = NextZodError
  /\ pageOffset (listParams 13 "todos") = 0
  /\ exists products pagination,
       spProductList noSplit noLike (shop 5) (listParams 13 "todos")
       = inr (products, pagination)
       /\ pageSize pagination = 12
       /\ Z.of_nat (length products) <= 12.
Proof.
  split; [reflexivity|].
  destruct (invalid_pageSize_is_rejected_before_the_routine noSplit noLike
              (shop 5) (listRequest (Some (JsInt 13))) (JsInt 13) eq_refl
              ltac:(discriminate) ltac:(discriminate) ltac:(discriminate))
    as (Hrejected & Hdirect & _).
  split; [exact Hrejected|]. split; [reflexivity|].
  apply (Hdirect (listParams 13 "todos") 1
           {| ids_category := None; ids_flavor := None; ids_size := None;
              ids_confectioner := None |} eq_refl eq_refl);
    first [discriminate | vm_compute; discriminate].
Defined.

(** * Further properties *)

(** ** Every outcome of the cart-item-add, in one statement *)

(** A call ends in an error, with every table rolled back and at most one
    value of each identity spent, or it commits the merge or the insert,
    possibly after creating the cart. *)
Lemma spCartItemAdd_cases now args db :
  (exists e dbe,
     spCartItemAdd now args db = (rollback db dbe, inl e)
     /\ db_identCart db <= db_identCart dbe <= db_identCart db + 1
     /\ db_identCartItem db <= db_identCartItem dbe <= db_identCartItem db + 1)
  \/ exists a s p f z q u dbc idCart,
       arg_idAccount args = Some a /\ arg_sessionId args = Some s
       /\ arg_idProduct args = Some p /\ arg_idFlavor args = Some f
       /\ arg_idSize args = Some z /\ arg_quantity args = Some q
       /\ LEN s <> 0 /\ 1 <= q <= 10
       /\ availabilityChecks db a p f z = true
       /\ selectUnitPrice db a p z = Some u
       /\ ((exists crt, lastMatch (cartMatches a s) (db_cart db) = Some crt
                        /\ idCart = crt_idCart crt /\ dbc = db)
           \/ (lastMatch (cartMatches a s) (db_cart db) = None
               /\ idCart = db_identCart db
               /\ dbc = withCarts db
                          (db_cart db ++ [insertedCart now (db_identCart db) a s])
                          (db_identCart db + 1)))
       /\ ((exists existing,
              lastMatch (cartItemMatches a idCart p f z) (db_cartItem db)
              = Some existing
              /\ crtItm_quantity existing + q <= 10
              /\ let items :=
                   map (updateWhere now (crtItm_idCartItem existing)
                          (crtItm_quantity existing + q)
                          (u * (crtItm_quantity existing + q))
                          (arg_observations args)) (db_cartItem db) in
                 spCartItemAdd now args db
                 = (withCartItems dbc items (db_identCartItem db),
                    inr (map toResult
                           (List.filter
                              (fun r => crtItm_idCartItem r
                                        =? crtItm_idCartItem existing) items))))
           \/ (lastMatch (cartItemMatches a idCart p f z) (db_cartItem db) = None
               /\ let items :=
                    (db_cartItem db
                     ++ [insertedRow now (db_identCartItem db) a idCart p f z q u
                           (u * q) (arg_observations args)])%list in
                  spCartItemAdd now args db
                  = (withCartItems dbc items (db_identCartItem db + 1),
                     inr (map toResult
                            (List.filter
                               (fun r => crtItm_idCartItem r =? db_identCartItem db)
                               items))))).
Proof.
  assert (Hleft : forall e,
             exists e' dbe, (rollback db db, @inl sqlError (list CartItemResult) e)
                            = (rollback db dbe, inl e')
             /\ db_identCart db <= db_identCart dbe <= db_identCart db + 1
             /\ db_identCartItem db <= db_identCartItem dbe
                <= db_identCartItem db + 1)
    by (intros e; exists e, db; split; [reflexivity|lia]).
  destruct args as [[a|] [s|] [p|] [f|] [z|] [q|] obs];
    try (left; apply Hleft);
    unfold spCartItemAdd, tryTran, spCartItemAdd_body, checkCatalogue, ensureCart,
      mergeOrInsert, tx_bind, readDb, notNull, throwIf, tx_ret, throw;
    step;
    cbn [arg_idAccount arg_sessionId arg_idProduct arg_idFlavor arg_idSize
         arg_quantity arg_observations];
    step;
    (destruct (Z.eqb_spec (LEN s) 0) as [Hs|Hs]; [left; apply Hleft|]);
    step; try (left; apply Hleft).
  destruct (Z.ltb_spec q 1) as [Hq1|Hq1]; [left; apply Hleft|]. step.
  destruct (Z.gtb_spec q 10) as [Hq2|Hq2]; [left; apply Hleft|]. step.
  destruct (productExists db a p) eqn:H1; [|left; apply Hleft]. step.
  destruct (productAvailable db a p) eqn:H2; [|left; apply Hleft]. step.
  destruct (flavorAvailable db a p f) eqn:H3; [|left; apply Hleft]. step.
  destruct (sizeAvailable db a p z) eqn:H4; [|left; apply Hleft]. step.
  assert (Hchecks : availabilityChecks db a p f z = true)
    by (unfold availabilityChecks; rewrite H1, H2, H3, H4; reflexivity).
  destruct (lastMatch (cartMatches a s) (db_cart db)) as [crt|] eqn:Hc; step.
  - destruct (lastMatch _ (db_cartItem db)) as [existing|] eqn:Hi; step.
    + destruct (Z.gtb_spec (crtItm_quantity existing + q) 10) as [Hsum|Hsum];
        [left; apply Hleft|]. step.
      destruct (selectUnitPrice db a p z) as [u|] eqn:Hu; [|left; apply Hleft].
      right. exists a, s, p, f, z, q, u, db, (crt_idCart crt).
      repeat (split; [first [reflexivity|assumption|lia]|]).
      split; [left; exists crt; auto|].
      left. exists existing. split; [exact Hi|]. split; [lia|]. reflexivity.
    + destruct (selectUnitPrice db a p z) as [u|] eqn:Hu;
        [|left; eexists _, _; split; [reflexivity|simpl; lia]].
      right. exists a, s, p, f, z, q, u, db, (crt_idCart crt).
      repeat (split; [first [reflexivity|assumption|lia]|]).
      split; [left; exists crt; auto|].
      right. split; [exact Hi|]. reflexivity.
  - unfold insertCart. cbv zeta. step.
    change (db_cartItem (withCarts db ?c ?i)) with (db_cartItem db).
    change (selectUnitPrice (withCarts db ?c ?i) a p z) with (selectUnitPrice db a p z).
    destruct (lastMatch _ (db_cartItem db)) as [existing|] eqn:Hi; step.
    + destruct (Z.gtb_spec (crtItm_quantity existing + q) 10) as [Hsum|Hsum];
        [left; eexists _, _; split; [reflexivity|simpl; lia]|]. step.
      destruct (selectUnitPrice db a p z) as [u|] eqn:Hu;
        [|left; eexists _, _; split; [reflexivity|simpl; lia]].
      right. exists a, s, p, f, z, q, u.
      eexists _, (db_identCart db).
      repeat (split; [first [reflexivity|assumption|lia]|]).
      split; [right; auto|].
      left. exists existing. split; [exact Hi|]. split; [lia|]. reflexivity.
    + destruct (selectUnitPrice db a p z) as [u|] eqn:Hu;
        [|left; eexists _, _; split; [reflexivity|simpl; lia]].
      right. exists a, s, p, f, z, q, u.
      eexists _, (db_identCart db).
      repeat (split; [first [reflexivity|assumption|lia]|]).
      split; [right; auto|].
      right. split; [exact Hi|]. reflexivity.
Qed.

(** ** What a call of the procedure never does *)

Lemma sameCatalogue_refl db : sameCatalogue db db.
Proof. repeat split. Qed.

Lemma sameKeyColumns_updateWhere now id q t obs r :
  sameKeyColumns r (updateWhere now id q t obs r).
Proof.
  unfold updateWhere, sameKeyColumns.
  destruct (crtItm_idCartItem r =? id); repeat split.
Qed.

Lemma Forall2_map_r_same {A} (R : A -> A -> Prop) (g : A -> A) (l : list A) :
  (forall x, R x (g x)) -> Forall2 R l (map g l).
Proof. intros H. induction l; simpl; constructor; auto. Qed.

(** X1. A call that ends in an error has changed no table: catalogue,
    carts and cart items are what they were.  Only the two identities may
    each have advanced by one (a cart INSERT that was rolled back, an item
    INSERT that failed); they never go back and never advance further. *)
Theorem failed_add_changes_no_table :
  forall now args db error,
    snd (spCartItemAdd now args db) = inl error ->
    let db' := fst (spCartItemAdd now args db) in
    sameCatalogue db db'
    /\ db_cart db' = db_cart db
    /\ db_cartItem db' = db_cartItem db
    /\ db_identCart db <= db_identCart db' <= db_identCart db + 1
    /\ db_identCartItem db <= db_identCartItem db' <= db_identCartItem db + 1.
Proof.
  intros now args db error Herr. cbv zeta.
  destruct (spCartItemAdd_cases now args db)
    as [(e & dbe & Hrun & Hdbe)
       |(a & s & p & f & z & q & u & dbc & idCart & _ & _ & _ & _ & _ & _ & _ & _
         & _ & _ & _ & [(existing & _ & _ & Hrun)|(_ & Hrun)])];
    cbv zeta in Hrun; rewrite Hrun in *; try discriminate Herr.
  simpl. split; [repeat split|]. repeat split; lia.
Qed.

(** X2. Whatever the parameters and the outcome, a call leaves the
    catalogue alone, removes or rewrites no cart, adds at most one cart
    and at most one cart item, and on each cart item that was there keeps
    the key, the tuple, the unit price and the creation date. *)
Theorem add_only_appends_or_merges :
  forall now args db,
    let db' := fst (spCartItemAdd now args db) in
    sameCatalogue db db'
    /\ exists newCarts kept newItems,
         db_cart db' = (db_cart db ++ newCarts)%list
         /\ (length newCarts <= 1)%nat
         /\ db_cartItem db' = (kept ++ newItems)%list
         /\ (length newItems <= 1)%nat
         /\ Forall2 sameKeyColumns (db_cartItem db) kept.
Proof.
  intros now args db. cbv zeta.
  assert (Hid : Forall2 sameKeyColumns (db_cartItem db) (db_cartItem db)).
  { apply Forall2_same_length_lookup_2; [reflexivity|].
    intros i x y Hx Hy. rewrite Hx in Hy. inversion Hy. subst. repeat split. }
  destruct (spCartItemAdd_cases now args db)
    as [(e & dbe & Hrun & Hdbe)
       |(a & s & p & f & z & q & u & dbc & idCart & _ & _ & _ & _ & _ & _ & _ & _
         & _ & _ & Hcart & Hitem)].
  - rewrite Hrun. simpl. split; [repeat split|].
    exists [], (db_cartItem db), []. rewrite !app_nil_r. simpl.
    repeat split; auto.
  - assert (Hdbc : sameCatalogue db dbc
                   /\ exists newCarts, db_cart dbc = (db_cart db ++ newCarts)%list
                                       /\ (length newCarts <= 1)%nat).
    { destruct Hcart as [(crt & _ & _ & ->)|(_ & _ & ->)].
      - split; [apply sameCatalogue_refl|]. exists []. rewrite app_nil_r. auto.
      - split; [repeat split|]. eexists [_]. simpl. auto. }
    destruct Hdbc as [Hcat (newCarts & Hcarts & Hlen)].
    destruct Hitem as [(existing & _ & _ & Hrun)|(_ & Hrun)];
      cbv zeta in Hrun; rewrite Hrun; simpl.
    + split; [exact Hcat|].
      eexists newCarts, _, []. rewrite app_nil_r.
      repeat split; auto.
      apply Forall2_map_r_same. intros x. apply sameKeyColumns_updateWhere.
    + split; [exact Hcat|].
      eexists newCarts, (db_cartItem db), [_].
      repeat split; auto.
Qed.

(** ** Invariants over sequences of calls *)

Lemma pkCartItem_step now args db :
  cartItemIdentityFresh db -> pkCartItem db ->
  pkCartItem (fst (spCartItemAdd now args db)).
Proof.
  intros Hfresh Hpk. unfold pkCartItem in *.
  destruct (spCartItemAdd_cases now args db)
    as [(e & dbe & Hrun & Hdbe)
       |(a & s & p & f & z & q & u & dbc & idCart & _ & _ & _ & _ & _ & _ & _ & _
         & _ & _ & _ & [(existing & _ & _ & Hrun)|(_ & Hrun)])];
    cbv zeta in Hrun; rewrite Hrun; simpl.
  - exact Hpk.
  - rewrite map_map.
    rewrite (map_ext _ crtItm_idCartItem (fun r => updateWhere_id _ _ _ _ _ r)).
    exact Hpk.
  - rewrite map_app. simpl. apply NoDup_app.
    split; [exact Hpk|]. split; [|apply NoDup_singleton].
    intros x Hx Hx'. apply list_elem_of_In in Hx. apply list_elem_of_singleton in Hx'.
    apply in_map_iff in Hx as (r & Hr & Hin). specialize (Hfresh r Hin). lia.
Qed.

Lemma quantityInRange_step now args db :
  Forall quantityInRange (db_cartItem db) ->
  Forall quantityInRange (db_cartItem (fst (spCartItemAdd now args db))).
Proof.
  intros Hrange.
  destruct (spCartItemAdd_cases now args db)
    as [(e & dbe & Hrun & Hdbe)
       |(a & s & p & f & z & q & u & dbc & idCart & _ & _ & _ & _ & _ & _ & _ & Hq
         & _ & _ & _ & [(existing & Hi & Hsum & Hrun)|(_ & Hrun)])];
    cbv zeta in Hrun; rewrite Hrun; simpl.
  - exact Hrange.
  - apply lastMatch_Some in Hi as [Hin _].
    pose proof (proj1 (List.Forall_forall _ _) Hrange existing Hin) as Hex.
    apply List.Forall_forall. intros r Hr.
    apply in_map_iff in Hr as (r0 & <- & Hr0).
    unfold updateWhere. destruct (crtItm_idCartItem r0 =? crtItm_idCartItem existing).
    + unfold quantityInRange in *. simpl. lia.
    + apply (proj1 (List.Forall_forall _ _) Hrange r0 Hr0).
  - apply List.Forall_forall. intros r Hr. apply in_app_or in Hr as [Hr|[<-|[]]].
    + apply (proj1 (List.Forall_forall _ _) Hrange r Hr).
    + unfold quantityInRange. simpl. lia.
Qed.

(** X3. Starting from a state that satisfies them, every sequence of
    calls of the procedure, valid or not, succeeding or not, keeps the
    foreign key, fresh identities, one cart per (account, session), one
    cart item per (cart, product, flavor, size) and the primary key of
    cartItem. *)
Theorem any_sequence_of_adds_keeps_the_cart_invariant :
  forall calls db,
    cartInvariant db -> pkCartItem db ->
    cartInvariant (runAdds calls db) /\ pkCartItem (runAdds calls db).
Proof.
  induction calls as [|[now args] calls IH]; intros db Hinv Hpk; simpl.
  - auto.
  - apply IH.
    + apply spCartItemAdd_keeps_cartInvariant, Hinv.
    + apply pkCartItem_step; [apply Hinv|exact Hpk].
Qed.

(** X4. The quantity of every stored cart item stays within 1..10 over any
    sequence of calls: an insert stores the validated quantity, a merge
    only commits a sum of at most 10. *)
Theorem any_sequence_of_adds_keeps_quantities_in_range :
  forall calls db,
    Forall quantityInRange (db_cartItem db) ->
    Forall quantityInRange (db_cartItem (runAdds calls db)).
Proof.
  induction calls as [|[now args] calls IH]; intros db Hrange; simpl.
  - exact Hrange.
  - apply IH, quantityInRange_step, Hrange.
Qed.


(** ** Errors of the cart-item-add, cause by cause *)

Lemma rtrim_empty_iff s : rtrim s = EmptyString <-> allBlank s = true.
Proof.
  induction s as [|c s IH]; simpl.
  - tauto.
  - destruct (rtrim s) eqn:E.
    + destruct (isSpace c); simpl.
      * rewrite <- IH. tauto.
      * split; discriminate.
    + split; [discriminate|]. intros H. apply andb_prop in H as [_ H].
      apply IH in H. discriminate.
Qed.

Lemma LEN_zero_iff s : LEN s = 0 <-> allBlank s = true.
Proof.
  rewrite <- rtrim_empty_iff. unfold LEN.
  destruct (rtrim s); simpl; split; intros H; try reflexivity; try discriminate; lia.
Qed.

(** The messages a valid-looking call can be refused with. *)
Lemma spCartItemAdd_error_kinds now db a s p f z q obs error :
  1 <= q <= 10 ->
  snd (spCartItemAdd now (addArgs a s p f z q obs) db) = inl error ->
  (exists message,
     error = Throw51000 message
     /\ In message ["sessionIdRequired"; "productDoesntExist"; "productNotAvailable";
                    "flavorNotAvailable"; "sizeNotAvailable";
                    "quantityExceedsMaximum"])
  \/ exists column, error = NullIntoColumn column.
Proof.
  intros Hq.
  unfold spCartItemAdd, tryTran, spCartItemAdd_body, checkCatalogue, ensureCart,
    mergeOrInsert, tx_bind, readDb, notNull, throwIf, tx_ret, throw, addArgs.
  step.
  cbn [arg_idAccount arg_sessionId arg_idProduct arg_idFlavor arg_idSize
       arg_quantity arg_observations].
  step.
  destruct (LEN s =? 0); step;
    [simpl; intros H; inversion H; left; eexists; split; [reflexivity|simpl; tauto]|].
  destruct (Z.ltb_spec q 1) as [E|_]; [lia|].
  destruct (Z.gtb_spec q 10) as [E|_]; [lia|]. step.
  destruct (productExists db a p); step;
    [|simpl; intros H; inversion H; left; eexists; split; [reflexivity|simpl; tauto]].
  destruct (productAvailable db a p); step;
    [|simpl; intros H; inversion H; left; eexists; split; [reflexivity|simpl; tauto]].
  destruct (flavorAvailable db a p f); step;
    [|simpl; intros H; inversion H; left; eexists; split; [reflexivity|simpl; tauto]].
  destruct (sizeAvailable db a p z); step;
    [|simpl; intros H; inversion H; left; eexists; split; [reflexivity|simpl; tauto]].
  destruct (lastMatch (cartMatches a s) (db_cart db)) as [crt|]; step.
  - destruct (lastMatch _ (db_cartItem db)) as [existing|]; step.
    + destruct (crtItm_quantity existing + q >? 10); step;
        [simpl; intros H; inversion H; left; eexists; split; [reflexivity|simpl; tauto]|].
      destruct (selectUnitPrice db a p z); simpl; intros H; inversion H; eauto.
    + destruct (selectUnitPrice db a p z); simpl; intros H; inversion H; eauto.
  - unfold insertCart. cbv zeta. step.
    change (db_cartItem (withCarts db ?c ?i)) with (db_cartItem db).
    change (selectUnitPrice (withCarts db ?c ?i) a p z) with (selectUnitPrice db a p z).
    destruct (lastMatch _ (db_cartItem db)) as [existing|]; step.
    + destruct (crtItm_quantity existing + q >? 10); step;
        [simpl; intros H; inversion H; left; eexists; split; [reflexivity|simpl; tauto]|].
      destruct (selectUnitPrice db a p z); simpl; intros H; inversion H; eauto.
    + destruct (selectUnitPrice db a p z); simpl; intros H; inversion H; eauto.
Qed.

(** X6. A quantity outside 1..10 is refused before the database is read:
    below 1 with 'quantityMustBeGreaterThanZero', above 10 with
    'quantityExceedsMaximum', in any state, with nothing changed. *)
Theorem quantity_out_of_range_is_refused_first :
  forall now db idAccount sessionId idProduct idFlavor idSize quantity observations,
    LEN sessionId <> 0 ->
    let args := addArgs idAccount sessionId idProduct idFlavor idSize quantity
                        observations in
    (quantity < 1 ->
     spCartItemAdd now args db
     = (db, inl (Throw51000 "quantityMustBeGreaterThanZero")))
    /\ (10 < quantity ->
        spCartItemAdd now args db = (db, inl (Throw51000 "quantityExceedsMaximum"))).
Proof.
  intros now db a s p f z q obs Hs args.
  split; intros Hq;
    unfold args, spCartItemAdd, tryTran, spCartItemAdd_body, tx_bind, notNull,
      throwIf, tx_ret, throw; simpl;
    destruct (Z.eqb_spec (LEN s) 0) as [E|_]; try contradiction.
  - destruct (Z.ltb_spec q 1) as [_|E]; [|lia]. simpl. rewrite rollback_same. reflexivity.
  - destruct (Z.ltb_spec q 1) as [E|_]; [lia|].
    destruct (Z.gtb_spec q 10) as [_|E]; [|lia]. simpl. rewrite rollback_same. reflexivity.
Qed.

Lemma productExists_true db a p :
  productExists db a p = true <->
  exists prd, db_product db !! p = Some prd
              /\ prd_idAccount prd = a /\ prd_deleted prd = false.
Proof.
  unfold productExists. destruct (db_product db !! p) as [prd|].
  - rewrite andb_true_iff, negb_true_iff, Z.eqb_eq. split.
    + intros [H1 H2]. eauto.
    + intros (prd' & H & H1 & H2). inversion H. subst. auto.
  - split; [discriminate|]. intros (prd' & H & _). discriminate.
Qed.

Lemma productAvailable_true db a p :
  productAvailable db a p = true <->
  exists prd, db_product db !! p = Some prd
              /\ prd_idAccount prd = a /\ prd_deleted prd = false
              /\ prd_available prd = true /\ 0 < prd_stock prd.
Proof.
  unfold productAvailable. destruct (db_product db !! p) as [prd|].
  - rewrite !andb_true_iff, negb_true_iff, Z.eqb_eq. split.
    + intros [[[H1 H2] H3] H4]. exists prd. repeat split; auto. lia.
    + intros (prd' & H & H1 & H2 & H3 & H4). inversion H. subst.
      repeat split; auto. lia.
  - split; [discriminate|]. intros (prd' & H & _). discriminate.
Qed.

Lemma spCartItemAdd_product_check now db a s p f z q obs :
  LEN s <> 0 -> 1 <= q <= 10 ->
  spCartItemAdd now (addArgs a s p f z q obs) db
  = if negb (productExists db a p)
    then (db, inl (Throw51000 "productDoesntExist"))
    else if negb (productAvailable db a p)
         then (db, inl (Throw51000 "productNotAvailable"))
         else spCartItemAdd now (addArgs a s p f z q obs) db.
Proof.
  intros Hs Hq.
  destruct (productExists db a p) eqn:H1; simpl;
    [destruct (productAvailable db a p) eqn:H2; simpl; [reflexivity|]|];
    unfold spCartItemAdd, tryTran, spCartItemAdd_body, checkCatalogue, tx_bind,
      readDb, notNull, throwIf, tx_ret, throw; simpl;
    destruct (Z.eqb_spec (LEN s) 0) as [E|_]; try contradiction;
    (destruct (Z.ltb_spec q 1) as [E|_]; [lia|]);
    (destruct (Z.gtb_spec q 10) as [E|_]; [lia|]);
    rewrite H1; try rewrite H2; simpl; rewrite rollback_same; reflexivity.
Qed.

(** X7. With valid parameters, a product that exists in the account but is
    switched off or has no stock left (stock <= 0) is refused with
    'productNotAvailable', and a product that is missing, soft-deleted or
    of another account with 'productDoesntExist'; in both cases the state
    is handed back as it was. *)
Theorem unavailable_product_is_refused_without_a_write :
  forall now db idAccount sessionId idProduct idFlavor idSize quantity observations,
    LEN sessionId <> 0 ->
    1 <= quantity <= 10 ->
    let args := addArgs idAccount sessionId idProduct idFlavor idSize quantity
                        observations in
    (forall prd,
       db_product db !! idProduct = Some prd ->
       prd_idAccount prd = idAccount -> prd_deleted prd = false ->
       prd_available prd = false \/ prd_stock prd <= 0 ->
       spCartItemAdd now args db = (db, inl (Throw51000 "productNotAvailable")))
    /\ ((db_product db !! idProduct = None
         \/ exists prd, db_product db !! idProduct = Some prd
                        /\ (prd_idAccount prd <> idAccount \/ prd_deleted prd = true)) ->
        spCartItemAdd now args db = (db, inl (Throw51000 "productDoesntExist"))).
Proof.
  intros now db a s p f z q obs Hs Hq args. unfold args.
  rewrite (spCartItemAdd_product_check now db a s p f z q obs Hs Hq). split.
  - intros prd Hprd Ha Hdel Hoff.
    assert (H1 : productExists db a p = true) by (apply productExists_true; eauto).
    assert (H2 : productAvailable db a p = false).
    { apply not_true_is_false. intros H. apply productAvailable_true in H
        as (prd' & Hprd' & _ & _ & Hav & Hstock).
      rewrite Hprd in Hprd'. inversion Hprd'. subst prd'.
      destruct Hoff; [congruence|lia]. }
    rewrite H1, H2. reflexivity.
  - intros Hmissing.
    assert (H1 : productExists db a p = false).
    { apply not_true_is_false. intros H. apply productExists_true in H
        as (prd & Hprd & Ha & Hdel).
      destruct Hmissing as [H|(prd' & H & [Hne|Hd])]; rewrite Hprd in H;
        inversion H; subst; congruence. }
    rewrite H1. reflexivity.
Qed.

Lemma selectUnitPrice_None db a p z prd :
  db_product db !! p = Some prd ->
  effectivePrice prd = None
  \/ db_size db !! z = None
  \/ (exists siz, db_size db !! z = Some siz
                  /\ siz_idAccount siz <> prd_idAccount prd) ->
  selectUnitPrice db a p z = None.
Proof.
  intros Hprd H. unfold selectUnitPrice, effectivePrice in *. rewrite Hprd.
  destruct H as [H|[H|(siz & H & Hne)]].
  - destruct (db_size db !! z) as [siz|]; [|reflexivity].
    destruct (_ && _); [|reflexivity].
    destruct (prd_isPromotion prd); [rewrite H; reflexivity|discriminate].
  - rewrite H. reflexivity.
  - rewrite H. destruct (Z.eqb_spec (siz_idAccount siz) (prd_idAccount prd));
      [contradiction|]. rewrite andb_false_r. reflexivity.
Qed.

(** X8. When the checks pass but no price can be computed (the product is
    flagged as promotion with a NULL promotional price, or the size row is
    missing or belongs to another account), the add never commits: it ends
    with 'quantityExceedsMaximum' (a merge over the limit is detected first)
    or with error 515 on a NOT NULL price column, which the handler turns
    into the general error, and the carts and cart items are unchanged. *)
Theorem add_without_a_price_never_commits :
  forall now db idAccount sessionId idProduct idFlavor idSize quantity observations prd,
    LEN sessionId <> 0 ->
    1 <= quantity <= 10 ->
    availabilityChecks db idAccount idProduct idFlavor idSize = true ->
    db_product db !! idProduct = Some prd ->
    effectivePrice prd = None
    \/ db_size db !! idSize = None
    \/ (exists siz, db_size db !! idSize = Some siz
                    /\ siz_idAccount siz <> prd_idAccount prd) ->
    let run := spCartItemAdd now
                 (addArgs idAccount sessionId idProduct idFlavor idSize quantity
                          observations) db in
    (snd run = inl (Throw51000 "quantityExceedsMaximum")
     \/ exists column,
          snd run = inl (NullIntoColumn column)
          /\ respond (snd run) = NextStatusGeneralError)
    /\ db_cart (fst run) = db_cart db
    /\ db_cartItem (fst run) = db_cartItem db.
Proof.
  intros now db a s p f z q obs prd Hs Hq Hchecks Hprd Hnull run.
  pose proof (selectUnitPrice_None db a p z prd Hprd Hnull) as Hu.
  assert (Hnot : forall results, snd run <> inr results /\
                                 db_cart (fst run) = db_cart db
                                 /\ db_cartItem (fst run) = db_cartItem db).
  { intros results. unfold run.
    destruct (spCartItemAdd_cases now (addArgs a s p f z q obs) db)
      as [(e & dbe & Hrun & Hdbe)
         |(a' & s' & p' & f' & z' & q' & u & dbc & idCart & Ha & _ & Hp & _ & Hz & _
           & _ & _ & _ & Hu' & _)].
    - rewrite Hrun. simpl. split; [discriminate|auto].
    - simpl in Ha, Hp, Hz. inversion Ha; inversion Hp; inversion Hz; subst.
      congruence. }
  split; [|apply (Hnot [])].
  destruct (spCartItemAdd_after_checks now db a s p f z q obs Hs Hq Hchecks)
    as [E|[[column E]|[results E]]]; fold run in E.
  - left. exact E.
  - right. exists column. rewrite E. auto.
  - exfalso. apply (proj1 (Hnot results)). exact E.
Qed.

(** ** The cart handler *)

Lemma bodySchema_Some req validated :
  bodySchema req = Some validated ->
  exists s p f z q,
    body_sessionId req = JsString s
    /\ (1 <= String.length s <= 255)%nat
    /\ 0 < p /\ 0 < f /\ 0 < z /\ 1 <= q <= 10
    /\ validated = addArgs 1 s p f z q (arg_observations validated).
Proof.
  unfold bodySchema, zSessionId, zFK, zQuantity. intros H.
  destruct (body_sessionId req) as [| |s|] eqn:Es; try discriminate.
  destruct ((1 <=? String.length s)%nat && (String.length s <=? 255)%nat) eqn:El;
    [|discriminate].
  destruct (body_idProduct req) as [p| |]; try discriminate.
  destruct (Z.gtb_spec p 0); [|discriminate].
  destruct (body_idFlavor req) as [f| |]; try discriminate.
  destruct (Z.gtb_spec f 0); [|discriminate].
  destruct (body_idSize req) as [z| |]; try discriminate.
  destruct (Z.gtb_spec z 0); [|discriminate].
  destruct (body_quantity req) as [q| |]; try discriminate.
  destruct ((1 <=? q) && (q <=? 10)) eqn:Eq; [|discriminate].
  destruct (zOptionalString 200 (body_observations req)); [|discriminate].
  inversion H. subst. apply andb_prop in El as [El1 El2], Eq as [Eq1 Eq2].
  apply Nat.leb_le in El1, El2.
  exists s, p, f, z, q. repeat split; auto; lia.
Qed.

(** X9. A session id made of blanks only passes the schema of the handler
    (it has a length of at least 1) but not the routine, whose LEN ignores
    trailing blanks: when the three ids are values of INT the answer is 400
    'sessionIdRequired'; when one is not, the call fails before the routine
    runs and the answer is the general error.  Nothing is written either
    way. *)
Theorem blank_session_id_passes_the_schema_and_fails_the_routine :
  forall now db req sessionId validated,
    body_sessionId req = JsString sessionId ->
    allBlank sessionId = true ->
    bodySchema req = Some validated ->
    addItemHandler now db req
    = (db, if paramsBindAsInt validated
           then Json400 "sessionIdRequired" else NextStatusGeneralError).
Proof.
  intros now db req s validated Hsession Hblank Hschema.
  unfold addItemHandler, cartItemAdd. rewrite Hschema.
  destruct (paramsBindAsInt validated); [|reflexivity].
  apply bodySchema_Some in Hschema as (s' & p & f & z & q & Hs' & _ & _ & _ & _ & Hq & ->).
  rewrite Hsession in Hs'. inversion Hs'. subst s'.
  apply LEN_zero_iff in Hblank.
  unfold spCartItemAdd, tryTran, spCartItemAdd_body, tx_bind, notNull, throwIf,
    tx_ret, throw. simpl. rewrite Hblank. simpl. rewrite rollback_same. reflexivity.
Qed.

Lemma head_filter_map_in {A B} (g : A -> B) (cond : A -> bool) (l : list A) x :
  In x l -> cond x = true -> exists y, head (map g (List.filter cond l)) = Some y.
Proof.
  intros Hin Hc.
  assert (H : In x (List.filter cond l)) by (apply filter_In; auto).
  destruct (List.filter cond l) as [|y l']; [contradiction|].
  simpl. eauto.
Qed.

(** X10. What the cart handler can answer.  A request the schema rejects
    goes to the validation error with nothing written.  Otherwise the
    answer is 200 with a cart item row, or 400 with one of six messages
    (the routine's other parameter errors cannot occur behind the schema),
    or the general error; and unless the answer is 200, carts and cart
    items are what they were. *)
Theorem addItemHandler_answers :
  forall now db req,
    let db' := fst (addItemHandler now db req) in
    match snd (addItemHandler now db req) with
    | NextZodError => bodySchema req = None /\ db' = db
    | Json200 data => exists row, data = Some row
    | Json400 message =>
        In message ["sessionIdRequired"; "productDoesntExist"; "productNotAvailable";
                    "flavorNotAvailable"; "sizeNotAvailable";
                    "quantityExceedsMaximum"]
        /\ db_cart db' = db_cart db /\ db_cartItem db' = db_cartItem db
    | NextStatusGeneralError =>
        db_cart db' = db_cart db /\ db_cartItem db' = db_cartItem db
    end.
Proof.
  intros now db req. cbv zeta. unfold addItemHandler, cartItemAdd.
  destruct (bodySchema req) as [validated|] eqn:Hschema; [|simpl; auto].
  destruct (paramsBindAsInt validated); [|simpl; auto].
  apply bodySchema_Some in Hschema as (s & p & f & z & q & _ & _ & _ & _ & _ & Hq & E).
  set (obs := arg_observations validated) in *. rewrite E. clear E.
  destruct (spCartItemAdd_cases now (addArgs 1 s p f z q obs) db)
    as [(e & dbe & Hrun & Hdbe)
       |(a' & s' & p' & f' & z' & q' & u & dbc & idCart & _ & _ & _ & _ & _ & _ & _ & _
         & _ & _ & _ & [(existing & Hi & _ & Hrun)|(_ & Hrun)])];
    cbv zeta in Hrun.
  - pose proof (spCartItemAdd_error_kinds now db 1 s p f z q obs e Hq) as Hkind.
    rewrite Hrun in *. simpl in Hkind. specialize (Hkind eq_refl). simpl.
    destruct Hkind as [(message & -> & Hin)|(column & ->)]; simpl; auto.
  - rewrite Hrun. simpl.
    apply lastMatch_Some in Hi as [Hin _].
    match goal with |- context [head (map toResult (List.filter ?c ?l))] =>
      destruct (head_filter_map_in toResult c l
                  (updateWhere now (crtItm_idCartItem existing)
                     (crtItm_quantity existing + q')
                     (u * (crtItm_quantity existing + q'))
                     (arg_observations (addArgs 1 s p f z q obs)) existing))
        as [row Hrow]
    end.
    + apply in_map. exact Hin.
    + rewrite updateWhere_id. apply Z.eqb_refl.
    + rewrite Hrow. simpl. eauto.
  - rewrite Hrun. simpl.
    match goal with |- context [head (map toResult (List.filter ?c (?l ++ [?r])))] =>
      destruct (head_filter_map_in toResult c (l ++ [r]) r) as [row Hrow]
    end.
    + apply in_or_app. right. left. reflexivity.
    + apply Z.eqb_refl.
    + rewrite Hrow. simpl. eauto.
Qed.

(** ** ORDER BY, paging and the filters of the listing *)

Section Ordering.
Variable splitIds : string -> option (list Z).
Variable like : string -> string -> bool.



End Ordering.

Section Filters.
Variable splitIds : string -> option (list Z).
Variable like : string -> string -> bool.

Lemma page_row_origin db p idAccount ids products pagination summary :
  lst_idAccount p = Some idAccount ->
  splitAll splitIds p = Some ids ->
  spProductList splitIds like db p = inr (products, pagination) ->
  In summary products ->
  exists r,
    summary = toSummary r
    /\ In (coreOf r) (joinConfectioner db)
    /\ pageWhere like db idAccount (normalizeAvailability (lst_availability p))
                 ids p (coreOf r) = true.
Proof.
  intros Ha Hids Hrun Hin.
  apply spProductList_inr in Hrun as (a' & ids' & Ha' & _ & Hids' & Hproducts & _).
  rewrite Ha in Ha'. rewrite Hids in Hids'. inversion Ha'. inversion Hids'. subst a' ids'.
  rewrite Hproducts in Hin.
  apply in_map_iff in Hin as (r & <- & Hin).
  apply In_offsetFetch, In_orderBy, filter_In in Hin as [Hin Hwhere].
  apply In_leftJoinImage in Hin. eauto.
Qed.

(** X12. Every summary on a page is a product of the requesting account
    that is not soft-deleted, made by a confectioner of the same account
    who is not soft-deleted either; the price shown is the promotional
    price when the product is on promotion and the base price otherwise,
    and the original price is shown only for a promotion. *)
Theorem page_shows_only_live_products_of_the_account :
  forall db p idAccount ids products pagination summary,
    lst_idAccount p = Some idAccount ->
    splitAll splitIds p = Some ids ->
    spProductList splitIds like db p = inr (products, pagination) ->
    In summary products ->
    exists prd cnf,
      db_product db !! sum_idProduct summary = Some prd
      /\ prd_idAccount prd = idAccount
      /\ prd_deleted prd = false
      /\ db_confectioner db !! prd_idConfectioner prd = Some cnf
      /\ cnf_idAccount cnf = idAccount
      /\ cnf_deleted cnf = false
      /\ sum_confectionerName summary = cnf_name cnf
      /\ sum_price summary
         = (if prd_isPromotion prd then prd_promotionalPrice prd
            else Some (prd_basePrice prd))
      /\ sum_originalPrice summary
         = (if prd_isPromotion prd then Some (prd_basePrice prd) else None).
Proof.
  intros db p a ids products pagination summary Ha Hids Hrun Hin.
  destruct (page_row_origin db p a ids products pagination summary Ha Hids Hrun Hin)
    as ([id prd cnf img] & -> & Hjoin & Hwhere).
  unfold coreOf in *. simpl in *.
  pose proof (In_joinConfectioner_account _ _ _ _ Hjoin) as Hacc'.
  apply In_joinConfectioner in Hjoin as [Hprd Hcnf].
  unfold pageWhere in Hwhere.
  repeat (apply andb_prop in Hwhere as [Hwhere ?]).
  assert (Hacc : prd_idAccount prd = a) by lia.
  exists prd, cnf.
  split; [exact Hprd|]. split; [exact Hacc|].
  split; [apply negb_true_iff; assumption|]. split; [exact Hcnf|].
  split; [congruence|]. split; [apply negb_true_iff; assumption|].
  repeat split.
Qed.

(** X13. The filters of a request hold of every summary on the page: with
    a minimum or maximum price the price shown is not NULL and within the
    bound; with a category or confectioner list the product's category or
    confectioner is in it; with a flavor or size list the product has an
    enabled flavor or size of the list. *)
Theorem page_satisfies_the_filters :
  forall db p idAccount ids products pagination summary,
    lst_idAccount p = Some idAccount ->
    splitAll splitIds p = Some ids ->
    spProductList splitIds like db p = inr (products, pagination) ->
    In summary products ->
    exists prd,
      db_product db !! sum_idProduct summary = Some prd
      /\ (forall lo, lst_minPrice p = Some lo ->
            exists price, sum_price summary = Some price /\ lo <= price)
      /\ (forall hi, lst_maxPrice p = Some hi ->
            exists price, sum_price summary = Some price /\ price <= hi)
      /\ (forall l, ids_category ids = Some l -> In (prd_idCategory prd) l)
      /\ (forall l, ids_confectioner ids = Some l -> In (prd_idConfectioner prd) l)
      /\ (forall l, ids_flavor ids = Some l ->
            exists idFlavor prdFlv,
              In idFlavor l
              /\ db_productFlavor db !! (idAccount, sum_idProduct summary, idFlavor)
                 = Some prdFlv
              /\ prdFlv_available prdFlv = true)
      /\ (forall l, ids_size ids = Some l ->
            exists idSize prdSiz,
              In idSize l
              /\ db_productSize db !! (idAccount, sum_idProduct summary, idSize)
                 = Some prdSiz
              /\ prdSiz_available prdSiz = true).
Proof.
  intros db p a ids products pagination summary Ha Hids Hrun Hin.
  destruct (page_row_origin db p a ids products pagination summary Ha Hids Hrun Hin)
    as ([id prd cnf img] & -> & Hjoin & Hwhere).
  unfold coreOf in *. simpl in *.
  apply In_joinConfectioner in Hjoin as [Hprd Hcnf].
  unfold pageWhere in Hwhere.
  apply andb_prop in Hwhere as [Hwhere Hsearch].
  apply andb_prop in Hwhere as [Hwhere Hconf].
  apply andb_prop in Hwhere as [Hwhere Hmax].
  apply andb_prop in Hwhere as [Hwhere Hmin].
  apply andb_prop in Hwhere as [Hwhere Hsize].
  apply andb_prop in Hwhere as [Hwhere Hflavor].
  apply andb_prop in Hwhere as [Hwhere Hcat].
  apply andb_prop in Hwhere as [Hwhere _].
  apply andb_prop in Hwhere as [Hwhere _].
  apply andb_prop in Hwhere as [Hacc _].
  assert (Ea : prd_idAccount prd = a) by lia.
  exists prd. split; [exact Hprd|].
  split; [|split; [|split; [|split; [|split]]]].
  - intros lo E. unfold minPriceFilter in Hmin. rewrite E in Hmin.
    destruct (effectivePrice prd) as [price|]; [|discriminate].
    exists price. split; [reflexivity|lia].
  - intros hi E. unfold maxPriceFilter in Hmax. rewrite E in Hmax.
    destruct (effectivePrice prd) as [price|]; [|discriminate].
    exists price. split; [reflexivity|lia].
  - intros l E. rewrite E in Hcat. apply memZ_In, Hcat.
  - intros l E. rewrite E in Hconf. apply memZ_In, Hconf.
  - intros l E. unfold flavorFilter in Hflavor. rewrite E in Hflavor.
    apply existsb_exists in Hflavor as (idFlavor & Hl & Hf).
    unfold flavorAvailable in Hf. rewrite Ea in Hf.
    destruct (db_productFlavor db !! (a, id, idFlavor)) as [row|] eqn:Er;
      [|discriminate].
    exists idFlavor, row. auto.
  - intros l E. unfold sizeFilter in Hsize. rewrite E in Hsize.
    apply existsb_exists in Hsize as (idSize & Hl & Hz).
    unfold sizeAvailable in Hz. rewrite Ea in Hz.
    destruct (db_productSize db !! (a, id, idSize)) as [row|] eqn:Er;
      [|discriminate].
    exists idSize, row. auto.
Qed.

End Filters.


Section Paging.
Variable splitIds : string -> option (list Z).
Variable like : string -> string -> bool.

(** X14. When no product has more than one primary image and the offset
    of the page is a value of INT, the metadata tells the size of the page:
    it holds min(pageSize, totalItems - (currentPage - 1) x pageSize)
    summaries, none if that is negative, so a page is empty exactly when
    its number is past totalPages. *)
Theorem page_length_follows_from_the_metadata :
  forall db p idAccount ids,
    onePrimaryImage db ->
    lst_idAccount p = Some idAccount ->
    splitAll splitIds p = Some ids ->
    pageOffset p <= 2147483647 ->
    exists products pagination,
      spProductList splitIds like db p = inr (products, pagination)
      /\ Z.of_nat (length products)
         = Z.max 0 (Z.min (pageSize pagination)
                          (totalItems pagination
                           - (currentPage pagination - 1) * pageSize pagination))
      /\ (products = [] <-> totalPages pagination < currentPage pagination).
Proof.
  intros db p a ids Hone Ha Hids Hoff.
  destruct (spProductList_runs splitIds like db p a ids Ha Hids Hoff)
    as (products & pagination & Hrun & Hsize & Hpage & Hitems & Hpages & _
        & Hproducts).
  exists products, pagination. split; [exact Hrun|].
  pose proof (normalizePageSize_positive (lst_pageSize p)) as Hps.
  pose proof (normalizePage_positive (lst_page p)) as Hp1.
  assert (Hlen : Z.of_nat (length products)
                 = Z.max 0 (Z.min (pageSize pagination)
                              (totalItems pagination
                               - (currentPage pagination - 1) * pageSize pagination))).
  { rewrite Hproducts, Hsize, Hpage, Hitems.
    apply spProductList_page_length, Hone. }
  split; [exact Hlen|].
  rewrite Hpages. rewrite Hsize, Hpage in *.
  pose proof (CEILING_div_spec (totalItems pagination)
                (normalizePageSize (lst_pageSize p)) Hps) as Hceil.
  split.
  - intros E. rewrite E in Hlen. simpl in Hlen. nia.
  - intros Hpast. destruct products as [|summary rest]; [reflexivity|].
    exfalso. simpl in Hlen. nia.
Qed.


End Paging.

(** ** Related products and the product detail *)

Lemma In_selectTop db limit cond order r :
  In r (selectTop db limit cond order) ->
  exists j, r = toRelated j
            /\ In (coreOf j) (joinConfectioner db)
            /\ cond (coreOf j) = true.
Proof.
  unfold selectTop. intros H. apply in_map_iff in H as (j & <- & H).
  exists j. split; [reflexivity|].
  apply list_elem_of_In, (subseteq_take (Z.to_nat limit)), list_elem_of_In in H.
  apply In_orderBy, filter_In in H as [H Hc].
  split; [exact (In_leftJoinImage db _ _ H)|exact Hc].
Qed.

Lemma length_selectTop db limit cond order :
  0 <= limit -> Z.of_nat (length (selectTop db limit cond order)) <= limit.
Proof.
  intros Hl. unfold selectTop. rewrite length_map, length_take. lia.
Qed.

Lemma normalizeLimit_positive limit : 1 <= normalizeLimit limit.
Proof. unfold normalizeLimit. destruct (Z.ltb_spec limit 1); lia. Qed.



Lemma relatedWhere_true a id i prd cnf :
  relatedWhere a id (i, prd, cnf) = true ->
  prd_idAccount prd = a /\ i <> id /\ prd_available prd = true
  /\ 0 < prd_stock prd /\ prd_deleted prd = false /\ cnf_deleted cnf = false.
Proof.
  unfold relatedWhere. intros H.
  repeat (apply andb_prop in H as [H ?]).
  repeat match goal with
         | H : negb _ = true |- _ => apply negb_true_iff in H
         end.
  repeat split; try assumption; lia.
Qed.

(** What the routine returns when it returns: the reference product exists
    and every record set is a TOP (@limit) selection whose condition
    includes the shared one. *)
Lemma spProductRelated_sets db a id limit criteria sets :
  spProductRelated db (Some a) (Some id) limit criteria = inr sets ->
  productExists db a id = true
  /\ forall rs, In rs sets ->
       exists cond order,
         rs = selectTop db (normalizeLimit limit) cond order
         /\ forall row, cond row = true -> relatedWhere a id row = true.
Proof.
  unfold spProductRelated. intros H.
  destruct (productExists db a id); simpl in H; [|discriminate].
  split; [reflexivity|].
  destruct (sqlEq (normalizeCriteria criteria) "categoria");
    [|destruct (sqlEq (normalizeCriteria criteria) "confeiteiro");
      [|destruct (sqlEq (normalizeCriteria criteria) "popularidade")]];
    inversion H; subst; clear H; intros rs Hrs; simpl in Hrs;
    try contradiction; destruct Hrs as [<-|[]]; eexists _, _;
    (split; [reflexivity|]); intros row Hc;
    try (apply andb_prop in Hc as [Hc _]); exact Hc.
Qed.

(** X16. Whatever the criterion, every related product the routine returns
    is another product than the reference one, of the same account,
    available, in stock and not deleted, shown at its effective price; and
    a record set never holds more than the normalised @limit rows. *)
Theorem related_products_are_other_products_on_sale :
  forall db idAccount idProduct limit criteria sets rs,
    spProductRelated db (Some idAccount) (Some idProduct) limit criteria = inr sets ->
    In rs sets ->
    Z.of_nat (length rs) <= normalizeLimit limit
    /\ forall r, In r rs ->
         rel_idProduct r <> idProduct
         /\ exists prd,
              db_product db !! rel_idProduct r = Some prd
              /\ prd_idAccount prd = idAccount
              /\ prd_available prd = true
              /\ 0 < prd_stock prd
              /\ prd_deleted prd = false
              /\ rel_price r = effectivePrice prd.
Proof.
  intros db a id limit criteria sets rs Hrun Hrs.
  destruct (spProductRelated_sets _ _ _ _ _ _ Hrun) as [_ Hsets].
  destruct (Hsets rs Hrs) as (cond & order & -> & Hcond).
  split.
  - apply length_selectTop. pose proof (normalizeLimit_positive limit). lia.
  - intros r Hr. apply In_selectTop in Hr as (j & -> & Hj & Hc).
    apply Hcond in Hc. destruct j as [i prd cnf img]. unfold coreOf in *.
    simpl in *. apply In_joinConfectioner in Hj as [Hprd _].
    apply relatedWhere_true in Hc as (Ha & Hi & Hav & Hst & Hdel & _).
    split; [exact Hi|]. exists prd. repeat split; assumption.
Qed.


(** X18. What the related-products handler can answer.  A request the
    schema refuses never reaches the routine.  An answer of 200 is only
    given when the product id and the limit are values of INT and the
    reference product exists; 400 is only answered with
    'productDoesntExist', when the two are values of INT and the reference
    product is missing, deleted or of another account; when one of the two
    is not a value of INT the call fails before the routine runs and the
    answer is the general error. *)
Theorem relatedHandler_answers :
  forall db req,
    match relatedHandler db req with
    | NextZodError => relatedParamsSchema req = None
    | Json400 message =>
        message = "productDoesntExist"
        /\ exists id limit criteria,
             relatedParamsSchema req = Some (id, limit, criteria)
             /\ fitsInt id = true /\ fitsInt limit = true
             /\ productExists db 1 id = false
    | Json200 _ =>
        exists id limit criteria,
          relatedParamsSchema req = Some (id, limit, criteria)
          /\ fitsInt id = true /\ fitsInt limit = true
          /\ productExists db 1 id = true
    | NextStatusGeneralError =>
        exists id limit criteria,
          relatedParamsSchema req = Some (id, limit, criteria)
    end
    /\ (forall id limit criteria,
          relatedParamsSchema req = Some (id, limit, criteria) ->
          fitsInt id = false \/ fitsInt limit = false ->
          relatedHandler db req = NextStatusGeneralError).
Proof.
  intros db req. unfold relatedHandler.
  destruct (relatedParamsSchema req) as [[[id limit] criteria]|];
    [|split; [reflexivity|discriminate]].
  unfold productRelated. change (fitsInt 1) with true. cbn [andb].
  destruct (fitsInt id) eqn:Hid; [|simpl; split; [eauto|reflexivity]].
  destruct (fitsInt limit) eqn:Hlimit; [|simpl; split; [eauto|reflexivity]].
  cbn [andb]. split.
  - unfold spProductRelated.
    destruct (productExists db 1 id) eqn:Hex; simpl.
    + destruct (sqlEq (normalizeCriteria criteria) "categoria");
        [|destruct (sqlEq (normalizeCriteria criteria) "confeiteiro");
          [|destruct (sqlEq (normalizeCriteria criteria) "popularidade")]];
        simpl; eauto 7.
    + split; [reflexivity|]. eauto 7.
  - intros id' limit' criteria' E [H|H]; inversion E; subst; congruence.
Qed.

Lemma NoDup_map_filter {A B} (g : A -> B) (cond : A -> bool) (l : list A) :
  NoDup (map g l) -> NoDup (map g (List.filter cond l)).
Proof.
  induction l as [|x l IH]; simpl; [auto|].
  rewrite NoDup_cons. intros [Hx Hnd].
  destruct (cond x); simpl; [|auto].
  apply NoDup_cons. split; [|auto].
  intros Hin. apply Hx.
  apply list_elem_of_In, in_map_iff in Hin as (y & Hy & Hin).
  apply filter_In in Hin as [Hin _].
  apply list_elem_of_In, in_map_iff. eauto.
Qed.

Lemma listed_ids_distinct `{Countable K} {A B} (m : gmap K A)
    (cond : K * A -> bool) (cmp : K * A -> K * A -> comparison)
    (g : K * A -> B) (key : B -> K) :
  (forall row, key (g row) = fst row) ->
  NoDup (map key (map g (orderBy cmp (List.filter cond (map_to_list m))))).
Proof.
  intros Hkey. rewrite map_map.
  rewrite (map_ext _ fst) by (intros row; apply Hkey).
  rewrite Permutation_orderBy.
  apply NoDup_map_filter. apply (NoDup_fst_map_to_list m).
Qed.

Lemma servings_antisym (r1 r2 : Z * sizeRow) :
  (siz_servings (snd r1) ?= siz_servings (snd r2)) = Gt ->
  (siz_servings (snd r2) ?= siz_servings (snd r1)) <> Gt.
Proof.
  destruct (Z.compare_spec (siz_servings (snd r1)) (siz_servings (snd r2)));
    destruct (Z.compare_spec (siz_servings (snd r2)) (siz_servings (snd r1)));
    try lia; congruence.
Qed.

(** X19. Every flavor and every size the product detail offers is accepted
    by the add-to-cart checks, and the price modifier shown for a size is
    the one the add charges: the unit price is the product's effective
    price plus the modifier of the detail page. *)
Theorem detail_choices_pass_the_add_checks :
  forall db idAccount idProduct detail,
    spProductGet db (Some idAccount) (Some idProduct) = inr detail ->
    (forall flavor, In flavor (get_flavors detail) ->
       flavorAvailable db idAccount idProduct (af_idFlavor flavor) = true)
    /\ (forall size, In size (get_sizes detail) ->
          sizeAvailable db idAccount idProduct (as_idSize size) = true
          /\ exists prd,
               db_product db !! idProduct = Some prd
               /\ selectUnitPrice db idAccount idProduct (as_idSize size)
                  = option_map (fun price => price + as_priceModifier size)
                               (effectivePrice prd)).
Proof.
  intros db a p detail Hrun. unfold spProductGet in Hrun.
  destruct (productExists db a p) eqn:Hex; simpl in Hrun; [|discriminate].
  inversion Hrun; subst; clear Hrun. simpl. split.
  - intros flavor Hin. apply in_map_iff in Hin as ([id flv] & <- & Hin).
    apply In_orderBy, filter_In in Hin as [_ Hc]. unfold flavorListed in Hc.
    apply andb_prop in Hc as [Hc _]. apply andb_prop in Hc as [Hacc Hc].
    apply Z.eqb_eq in Hacc. rewrite Hacc in Hc. exact Hc.
  - intros size Hin. apply in_map_iff in Hin as ([id siz] & <- & Hin).
    apply In_orderBy, filter_In in Hin as [Hin Hc]. unfold sizeListed in Hc.
    apply andb_prop in Hc as [Hc _]. apply andb_prop in Hc as [Hacc Hc].
    apply Z.eqb_eq in Hacc. rewrite Hacc in Hc. split; [exact Hc|].
    apply list_elem_of_In, elem_of_map_to_list in Hin.
    unfold productExists in Hex.
    destruct (db_product db !! p) as [prd|] eqn:Hprd; [|discriminate].
    apply andb_prop in Hex as [Hpa _].
    exists prd. split; [reflexivity|].
    unfold selectUnitPrice, effectivePrice. simpl. rewrite Hprd, Hin, Hpa. simpl.
    apply Z.eqb_eq in Hpa. rewrite Hacc, Hpa, Z.eqb_refl. simpl.
    destruct (prd_isPromotion prd); [|reflexivity].
    destruct (prd_promotionalPrice prd); reflexivity.
Qed.

(** X20. The product detail lists each flavor and each size once, and the
    sizes in ascending order of servings. *)
Theorem detail_lists_each_choice_once_sizes_by_servings :
  forall db idAccount idProduct detail,
    spProductGet db (Some idAccount) (Some idProduct) = inr detail ->
    NoDup (map af_idFlavor (get_flavors detail))
    /\ NoDup (map as_idSize (get_sizes detail))
    /\ Sorted (fun s1 s2 => as_servings s1 <= as_servings s2) (get_sizes detail).
Proof.
  intros db a p detail Hrun. unfold spProductGet in Hrun.
  destruct (productExists db a p); simpl in Hrun; [|discriminate].
  inversion Hrun; subst; clear Hrun. simpl.
  split; [apply listed_ids_distinct; reflexivity|].
  split; [apply listed_ids_distinct; reflexivity|].
  apply (Sorted_map_of (fun s1 s2 => as_servings s1 <= as_servings s2)).
  eapply Sorted_weaken; [|apply Sorted_orderBy, servings_antisym].
  intros r1 r2 H. simpl.
  destruct (Z.compare_spec (siz_servings (snd r1)) (siz_servings (snd r2)));
    [lia|lia|congruence].
Qed.

(** ** The further properties at work in the shop *)

(** X1 in the shop: 8 units in the cart, 5 more asked for. *)
Lemma failed_add_in_the_shop :
  snd (spCartItemAdd 200 (shopArgs 5 None) (shopAfterAdd 8 None))
  = inl (Throw51000 "quantityExceedsMaximum")
  /\ db_cartItem (fst (spCartItemAdd 200 (shopArgs 5 None) (shopAfterAdd 8 None)))
     = db_cartItem (shopAfterAdd 8 None).
Proof.
  split; [vm_compute; reflexivity|].
  apply (failed_add_changes_no_table 200 (shopArgs 5 None) (shopAfterAdd 8 None)
           (Throw51000 "quantityExceedsMaximum")).
  vm_compute. reflexivity.
Defined.

(** X3 in the shop: 3 units, then 4, then 9 that are refused. *)
Lemma three_adds_keep_the_invariant_in_the_shop :
  cartInvariant (shop 5)
  /\ pkCartItem (shop 5)
  /\ cartInvariant (runAdds [(100, shopArgs 3 None); (200, shopArgs 4 None);
                             (300, shopArgs 9 None)] (shop 5))
  /\ pkCartItem (runAdds [(100, shopArgs 3 None); (200, shopArgs 4 None);
                          (300, shopArgs 9 None)] (shop 5)).
Proof.
  split; [apply cartInvariant_shop|].
  split; [apply NoDup_nil_2|].
  apply (any_sequence_of_adds_keeps_the_cart_invariant
           [(100, shopArgs 3 None); (200, shopArgs 4 None); (300, shopArgs 9 None)]
           (shop 5)).
  - apply cartInvariant_shop.
  - apply NoDup_nil_2.
Defined.

(** X4 in the shop: the same three adds. *)
Lemma three_adds_keep_quantities_in_the_shop :
  Forall quantityInRange (db_cartItem (shop 5))
  /\ Forall quantityInRange
       (db_cartItem (runAdds [(100, shopArgs 3 None); (200, shopArgs 4 None);
                              (300, shopArgs 9 None)] (shop 5))).
Proof.
  split; [apply Forall_nil_2|].
  apply (any_sequence_of_adds_keeps_quantities_in_range
           [(100, shopArgs 3 None); (200, shopArgs 4 None); (300, shopArgs 9 None)]
           (shop 5)).
  apply Forall_nil_2.
Defined.


(** X6 in the shop: quantities 0 and 11. *)
Lemma quantity_0_and_11_in_the_shop :
  spCartItemAdd 100 (shopArgs 0 None) (shop 5)
  = (shop 5, inl (Throw51000 "quantityMustBeGreaterThanZero"))
  /\ spCartItemAdd 100 (shopArgs 11 None) (shop 5)
     = (shop 5, inl (Throw51000 "quantityExceedsMaximum")).
Proof.
  split.
  - apply (proj1 (quantity_out_of_range_is_refused_first 100 (shop 5) 1 "sess-1"
                    1 1 1 0 None LEN_session)).
    lia.
  - apply (proj2 (quantity_out_of_range_is_refused_first 100 (shop 5) 1 "sess-1"
                    1 1 1 11 None LEN_session)).
    lia.
Defined.

(** X7 in the shop: the cake is out of stock; product 9 does not exist. *)
Lemma out_of_stock_in_the_shop :
  spCartItemAdd 100 (shopArgs 2 None) (shop 0)
  = (shop 0, inl (Throw51000 "productNotAvailable"))
  /\ spCartItemAdd 100 (addArgs 1 "sess-1" 9 1 1 2 None) (shop 5)
     = (shop 5, inl (Throw51000 "productDoesntExist")).
Proof.
  split.
  - apply (proj1 (unavailable_product_is_refused_without_a_write 100 (shop 0) 1
                    "sess-1" 1 1 1 2 None LEN_session ltac:(lia))
             (cake 20000000 0)).
    + reflexivity.
    + reflexivity.
    + reflexivity.
    + right. simpl. lia.
  - apply (proj2 (unavailable_product_is_refused_without_a_write 100 (shop 5) 1
                    "sess-1" 9 1 1 2 None LEN_session ltac:(lia))).
    left. reflexivity.
Defined.

(** X8 in the shop: the cake is a promotion without a promotional price. *)
Lemma promotion_without_price_in_the_shop :
  availabilityChecks unpricedShop 1 1 1 1 = true
  /\ (exists column,
        snd (spCartItemAdd 100 (shopArgs 2 None) unpricedShop)
        = inl (NullIntoColumn column))
  /\ db_cart (fst (spCartItemAdd 100 (shopArgs 2 None) unpricedShop)) = []
  /\ db_cartItem (fst (spCartItemAdd 100 (shopArgs 2 None) unpricedShop)) = [].
Proof.
  split; [vm_compute; reflexivity|].
  destruct (add_without_a_price_never_commits 100 unpricedShop 1 "sess-1" 1 1 1 2
              None _ LEN_session ltac:(lia) eq_refl eq_refl (or_introl eq_refl))
    as ([Hmax|(column & Hnull & _)] & Hcart & Hitems).
  - vm_compute in Hmax. discriminate Hmax.
  - split; [exists column; exact Hnull|]. split; [exact Hcart|exact Hitems].
Defined.

(** X9 in the shop: a session id of three blanks. *)
Lemma blank_session_id_in_the_shop :
  zSessionId (body_sessionId blankSessionRequest) = Some "   "
  /\ addItemHandler 100 (shop 5) blankSessionRequest
     = (shop 5, Json400 "sessionIdRequired").
Proof.
  split; [reflexivity|].
  apply (blank_session_id_passes_the_schema_and_fails_the_routine 100 (shop 5)
           blankSessionRequest "   " (addArgs 1 "   " 1 1 1 2 None)).
  - reflexivity.
  - reflexivity.
  - reflexivity.
Defined.


(** X12 in the bakery: the first summary of the page. *)
Lemma bakery_page_shows_live_products :
  exists products pagination summary prd,
    spProductList noSplit noLike bakery (pricedFrom 0 "preco_maior")
    = inr (products, pagination)
    /\ In summary products
    /\ db_product bakery !! sum_idProduct summary = Some prd
    /\ prd_idAccount prd = 1
    /\ prd_deleted prd = false
    /\ sum_price summary = Some (prd_basePrice prd).
Proof.
  destruct (spProductList noSplit noLike bakery (pricedFrom 0 "preco_maior"))
    as [e|[products pagination]] eqn:E; [vm_compute in E; discriminate E|].
  destruct products as [|summary rest]; [vm_compute in E; discriminate E|].
  destruct (page_shows_only_live_products_of_the_account noSplit noLike bakery
              (pricedFrom 0 "preco_maior") 1
              {| ids_category := None; ids_flavor := None; ids_size := None;
                 ids_confectioner := None |}
              (summary :: rest) pagination summary eq_refl eq_refl E
              (or_introl eq_refl))
    as (prd & cnf & Hprd & Hacc & Hdel & _ & _ & _ & _ & Hprice & _).
  exists (summary :: rest), pagination, summary, prd.
  split; [reflexivity|]. split; [left; reflexivity|].
  split; [exact Hprd|]. split; [exact Hacc|]. split; [exact Hdel|].
  rewrite Hprice.
  assert (Hin : In (sum_idProduct summary, prd) (map_to_list (db_product bakery)))
    by (apply list_elem_of_In, elem_of_map_to_list, Hprd).
  vm_compute in Hin. destruct Hin as [Hin|[Hin|[]]]; inversion Hin; reflexivity.
Defined.

(** X13 in the bakery: from 25.00 on, only the cake at 30.00 is left. *)
Lemma bakery_from_25 :
  exists products pagination summary price,
    spProductList noSplit noLike bakery (pricedFrom 25000000 "preco_maior")
    = inr (products, pagination)
    /\ In summary products
    /\ sum_price summary = Some price
    /\ 25000000 <= price.
Proof.
  destruct (spProductList noSplit noLike bakery (pricedFrom 25000000 "preco_maior"))
    as [e|[products pagination]] eqn:E; [vm_compute in E; discriminate E|].
  destruct products as [|summary rest]; [vm_compute in E; discriminate E|].
  destruct (page_satisfies_the_filters noSplit noLike bakery
              (pricedFrom 25000000 "preco_maior") 1
              {| ids_category := None; ids_flavor := None; ids_size := None;
                 ids_confectioner := None |}
              (summary :: rest) pagination summary eq_refl eq_refl E
              (or_introl eq_refl))
    as (prd & _ & Hmin & _).
  destruct (Hmin 25000000 eq_refl) as (price & Hprice & Hle).
  exists (summary :: rest), pagination, summary, price.
  split; [reflexivity|]. split; [left; reflexivity|].
  split; [exact Hprice|exact Hle].
Defined.

(** X14 in the bakery: no images, two cakes, one page. *)
Lemma bakery_page_length :
  onePrimaryImage bakery
  /\ pageOffset (pricedFrom 0 "preco_maior") = 0
  /\ exists products pagination,
       spProductList noSplit noLike bakery (pricedFrom 0 "preco_maior")
       = inr (products, pagination)
       /\ Z.of_nat (length products)
          = Z.max 0 (Z.min (pageSize pagination)
                           (totalItems pagination
                            - (currentPage pagination - 1) * pageSize pagination))
       /\ (products = [] <-> totalPages pagination < currentPage pagination).
Proof.
  split; [apply onePrimaryImage_without_images; reflexivity|].
  split; [reflexivity|].
  apply (page_length_follows_from_the_metadata noSplit noLike bakery
           (pricedFrom 0 "preco_maior") 1
           {| ids_category := None; ids_flavor := None; ids_size := None;
              ids_confectioner := None |}).
  - apply onePrimaryImage_without_images. reflexivity.
  - reflexivity.
  - reflexivity.
  - vm_compute. discriminate.
Defined.


(** X16 in the bakery: the products related to cake 1. *)
Lemma related_in_the_bakery :
  exists sets rs,
    spProductRelated bakery (Some 1) (Some 1) 4 "popularidade" = inr sets
    /\ In rs sets
    /\ Z.of_nat (length rs) <= 4
    /\ forall r, In r rs -> rel_idProduct r <> 1.
Proof.
  destruct (spProductRelated bakery (Some 1) (Some 1) 4 "popularidade")
    as [e|sets] eqn:E; [vm_compute in E; discriminate E|].
  destruct sets as [|rs rest]; [vm_compute in E; discriminate E|].
  destruct (related_products_are_other_products_on_sale bakery 1 1 4 "popularidade"
              (rs :: rest) rs E (or_introl eq_refl)) as [Hlen Hrows].
  exists (rs :: rest), rs.
  split; [reflexivity|]. split; [left; reflexivity|]. split; [exact Hlen|].
  intros r Hr. exact (proj1 (Hrows r Hr)).
Defined.


(** X18 in the shop: a product id of 2^31 is not a value of INT. *)
Lemma related_to_product_2147483648_in_the_shop :
  relatedParamsSchema
    {| req_id := JsInt 2147483648; req_limit := None; req_criteria := JsUndefined |}
  = Some (2147483648, 4, "categoria")
  /\ relatedHandler (shop 5)
       {| req_id := JsInt 2147483648; req_limit := None;
          req_criteria := JsUndefined |}
     = NextStatusGeneralError
  /\ relatedHandler (shop 5)
       {| req_id := JsInt 9; req_limit := None; req_criteria := JsUndefined |}
     = Json400 "productDoesntExist".
Proof.
  split; [reflexivity|]. split.
  - apply (proj2 (relatedHandler_answers (shop 5)
                    {| req_id := JsInt 2147483648; req_limit := None;
                       req_criteria := JsUndefined |})
             2147483648 4 "categoria" eq_refl).
    left. reflexivity.
  - reflexivity.
Defined.

(** X19 in the shop: what the detail page of the cake offers. *)
Lemma detail_choices_in_the_shop :
  exists detail,
    spProductGet (shop 5) (Some 1) (Some 1) = inr detail
    /\ forall flavor, In flavor (get_flavors detail) ->
         flavorAvailable (shop 5) 1 1 (af_idFlavor flavor) = true.
Proof.
  destruct (spProductGet (shop 5) (Some 1) (Some 1)) as [e|detail] eqn:E;
    [vm_compute in E; discriminate E|].
  exists detail. split; [reflexivity|].
  exact (proj1 (detail_choices_pass_the_add_checks (shop 5) 1 1 detail E)).
Defined.

(** X20 in the shop. *)
Lemma detail_lists_in_the_shop :
  exists detail,
    spProductGet (shop 5) (Some 1) (Some 1) = inr detail
    /\ NoDup (map af_idFlavor (get_flavors detail))
    /\ NoDup (map as_idSize (get_sizes detail))
    /\ Sorted (fun s1 s2 => as_servings s1 <= as_servings s2) (get_sizes detail).
Proof.
  destruct (spProductGet (shop 5) (Some 1) (Some 1)) as [e|detail] eqn:E;
    [vm_compute in E; discriminate E|].
  exists detail. split; [reflexivity|].
  exact (detail_lists_each_choice_once_sizes_by_servings (shop 5) 1 1 detail E).
Defined.
